(** * Crypto trading desk: indicator and microstructure calculators

    A shallow embedding of the calculation layer of the tool servers
    [crypto_technical_analysis.py], [crypto_advanced_indicators.py],
    [crypto_futures_data.py] and [crypto_market_microstructure.py],
    together with [validators.py].

    Conventions of the embedding.

    - A Python or NumPy float is carried by its exact rational value
      ([Q]); the rounding of binary64 arithmetic is not modelled.  Where
      the source divides pandas or NumPy values, division by zero does not
      raise but yields an infinity or a NaN: those code paths use [float64],
      the rationals extended with IEEE's three special values.  Where the
      source divides plain Python floats, division by zero raises
      [ZeroDivisionError]: those paths run in the error monad [result].
    - Every tool is a function of its arguments and of what the exchange
      client returned ([result] of the fetched data, so that a failed fetch
      is an input as well).  The [try ... except Exception] of a tool is
      [guard].
    - Dictionaries returned by the tools are association lists in insertion
      order ([payload]). *)

(** Conventions of the tools that build on others.

    - A tool that consolidates other tools ([get_perpetual_stats],
      [compare_funding_rates], [detect_funding_arbitrage]) calls them as the
      plain functions they are defined as, and reads their answers as the
      dictionaries they return.
    - A reply to [requests.get] is its status code and the entries of its
      JSON body; a field of an entry is missing, the text of a number, or a
      text [float] refuses.
    - The columns of a frame hold finite values; a rolling window, a shift
      and a division are what bring NaN and infinities in. *)

From Stdlib Require Import QArith Qround Qabs ZArith List String Ascii Bool.
From Stdlib Require Import Lia Lqa DecimalString.
From Stdlib Require PrimFloat.
Import ListNotations.

Local Open Scope string_scope.
Local Open Scope Q_scope.

(** ** Numbers *)

Module Num.

Definition Qltb (x y : Q) : bool := negb (Qle_bool y x).
Definition Qgtb (x y : Q) : bool := Qltb y x.
Definition Qgeb (x y : Q) : bool := Qle_bool y x.

(** [sum(xs)] *)
Definition Qsum (xs : list Q) : Q := fold_left Qplus xs 0.

(** The integer nearest to [q], ties to the even one. *)
Definition round_half_even (q : Q) : Z :=
  let f := Qfloor q in
  match Qcompare (q - inject_Z f) (1 # 2) with
  | Lt => f
  | Gt => (f + 1)%Z
  | Eq => if Z.even f then f else (f + 1)%Z
  end.

(** Python's [round(x, ndigits)] on a float. *)
Definition round (q : Q) (ndigits : nat) : Q :=
  let scale := inject_Z (10 ^ Z.of_nat ndigits) in
  Qred (inject_Z (round_half_even (q * scale)) / scale).

(** Python's two-argument [max]: the first of the largest. *)
Definition pymax (a b : Q) : Q := if Qgtb b a then b else a.

(** [str(n)] for an int. *)
Definition str_of_Z (z : Z) : string := NilZero.string_of_int (Z.to_int z).

(** [f"{x:.Nf}"]: fixed-point text with [ndigits] decimals. *)
Definition format_f (q : Q) (ndigits : nat) : string :=
  let scale := (10 ^ Z.of_nat ndigits)%Z in
  let n := round_half_even (Qabs q * inject_Z scale) in
  let frac := str_of_Z (n mod scale) in
  ((if Qltb q 0 then "-" else "")
   ++ str_of_Z (n / scale)
   ++ match ndigits with
      | O => ""
      | _ => "." ++ string_of_list_ascii
                      (repeat "0"%char (ndigits - String.length frac))
                 ++ frac
      end)%string.

(** Python's two-argument [min]: the first of the smallest. *)
Definition pymin (a b : Q) : Q := if Qltb b a then b else a.

End Num.
Import Num.

(** ** NumPy float64 values: exact finite values and IEEE specials

    Signed zeros are not distinguished: a zero divisor behaves as [+0.0]. *)

Inductive float64 : Type :=
| Fin (q : Q)
| PInf
| NInf
| NaN.

Module F64.

Definition neg (x : float64) : float64 :=
  match x with
  | Fin q => Fin (- q)
  | PInf => NInf
  | NInf => PInf
  | NaN => NaN
  end.

Definition add (x y : float64) : float64 :=
  match x, y with
  | NaN, _ | _, NaN => NaN
  | PInf, NInf | NInf, PInf => NaN
  | PInf, _ | _, PInf => PInf
  | NInf, _ | _, NInf => NInf
  | Fin a, Fin b => Fin (a + b)
  end.

Definition sub (x y : float64) : float64 := add x (neg y).

Definition div (x y : float64) : float64 :=
  match x, y with
  | NaN, _ | _, NaN => NaN
  | Fin a, Fin b =>
      if Qeq_bool b 0 then
        (if Qltb 0 a then PInf else if Qltb a 0 then NInf else NaN)
      else Fin (a / b)
  | Fin _, (PInf | NInf) => Fin 0
  | PInf, Fin b => if Qltb b 0 then NInf else PInf
  | NInf, Fin b => if Qltb b 0 then PInf else NInf
  | (PInf | NInf), (PInf | NInf) => NaN
  end.

(** [x > y] and [x < y]: false as soon as one side is NaN. *)
Definition gtb (x y : float64) : bool :=
  match x, y with
  | NaN, _ | _, NaN => false
  | Fin a, Fin b => Qgtb a b
  | PInf, PInf => false
  | PInf, _ => true
  | _, NInf => match x with NInf => false | _ => true end
  | _, _ => false
  end.

Definition ltb (x y : float64) : bool := gtb y x.

Definition isnan (x : float64) : bool :=
  match x with NaN => true | _ => false end.

(** [round(x, ndigits)] leaves the special values as they are. *)
Definition round (x : float64) (ndigits : nat) : float64 :=
  match x with
  | Fin q => Fin (Num.round q ndigits)
  | _ => x
  end.

Definition mul (x y : float64) : float64 :=
  match x, y with
  | NaN, _ | _, NaN => NaN
  | Fin a, Fin b => Fin (a * b)
  | Fin a, PInf | PInf, Fin a =>
      if Qltb 0 a then PInf else if Qltb a 0 then NInf else NaN
  | Fin a, NInf | NInf, Fin a =>
      if Qltb 0 a then NInf else if Qltb a 0 then PInf else NaN
  | PInf, PInf | NInf, NInf => PInf
  | PInf, NInf | NInf, PInf => NInf
  end.

Definition abs (x : float64) : float64 :=
  match x with
  | Fin q => Fin (Qabs q)
  | PInf | NInf => PInf
  | NaN => NaN
  end.

(** Python's [max(x, y)] and [min(x, y)] on floats: the second argument
    wins only when the comparison holds, so never when one is NaN. *)
Definition pymax (x y : float64) : float64 := if gtb y x then y else x.
Definition pymin (x y : float64) : float64 := if ltb y x then y else x.

End F64.

(** ** Exceptions and the error monad *)

Inductive exn : Type :=
| ValueError (msg : string)
| IndexError (msg : string)
| TypeError (msg : string)
| ZeroDivisionError (msg : string)
| StatisticsError (msg : string)
| OtherError (cls : string) (msg : string).

(** [type(e).__name__] *)
Definition exn_name (e : exn) : string :=
  match e with
  | ValueError _ => "ValueError"
  | IndexError _ => "IndexError"
  | TypeError _ => "TypeError"
  | ZeroDivisionError _ => "ZeroDivisionError"
  | StatisticsError _ => "StatisticsError"
  | OtherError cls _ => cls
  end.

(** [str(e)] *)
Definition exn_str (e : exn) : string :=
  match e with
  | ValueError m | IndexError m | TypeError m | ZeroDivisionError m
  | StatisticsError m | OtherError _ m => m
  end.

Definition result (A : Type) : Type := (exn + A)%type.

Definition ret {A} (a : A) : result A := inr a.
Definition raise {A} (e : exn) : result A := inl e.
Definition bind {A B} (m : result A) (k : A -> result B) : result B :=
  match m with
  | inl e => inl e
  | inr a => k a
  end.

Declare Scope py_scope.
Delimit Scope py_scope with py.
Notation "x <- m ;; k" := (bind m (fun x => k))
  (at level 61, m at next level, right associativity) : py_scope.
Notation "' pat <- m ;; k" := (bind m (fun x => match x with pat => k end))
  (at level 61, pat pattern, m at next level, right associativity) : py_scope.
Local Open Scope py_scope.

(** Division of Python floats. *)
Definition pydiv (a b : Q) : result Q :=
  if Qeq_bool b 0 then raise (ZeroDivisionError "float division by zero")
  else ret (a / b).

(** ** Returned dictionaries *)

#[local] Set Warnings "-register-all".

Inductive value : Type :=
| VNone
| VBool (b : bool)
| VInt (z : Z)
| VFloat (x : float64)
| VStr (s : string)
| VList (l : list value)
| VDict (d : list (string * value)).

Definition payload : Type := list (string * value).

(** [d.get(key)] *)
Fixpoint get (key : string) (d : payload) : option value :=
  match d with
  | [] => None
  | (k, v) :: rest => if String.eqb k key then Some v else get key rest
  end.

Definition VNum (q : Q) : value := VFloat (Fin q).

(** The [except Exception as e] payload shared by the tools that report a
    [success] flag; [echo] are the request parameters repeated after it. *)
Definition failure (e : exn) (echo : payload) : payload :=
  ([("success", VBool false);
    ("error", VStr (exn_str e));
    ("error_type", VStr (exn_name e))] ++ echo)%list.

(** ** Strings (ASCII) *)

Module Str.

(** The ASCII characters [str.isspace] accepts. *)
Definition is_space (c : ascii) : bool :=
  let n := nat_of_ascii c in
  (Nat.leb 9 n && Nat.leb n 13) || (Nat.leb 28 n && Nat.leb n 32).

Definition is_upper (c : ascii) : bool :=
  let n := nat_of_ascii c in Nat.leb 65 n && Nat.leb n 90.

Definition is_lower (c : ascii) : bool :=
  let n := nat_of_ascii c in Nat.leb 97 n && Nat.leb n 122.

Definition is_alpha (c : ascii) : bool := is_upper c || is_lower c.

Definition upper_char (c : ascii) : ascii :=
  if is_lower c then ascii_of_nat (nat_of_ascii c - 32) else c.

Definition lower_char (c : ascii) : ascii :=
  if is_upper c then ascii_of_nat (nat_of_ascii c + 32) else c.

Fixpoint map (f : ascii -> ascii) (s : string) : string :=
  match s with
  | EmptyString => EmptyString
  | String c r => String (f c) (map f r)
  end.

Fixpoint forallb (f : ascii -> bool) (s : string) : bool :=
  match s with
  | EmptyString => true
  | String c r => f c && forallb f r
  end.

Definition upper : string -> string := map upper_char.
Definition lower : string -> string := map lower_char.

Fixpoint rev_append (s acc : string) : string :=
  match s with
  | EmptyString => acc
  | String c r => rev_append r (String c acc)
  end.

Definition rev (s : string) : string := rev_append s EmptyString.

Fixpoint lstrip (s : string) : string :=
  match s with
  | EmptyString => EmptyString
  | String c r => if is_space c then lstrip r else s
  end.

Definition strip (s : string) : string := rev (lstrip (rev (lstrip s))).

Definition is_empty (s : string) : bool :=
  match s with EmptyString => true | _ => false end.

(** [x in xs] *)
Definition mem (x : string) (xs : list string) : bool :=
  existsb (String.eqb x) xs.

Fixpoint insert_sorted (x : string) (xs : list string) : list string :=
  match xs with
  | [] => [x]
  | y :: r => if String.leb x y then x :: xs else y :: insert_sorted x r
  end.

(** [sorted(xs)] *)
Definition sorted (xs : list string) : list string :=
  fold_right insert_sorted [] xs.

Fixpoint join (sep : string) (xs : list string) : string :=
  match xs with
  | [] => ""
  | [x] => x
  | x :: r => x ++ sep ++ join sep r
  end.

(** [repr] of a list of plain strings, as an f-string prints it. *)
Definition repr_list (xs : list string) : string :=
  "[" ++ join ", " (List.map (fun x => "'" ++ x ++ "'") xs) ++ "]".

(** [s.replace(old, new)] for a non-empty [old]: the occurrences are taken
    from the left and do not overlap; [skip] characters of a match are still
    to be dropped. *)
Fixpoint replace_from (old new : string) (skip : nat) (s : string) : string :=
  match s with
  | EmptyString => EmptyString
  | String c rest =>
      match skip with
      | S k => replace_from old new k rest
      | O =>
          if String.prefix old s then
            new ++ replace_from old new (String.length old - 1) rest
          else String c (replace_from old new 0 rest)
      end
  end.

Definition replace (old new s : string) : string := replace_from old new 0 s.

End Str.

(** ** validators.py *)

Module Validators.

Definition SUPPORTED_EXCHANGES : list string :=
  ["binance"; "kraken"; "bitfinex"; "kucoin"; "mexc"; "bybit"; "okx"; "bitget"].

Definition VALID_TIMEFRAMES : list string :=
  ["1m"; "3m"; "5m"; "15m"; "30m";
   "1h"; "2h"; "4h"; "6h"; "8h"; "12h";
   "1d"; "3d"; "1w"; "1M"].

(** [_SYMBOL_RE = ^[A-Za-z]{1,10}$] *)
Definition symbol_re_match (s : string) : bool :=
  Nat.leb 1 (String.length s) && Nat.leb (String.length s) 10
  && Str.forallb Str.is_alpha s.

Definition validate_symbol (symbol : string) : result string :=
  if Str.is_empty symbol then
    raise (ValueError "Symbol must be a non-empty string")
  else
    let symbol := Str.upper (Str.strip symbol) in
    if negb (symbol_re_match symbol) then
      raise (ValueError ("Invalid symbol '" ++ symbol
                         ++ "': must be 1-10 letters (e.g. BTC, ETH)"))
    else ret symbol.

Definition validate_exchange (exchange : string) (supported : list string)
  : result string :=
  if Str.is_empty exchange then
    raise (ValueError "Exchange must be a non-empty string")
  else
    let exchange := Str.lower (Str.strip exchange) in
    let allowed :=
      match supported with [] => SUPPORTED_EXCHANGES | _ => supported end in
    if negb (Str.mem exchange allowed) then
      raise (ValueError ("Unsupported exchange '" ++ exchange
                         ++ "'. Supported: "
                         ++ Str.repr_list (Str.sorted allowed)))
    else ret exchange.

Definition validate_positive_int (v : Z) (name : string)
  (max_value : option Z) : result Z :=
  if (v <=? 0)%Z then
    raise (ValueError (name ++ " must be a positive integer, got "
                       ++ str_of_Z v))
  else
    match max_value with
    | Some m =>
        if (v >? m)%Z then
          raise (ValueError (name ++ " must be <= " ++ str_of_Z m
                             ++ ", got " ++ str_of_Z v))
        else ret v
    | None => ret v
    end.

Definition validate_timeframe (timeframe : string) : result string :=
  if Str.is_empty timeframe then
    raise (ValueError "Timeframe must be a non-empty string")
  else
    let timeframe := Str.strip timeframe in
    if negb (Str.mem timeframe VALID_TIMEFRAMES) then
      raise (ValueError ("Invalid timeframe '" ++ timeframe
                         ++ "'. Valid: "
                         ++ Str.repr_list (Str.sorted VALID_TIMEFRAMES)))
    else ret timeframe.

(** [_COIN_ID_RE = ^[a-z0-9\-]{1,100}$] *)
Definition is_coin_char (c : ascii) : bool :=
  Str.is_lower c
  || (let n := nat_of_ascii c in Nat.leb 48 n && Nat.leb n 57)
  || Ascii.eqb c "-".

Definition coin_id_re_match (s : string) : bool :=
  Nat.leb 1 (String.length s) && Nat.leb (String.length s) 100
  && Str.forallb is_coin_char s.

Definition validate_coin_id (coin_id : string) : result string :=
  if Str.is_empty coin_id then
    raise (ValueError "Coin ID must be a non-empty string")
  else
    let coin_id := Str.lower (Str.strip coin_id) in
    if negb (coin_id_re_match coin_id) then
      raise (ValueError ("Invalid coin ID '" ++ coin_id
                         ++ "': must be lowercase alphanumeric with hyphens"))
    else ret coin_id.

End Validators.
Import Validators.

(** ** Series *)

Record Candle : Type := mkCandle {
  timestamp : Z;
  open : Q;
  high : Q;
  low : Q;
  close : Q;
  volume : Q
}.

Definition DataFrame : Type := list Candle.

(** [xs.iloc[-k]] for [k >= 1]. *)
Definition iloc_neg {A} (xs : list A) (k : nat) : result A :=
  if Nat.ltb (List.length xs) k then
    raise (IndexError "single positional indexer is out-of-bounds")
  else
    match nth_error xs (List.length xs - k) with
    | Some x => ret x
    | None => raise (IndexError "single positional indexer is out-of-bounds")
    end.

(** [xs[-n:]] and [xs.tail(n)] *)
Definition tail {A} (n : nat) (xs : list A) : list A :=
  skipn (List.length xs - n) xs.

(** [df[name] = values]: pandas refuses a column of another length. *)
Definition set_column {A} (df : DataFrame) (values : list A) : result (list A) :=
  if Nat.eqb (List.length values) (List.length df) then ret values
  else raise (ValueError ("Length of values ("
                          ++ str_of_Z (Z.of_nat (List.length values))
                          ++ ") does not match length of index ("
                          ++ str_of_Z (Z.of_nat (List.length df)) ++ ")")).

(** [xs[a:b]] for [0 <= a <= b]. *)
Definition slice {A} (a b : nat) (xs : list A) : list A :=
  firstn (b - a) (skipn a xs).

(** [try: body except Exception as e: return failure] *)
Definition guard (echo : payload) (body : result payload) : payload :=
  match body with
  | inr p => p
  | inl e => failure e echo
  end.

(** The futures and microstructure tools validate [symbol], then [exchange]
    against the server's own exchanges; the handler echoes the bindings
    current when the exception arrives. *)
Definition with_symbol_exchange (supported : list string)
  (symbol exchange : string)
  (body : string -> string -> result payload) : payload :=
  match validate_symbol symbol with
  | inl e => failure e [("exchange", VStr exchange); ("symbol", VStr symbol)]
  | inr symbol =>
      match validate_exchange exchange supported with
      | inl e =>
          failure e [("exchange", VStr exchange); ("symbol", VStr symbol)]
      | inr exchange =>
          guard [("exchange", VStr exchange); ("symbol", VStr symbol)]
            (body symbol exchange)
      end
  end.

(** ** Reading returned dictionaries *)

(** Truth value of an optional float: [None] and [0.0] are false. *)
Definition truthy (x : option Q) : bool :=
  match x with
  | Some q => negb (Qeq_bool q 0)
  | None => false
  end.

(** Truth value of a returned value. *)
Definition truth (v : value) : bool :=
  match v with
  | VNone => false
  | VBool b => b
  | VInt z => negb (z =? 0)%Z
  | VFloat (Fin q) => negb (Qeq_bool q 0)
  | VFloat _ => true
  | VStr s => negb (Str.is_empty s)
  | VList l => match l with [] => false | _ => true end
  | VDict d => match d with [] => false | _ => true end
  end.

(** [d.get('success')] as a condition. *)
Definition succeeded (d : payload) : bool :=
  match get "success" d with
  | Some v => truth v
  | None => false
  end.

(** [d[key]] *)
Definition item (key : string) (d : payload) : result value :=
  match get key d with
  | Some v => ret v
  | None => raise (OtherError "KeyError" ("'" ++ key ++ "'"))
  end.

(** A value the code goes on to compare or to compute with as a number. *)
Definition as_number (v : value) : result float64 :=
  match v with
  | VFloat x => ret x
  | VInt z => ret (Fin (inject_Z z))
  | VBool b => ret (Fin (if b then 1 else 0))
  | _ => raise (TypeError "unsupported operand type(s)")
  end.


(** [d[key] = v] *)
Fixpoint dict_set (key : string) (v : value) (d : payload) : payload :=
  match d with
  | [] => [(key, v)]
  | (k, w) :: rest =>
      if String.eqb k key then (k, v) :: rest
      else (k, w) :: dict_set key v rest
  end.

(** [None] or a number. *)
Definition opt_num (x : option Q) : value :=
  match x with
  | Some q => VNum q
  | None => VNone
  end.

Definition opt_int (x : option Z) : value :=
  match x with
  | Some z => VInt z
  | None => VNone
  end.

(** ** statistics *)

Module Statistics.

(** [statistics.mean] *)
Definition mean (xs : list Q) : result Q :=
  match xs with
  | [] => raise (StatisticsError "mean requires at least one data point")
  | _ => ret (Qsum xs / inject_Z (Z.of_nat (List.length xs)))
  end.

End Statistics.

(** ** crypto_advanced_indicators.py *)

Module AdvancedIndicators.

Definition MFI_OVERBOUGHT : Q := 80.
Definition MFI_OVERSOLD : Q := 20.

(** The tools rebind [symbol] to its validated form first; the handler
    echoes whichever binding is current when the exception arrives. *)
Definition with_symbol (symbol : string) (body : string -> result payload)
  : payload :=
  match validate_symbol symbol with
  | inl e => failure e [("symbol", VStr symbol)]
  | inr symbol => guard [("symbol", VStr symbol)] (body symbol)
  end.

(** *** calculate_obv: the OBV column *)

(** The loop [for i in range(1, len(df))], with [prev] the row [i-1] and
    [last] the value [obv[-1]]; it returns the values appended. *)
Fixpoint obv_loop (prev : Candle) (last : Q) (rows : list Candle) : list Q :=
  match rows with
  | [] => []
  | c :: rest =>
      let next :=
        if Qgtb (close c) (close prev) then last + volume c
        else if Qltb (close c) (close prev) then last - volume c
        else last in
      next :: obv_loop c next rest
  end.

Definition obv_values (df : DataFrame) : list Q :=
  0 :: match df with
       | [] => []
       | c0 :: rest => obv_loop c0 0 rest
       end.

(** *** calculate_mfi *)

Definition typical_price (c : Candle) : Q := (high c + low c + close c) / 3.
Definition money_flow (c : Candle) : Q := typical_price c * volume c.

(** The loop filling [positive_flow] and [negative_flow]. *)
Fixpoint flow_loop (prev : Candle) (rows : list Candle) : list Q * list Q :=
  match rows with
  | [] => ([], [])
  | c :: rest =>
      let '(positive_flow, negative_flow) := flow_loop c rest in
      if Qgtb (typical_price c) (typical_price prev) then
        (money_flow c :: positive_flow, 0 :: negative_flow)
      else if Qltb (typical_price c) (typical_price prev) then
        (0 :: positive_flow, money_flow c :: negative_flow)
      else
        (0 :: positive_flow, 0 :: negative_flow)
  end.

Definition flows (df : DataFrame) : list Q * list Q :=
  match df with
  | [] => ([], [])
  | c0 :: rest => flow_loop c0 rest
  end.

(** One MFI value from the two window sums (NumPy scalars). *)
Definition mfi_val (pos_sum neg_sum : Q) : float64 :=
  if Qeq_bool neg_sum 0 then Fin 100
  else
    let money_ratio := F64.div (Fin pos_sum) (Fin neg_sum) in
    F64.sub (Fin 100) (F64.div (Fin 100) (F64.add (Fin 1) money_ratio)).

(** [for i in range(period, len(df))] over the two flow columns. *)
Definition mfi_values (period : nat) (positive negative : list Q)
  : list float64 :=
  List.map
    (fun i => mfi_val (Qsum (slice (i - period) i positive))
                      (Qsum (slice (i - period) i negative)))
    (seq period (List.length positive - period)).

Definition mfi_signal (current_mfi : float64) : string * string :=
  if F64.gtb current_mfi (Fin MFI_OVERBOUGHT) then
    ("OVERBOUGHT", "Overbought - High money flow - Possible correction")
  else if F64.ltb current_mfi (Fin MFI_OVERSOLD) then
    ("OVERSOLD", "Oversold - Low money flow - Possible bounce")
  else
    ("NEUTRAL", "MFI in neutral range").

(** *** calculate_pivot_points *)

Record Pivots : Type := mkPivots {
  pivot : Q;
  r1 : Q; r2 : Q; r3 : Q;
  s1 : Q; s2 : Q; s3 : Q
}.

(** The seven levels from the previous bar's high, low and close. *)
Definition pivot_levels (high low close : Q) : Pivots :=
  let pivot := (high + low + close) / 3 in
  {| pivot := pivot;
     r1 := 2 * pivot - low;
     r2 := pivot + (high - low);
     r3 := high + 2 * (pivot - low);
     s1 := 2 * pivot - high;
     s2 := pivot - (high - low);
     s3 := low - 2 * (high - pivot) |}.

(** [min(items, key=...)]: the first item with the smallest key. *)
Fixpoint min_by {A} (key : A -> Q) (best : A) (xs : list A) : A :=
  match xs with
  | [] => best
  | x :: rest => min_by key (if Qltb (key x) (key best) then x else best) rest
  end.

Definition WILLIAMS_OVERBOUGHT : Q := -20.
Definition WILLIAMS_OVERSOLD : Q := -80.

(** *** Rolling windows *)

(** The largest and the smallest entry of a window of finite values. *)
Definition window_max (xs : list Q) : float64 :=
  match xs with
  | [] => NaN
  | x :: rest => Fin (fold_left pymax rest x)
  end.

Definition window_min (xs : list Q) : float64 :=
  match xs with
  | [] => NaN
  | x :: rest => Fin (fold_left pymin rest x)
  end.

(** [s.rolling(window=w)] followed by an aggregation: NaN until [w] rows
    are seen, then the aggregate of the last [w] entries. *)
Definition rolling (agg : list Q -> float64) (w : nat) (xs : list Q)
  : list float64 :=
  List.map
    (fun i =>
       if Nat.ltb (i + 1) w then NaN
       else agg (slice (i + 1 - w) (i + 1) xs))
    (seq 0 (List.length xs)).

Definition rolling_max : nat -> list Q -> list float64 := rolling window_max.
Definition rolling_min : nat -> list Q -> list float64 := rolling window_min.

(** [s.shift(k)] for [k >= 0]: [k] NaN in front, the length kept. *)
Definition shift (k : nat) (xs : list float64) : list float64 :=
  firstn (List.length xs) (repeat NaN k ++ xs)%list.

(** [(a + b) / 2], entry by entry. *)
Definition midline (highs lows : list float64) : list float64 :=
  List.map (fun hl => F64.div (F64.add (fst hl) (snd hl)) (Fin 2))
           (combine highs lows).

(** *** calculate_williams_r *)

(** [((highest_high - close) / (highest_high - lowest_low)) * -100] *)
Definition williams_r (period : nat) (df : DataFrame) : list float64 :=
  let highest_high := rolling_max period (List.map high df) in
  let lowest_low := rolling_min period (List.map low df) in
  List.map
    (fun x =>
       let '(hh, (ll, c)) := x in
       F64.mul (F64.div (F64.sub hh (Fin c)) (F64.sub hh ll)) (Fin (-100)))
    (combine highest_high (combine lowest_low (List.map close df))).

Definition williams_signal (current_wr : float64) : string * string :=
  if F64.gtb current_wr (Fin WILLIAMS_OVERBOUGHT) then
    ("OVERBOUGHT", "Overbought - Possible correction")
  else if F64.ltb current_wr (Fin WILLIAMS_OVERSOLD) then
    ("OVERSOLD", "Oversold - Possible bounce")
  else
    ("NEUTRAL", "Williams %R in neutral range").

(** *** calculate_ichimoku *)

(** The conversion and base lines over a window, and a leading span, which
    is a line shifted 26 rows forward. *)
Definition ichimoku_line (w : nat) (df : DataFrame) : list float64 :=
  midline (rolling_max w (List.map high df)) (rolling_min w (List.map low df)).

Definition senkou_span_a (df : DataFrame) : list float64 :=
  shift 26 (midline (ichimoku_line 9 df) (ichimoku_line 26 df)).

Definition senkou_span_b (df : DataFrame) : list float64 :=
  shift 26 (ichimoku_line 52 df).

Definition cloud_signal (current_price senkou_a senkou_b : float64) : string :=
  if F64.gtb current_price (F64.pymax senkou_a senkou_b) then
    "Price above cloud - Bullish"
  else if F64.ltb current_price (F64.pymin senkou_a senkou_b) then
    "Price below cloud - Bearish"
  else "Price inside cloud - Indecisive".

Definition tk_signal (tenkan kijun : float64) : string :=
  if F64.gtb tenkan kijun then "Tenkan > Kijun - Bullish signal"
  else "Tenkan < Kijun - Bearish signal".

Section Tools.

(** [EXCHANGE.fetch_ohlcv(symbol, timeframe, limit=limit)], read into
    a frame. *)
Variable fetch_ohlcv : string -> string -> Z -> result DataFrame.

Definition _fetch_ohlcv (symbol timeframe : string) (limit : Z)
  : result DataFrame :=
  fetch_ohlcv (symbol ++ "/USDT") timeframe limit.

Definition calculate_mfi (symbol timeframe : string) (period periods : Z)
  : payload :=
  with_symbol symbol (fun symbol =>
    timeframe <- validate_timeframe timeframe ;;
    period <- validate_positive_int period "period" (Some 100%Z) ;;
    periods <- validate_positive_int periods "periods" (Some 500%Z) ;;
    df <- _fetch_ohlcv symbol timeframe periods ;;
    let '(positive_flow, negative_flow) := flows df in
    positive <- set_column df (0 :: positive_flow) ;;
    negative <- set_column df (0 :: negative_flow) ;;
    let period_n := Z.to_nat period in
    mfi <- set_column df
             (repeat None period_n
              ++ List.map Some (mfi_values period_n positive negative))%list ;;
    current_mfi <- iloc_neg mfi 1 ;;
    match current_mfi with
    | None =>
        raise (TypeError
          "'>' not supported between instances of 'NoneType' and 'int'")
    | Some current_mfi =>
        let '(signal, interpretation) := mfi_signal current_mfi in
        last <- iloc_neg df 1 ;;
        ret [("success", VBool true);
             ("symbol", VStr symbol);
             ("timeframe", VStr timeframe);
             ("period", VInt period);
             ("current_mfi", VFloat (F64.round current_mfi 2));
             ("signal", VStr signal);
             ("interpretation", VStr interpretation);
             ("current_price", VNum (close last))]
    end).

Definition calculate_pivot_points (symbol timeframe : string) (periods : Z)
  : payload :=
  with_symbol symbol (fun symbol =>
    timeframe <- validate_timeframe timeframe ;;
    periods <- validate_positive_int periods "periods" (Some 30%Z) ;;
    df <- _fetch_ohlcv symbol timeframe periods ;;
    prev <- iloc_neg df 2 ;;
    let p := pivot_levels (high prev) (low prev) (close prev) in
    last <- iloc_neg df 1 ;;
    let current_price := close last in
    let closest_level :=
      min_by (fun x => Qabs (snd x - current_price))
        ("R3", r3 p)
        [("R2", r2 p); ("R1", r1 p); ("PIVOT", pivot p);
         ("S1", s1 p); ("S2", s2 p); ("S3", s3 p)] in
    ret [("success", VBool true);
         ("symbol", VStr symbol);
         ("timeframe", VStr timeframe);
         ("current_price", VNum current_price);
         ("pivot", VNum (round (pivot p) 2));
         ("resistances",
           VDict [("R1", VNum (round (r1 p) 2));
                  ("R2", VNum (round (r2 p) 2));
                  ("R3", VNum (round (r3 p) 2))]);
         ("supports",
           VDict [("S1", VNum (round (s1 p) 2));
                  ("S2", VNum (round (s2 p) 2));
                  ("S3", VNum (round (s3 p) 2))]);
         ("closest_level",
           VDict [("level", VStr (fst closest_level));
                  ("price", VNum (round (snd closest_level) 2));
                  ("distance",
                    VNum (round (current_price - snd closest_level) 2))])]).

Definition calculate_williams_r (symbol timeframe : string)
  (period periods : Z) : payload :=
  with_symbol symbol (fun symbol =>
    timeframe <- validate_timeframe timeframe ;;
    period <- validate_positive_int period "period" (Some 100%Z) ;;
    periods <- validate_positive_int periods "periods" (Some 500%Z) ;;
    df <- _fetch_ohlcv symbol timeframe periods ;;
    current_wr <- iloc_neg (williams_r (Z.to_nat period) df) 1 ;;
    let '(signal, interpretation) := williams_signal current_wr in
    last <- iloc_neg df 1 ;;
    ret [("success", VBool true);
         ("symbol", VStr symbol);
         ("timeframe", VStr timeframe);
         ("period", VInt period);
         ("current_williams_r", VFloat (F64.round current_wr 2));
         ("signal", VStr signal);
         ("interpretation", VStr interpretation);
         ("current_price", VNum (close last))]).

(** [calculate_ichimoku].  The column [chikou_span], which the tool fills
    and never reads, is not part of the embedding. *)
Definition calculate_ichimoku (symbol timeframe : string) (periods : Z)
  : payload :=
  with_symbol symbol (fun symbol =>
    timeframe <- validate_timeframe timeframe ;;
    periods <- validate_positive_int periods "periods" (Some 500%Z) ;;
    df <- _fetch_ohlcv symbol timeframe periods ;;
    last <- iloc_neg df 1 ;;
    let current_price := close last in
    tenkan <- iloc_neg (ichimoku_line 9 df) 1 ;;
    kijun <- iloc_neg (ichimoku_line 26 df) 1 ;;
    senkou_a <- iloc_neg (senkou_span_a df) 1 ;;
    senkou_b <- iloc_neg (senkou_span_b df) 1 ;;
    let cloud_color :=
      if F64.gtb senkou_a senkou_b then "BULLISH_CLOUD"
      else "BEARISH_CLOUD" in
    let signals :=
      [cloud_signal (Fin current_price) senkou_a senkou_b;
       tk_signal tenkan kijun] in
    ret [("success", VBool true);
         ("symbol", VStr symbol);
         ("timeframe", VStr timeframe);
         ("current_price", VNum current_price);
         ("tenkan_sen", VFloat (F64.round tenkan 2));
         ("kijun_sen", VFloat (F64.round kijun 2));
         ("senkou_span_a", VFloat (F64.round senkou_a 2));
         ("senkou_span_b", VFloat (F64.round senkou_b 2));
         ("cloud_color", VStr cloud_color);
         ("signals", VList (List.map VStr signals))]).

End Tools.

End AdvancedIndicators.

(** ** crypto_technical_analysis.py *)

Module TechnicalAnalysis.

(** [s.diff()]: the first entry has no predecessor and is NaN. *)
Fixpoint diff_loop (prev : Q) (xs : list Q) : list float64 :=
  match xs with
  | [] => []
  | x :: rest => Fin (x - prev) :: diff_loop x rest
  end.

Definition diff (xs : list Q) : list float64 :=
  match xs with
  | [] => []
  | x :: rest => NaN :: diff_loop x rest
  end.

(** [s.where(cond, other)] keeps the entries on which [cond] holds. *)
Definition where_ (cond : float64 -> bool) (other : float64)
  (xs : list float64) : list float64 :=
  List.map (fun x => if cond x then x else other) xs.

Definition fsum (xs : list float64) : float64 :=
  fold_left F64.add xs (Fin 0).

(** [s.rolling(window=w).mean()]: NaN until [w] rows are seen, then the
    mean of the last [w] entries. *)
Definition rolling_mean_nat (w : nat) (xs : list float64) : list float64 :=
  List.map
    (fun i =>
       if Nat.ltb (i + 1) w then NaN
       else F64.div (fsum (slice (i + 1 - w) (i + 1) xs))
                    (Fin (inject_Z (Z.of_nat w))))
    (seq 0 (List.length xs)).

Definition rolling_mean (window : Z) (xs : list float64)
  : result (list float64) :=
  if (window <? 0)%Z then
    raise (ValueError "window must be an integer 0 or greater")
  else ret (rolling_mean_nat (Z.to_nat window) xs).

Fixpoint map2 {A B C} (f : A -> B -> C) (xs : list A) (ys : list B) : list C :=
  match xs, ys with
  | x :: xs', y :: ys' => f x y :: map2 f xs' ys'
  | _, _ => []
  end.

(** The columns [gain] and [loss] of [calculate_rsi]. *)
Definition rsi_gain (period : Z) (close_prices : list Q)
  : result (list float64) :=
  let delta := diff close_prices in
  rolling_mean period (where_ (fun d => F64.gtb d (Fin 0)) (Fin 0) delta).

Definition rsi_loss (period : Z) (close_prices : list Q)
  : result (list float64) :=
  let delta := diff close_prices in
  rolling_mean period
    (List.map F64.neg (where_ (fun d => F64.ltb d (Fin 0)) (Fin 0) delta)).

(** [100 - (100 / (1 + rs))], entry by entry. *)
Definition rsi_of_rs (rs : float64) : float64 :=
  F64.sub (Fin 100) (F64.div (Fin 100) (F64.add (Fin 1) rs)).

Definition rsi_series (period : Z) (close_prices : list Q)
  : result (list float64) :=
  gain <- rsi_gain period close_prices ;;
  loss <- rsi_loss period close_prices ;;
  let rs := map2 F64.div gain loss in
  ret (List.map rsi_of_rs rs).

Definition rsi_signal (current_rsi : float64) : string :=
  if F64.gtb current_rsi (Fin 70) then "OVERBOUGHT"
  else if F64.ltb current_rsi (Fin 30) then "OVERSOLD"
  else if F64.gtb current_rsi (Fin 50) then "BULLISH"
  else "BEARISH".

(** [s.dropna()] *)
Definition dropna (xs : list float64) : list float64 :=
  filter (fun x => negb (F64.isnan x)) xs.

Definition rsi_trend (recent_rsi : list float64) : string :=
  if Nat.leb 3 (List.length recent_rsi) then
    match iloc_neg recent_rsi 1, iloc_neg recent_rsi 3 with
    | inr a, inr b =>
        if F64.gtb a b then "RISING"
        else if F64.ltb a b then "FALLING"
        else "FLAT"
    | _, _ => "FLAT"
    end
  else "FLAT".

(** *** calculate_fibonacci_levels *)












Section Tools.

(** [safe_fetch_ohlcv_data(symbol, days)]: the frame of the first source
    that answers with more than ten rows, or [None]; it never raises. *)
Variable safe_fetch_ohlcv_data : string -> Z -> option DataFrame.

(** [datetime.now().isoformat()] *)
Variable now_isoformat : string.

Definition calculate_rsi_body (symbol : string) (period : Z) (df : DataFrame)
  : result payload :=
  let close_prices := List.map close df in
  rsi <- rsi_series period close_prices ;;
  current_rsi <- iloc_neg rsi 1 ;;
  let signal := rsi_signal current_rsi in
  let recent_rsi := dropna (tail 5 rsi) in
  ret [("symbol", VStr symbol);
       ("current_rsi", VFloat (F64.round current_rsi 2));
       ("rsi_signal", VStr signal);
       ("period", VInt period);
       ("overbought_threshold", VInt 70);
       ("oversold_threshold", VInt 30);
       ("rsi_trend", VStr (rsi_trend recent_rsi));
       ("recent_rsi_values",
         VList (List.map (fun x => VFloat (F64.round x 2)) (tail 5 recent_rsi)));
       ("analysis_timestamp", VStr now_isoformat)].

Definition insufficient_data (symbol : string) (need : Z) : payload :=
  [("error", VStr ("Insufficient data for " ++ symbol ++ ". Need at least "
                   ++ str_of_Z need ++ " data points."))].

Definition calculate_rsi (symbol : string) (period days : Z) : payload :=
  match safe_fetch_ohlcv_data symbol days with
  | None => insufficient_data symbol (period + 1)
  | Some df =>
      if (Z.of_nat (List.length df) <? period + 1)%Z then
        insufficient_data symbol (period + 1)
      else
        match calculate_rsi_body symbol period df with
        | inr p => p
        | inl e =>
            [("error", VStr ("RSI calculation failed: " ++ exn_str e));
             ("error_type", VStr (exn_name e))]
        end
  end.



End Tools.

End TechnicalAnalysis.

(** ** crypto_futures_data.py *)

Module FuturesData.

(** The keys of [RELIABLE_FUTURES_EXCHANGES]. *)
Definition RELIABLE_FUTURES_EXCHANGES : list string :=
  ["binance"; "bybit"; "okx"; "bitget"; "mexc"].

(** The module-level funding thresholds (annualized percent). *)
Record FundingThresholds : Type := mkFundingThresholds {
  FUNDING_NEUTRAL_THRESHOLD : Q;
  FUNDING_EXTREME_THRESHOLD : Q
}.

Definition funding_thresholds : FundingThresholds :=
  {| FUNDING_NEUTRAL_THRESHOLD := 5; FUNDING_EXTREME_THRESHOLD := 50 |}.

Definition _get_exchange (exchange_name : string) : result string :=
  if negb (Str.mem exchange_name RELIABLE_FUTURES_EXCHANGES) then
    raise (ValueError ("Unsupported exchange: " ++ exchange_name
                       ++ ". Supported: "
                       ++ Str.repr_list (Str.sorted RELIABLE_FUTURES_EXCHANGES)))
  else ret exchange_name.

Fixpoint contains_char (c : ascii) (s : string) : bool :=
  match s with
  | EmptyString => false
  | String d rest => Ascii.eqb c d || contains_char c rest
  end.

(** [s.split(c)[0]] *)
Fixpoint before_char (c : ascii) (s : string) : string :=
  match s with
  | EmptyString => EmptyString
  | String d rest => if Ascii.eqb c d then EmptyString
                     else String d (before_char c rest)
  end.

Definition _format_symbol (symbol : string) : string :=
  if contains_char ":" symbol then symbol
  else if contains_char "/" symbol then before_char "/" symbol ++ "/USDT:USDT"
  else symbol ++ "/USDT:USDT".

(** What [fetch_funding_rate] answers, as far as the tool reads it. *)
Record FundingRate : Type := mkFundingRate {
  fundingRate : option Q;
  fundingTimestamp : option Z
}.

(** The annualized rate, in percent: three fundings a day. *)
Definition annualize (rate : Q) : Q := rate * 3 * 365 * 100.

(** The [if / elif / else] that labels the annualized rate. *)
Definition funding_bias (th : FundingThresholds) (annual_rate : Q)
  : string * string :=
  if Qltb (Qabs annual_rate) (FUNDING_NEUTRAL_THRESHOLD th) then
    ("NEUTRAL", "Neutral funding rate, balanced market")
  else if Qgtb annual_rate (FUNDING_NEUTRAL_THRESHOLD th) then
    ("BULLISH_EXTREME",
     "Very positive funding rate - Longs paying Shorts - Possible correction")
  else
    ("BEARISH_EXTREME",
     "Very negative funding rate - Shorts paying Longs - Possible bounce").

(** The leverage ladder of [calculate_liquidation_levels]. *)
Definition leverages : list Z := [5; 10; 20; 50; 100]%Z.

Definition long_liq (current_price : Q) (lev : Z) : Q :=
  current_price * (1 - (1 / inject_Z lev) - (5 # 1000)).

Definition short_liq (current_price : Q) (lev : Z) : Q :=
  current_price * (1 + (1 / inject_Z lev) + (5 # 1000)).

(** The loop over the ladder: the two dictionaries keyed ["5x"], ["10x"] ...,
    each value rounded to two places. *)
Definition liquidation_levels (current_price : Q) : payload * payload :=
  (List.map (fun lev => (str_of_Z lev ++ "x",
                         VNum (round (long_liq current_price lev) 2)))
            leverages,
   List.map (fun lev => (str_of_Z lev ++ "x",
                         VNum (round (short_liq current_price lev) 2)))
            leverages).

Definition LS_EXTREMELY_BULLISH : Q := 2.
Definition LS_BULLISH : Q := 1.2.
Definition LS_EXTREMELY_BEARISH : Q := 0.5.
Definition LS_BEARISH : Q := 0.8.
Definition TAKER_STRONG_BUY : Q := 1.5.
Definition TAKER_MODERATE_BUY : Q := 1.1.
Definition TAKER_STRONG_SELL : Q := 0.7.
Definition TAKER_MODERATE_SELL : Q := 0.9.
Definition MIN_ARBITRAGE_SPREAD_ANNUAL : Q := 10.
Definition SCORE_FUNDING_EXTREME : Z := 15.
Definition SCORE_LS_RATIO : Z := 10.
Definition SCORE_TAKER_PRESSURE : Z := 10.

(** *** get_funding_rate_history *)

(** The rates of the history as [statistics.mean] takes them: it refuses a
    rate that is [None]. *)
Fixpoint float_rates (rates : list (option Q)) : result (list Q) :=
  match rates with
  | [] => ret []
  | Some r :: rest => more <- float_rates rest ;; ret (r :: more)
  | None :: _ =>
      raise (TypeError
               "can't convert type 'NoneType' to numerator/denominator")
  end.

(** [max(xs)] and [min(xs)] *)
Definition list_max (xs : list Q) : result Q :=
  match xs with
  | [] => raise (ValueError "max() arg is an empty sequence")
  | x :: rest => ret (fold_left pymax rest x)
  end.

Definition list_min (xs : list Q) : result Q :=
  match xs with
  | [] => raise (ValueError "min() arg is an empty sequence")
  | x :: rest => ret (fold_left pymin rest x)
  end.

(** [xs[-1]] *)
Definition list_last {A} (xs : list A) : result A :=
  match nth_error xs (List.length xs - 1) with
  | Some x => ret x
  | None => raise (IndexError "list index out of range")
  end.

(** The last eight fundings against the first eight. *)
Definition history_trend (rates : list Q) : result string :=
  if Nat.leb 16 (List.length rates) then
    recent_avg <- Statistics.mean (tail 8 rates) ;;
    older_avg <- Statistics.mean (firstn 8 rates) ;;
    ret (if Qgtb recent_avg older_avg then "INCREASING" else "DECREASING")
  else ret "INSUFFICIENT_DATA".

(** *** get_open_interest *)

(** What [fetch_open_interest] answers, as far as the tool reads it. *)
Record OpenInterest : Type := mkOpenInterest {
  openInterestAmount : option Q;
  openInterestValue : option Q;
  oi_timestamp : option Z
}.

(** [oi_value / current_price if current_price else 0] *)
Definition oi_equivalent (oi_value current_price : option Q) : result Q :=
  if truthy current_price then
    match oi_value, current_price with
    | Some v, Some p => pydiv v p
    | _, _ =>
        raise (TypeError
                 "unsupported operand type(s) for /: 'NoneType' and 'float'")
    end
  else ret 0.

Definition oi_interpretation (oi_btc_equivalent : Q) : list string :=
  if Qgtb oi_btc_equivalent 100000 then
    ["Very high OI - High liquidity and participation"]
  else if Qltb oi_btc_equivalent 50000 then
    ["Low OI - Low futures participation"]
  else [].

(** *** get_long_short_ratio and get_taker_buy_sell_ratio *)

(** A field of an entry of Binance's reply: missing, the text of a number,
    or a text [float] refuses. *)
Inductive JsonNumber : Type :=
| Absent
| Number (q : Q)
| Malformed (text : string).

(** [float(data.get(key, 0))] *)
Definition float_or_zero (x : JsonNumber) : result Q :=
  match x with
  | Absent => ret 0
  | Number q => ret q
  | Malformed text =>
      raise (ValueError ("could not convert string to float: '" ++ text
                         ++ "'"))
  end.

(** The reply to [requests.get]: the status and the entries of the JSON
    body. *)
Record Response (A : Type) : Type := mkResponse {
  status_code : Z;
  json : list A
}.
Arguments status_code {A}.
Arguments json {A}.

Record RatioEntry : Type := mkRatioEntry {
  longShortRatio : JsonNumber
}.

Record TakerEntry : Type := mkTakerEntry {
  buySellRatio : JsonNumber;
  buyVol : JsonNumber;
  sellVol : JsonNumber
}.

Definition ls_sentiment (top_ratio : Q) : string * string :=
  if Qgtb top_ratio LS_EXTREMELY_BULLISH then
    ("EXTREMELY_BULLISH", "Top traders very long - Possible reversal")
  else if Qgtb top_ratio LS_BULLISH then
    ("BULLISH", "Top traders moderately long")
  else if Qltb top_ratio LS_EXTREMELY_BEARISH then
    ("EXTREMELY_BEARISH", "Top traders very short - Possible reversal")
  else if Qltb top_ratio LS_BEARISH then
    ("BEARISH", "Top traders moderately short")
  else
    ("NEUTRAL", "Top traders balanced").

Definition taker_pressure (buy_sell_ratio : Q) : string * string :=
  if Qgtb buy_sell_ratio TAKER_STRONG_BUY then
    ("STRONG_BUY_PRESSURE",
     "Strong buy pressure - Takers buying aggressively")
  else if Qgtb buy_sell_ratio TAKER_MODERATE_BUY then
    ("MODERATE_BUY_PRESSURE", "Moderate buy pressure")
  else if Qltb buy_sell_ratio TAKER_STRONG_SELL then
    ("STRONG_SELL_PRESSURE",
     "Strong sell pressure - Takers selling aggressively")
  else if Qltb buy_sell_ratio TAKER_MODERATE_SELL then
    ("MODERATE_SELL_PRESSURE", "Moderate sell pressure")
  else
    ("BALANCED", "Balanced pressure between buyers and sellers").

(** *** get_perpetual_stats *)

(** The three adjustments of the score; each takes and returns the score
    with the signals collected so far. *)
Definition funding_adjustment (funding : payload) (acc : Z * list string)
  : result (Z * list string) :=
  let '(score, signals) := acc in
  if succeeded funding then
    v <- item "annual_rate_percentage" funding ;;
    annual_rate <- as_number v ;;
    let extreme := Fin (FUNDING_EXTREME_THRESHOLD funding_thresholds) in
    if F64.gtb (F64.abs annual_rate) extreme then
      if F64.gtb annual_rate extreme then
        ret ((score - SCORE_FUNDING_EXTREME)%Z,
             (signals ++ ["Extremely high funding - Correction risk"])%list)
      else
        ret ((score + SCORE_FUNDING_EXTREME)%Z,
             (signals ++ ["Extremely low funding - Possible bounce"])%list)
    else ret acc
  else ret acc.

Definition ls_adjustment (ls_ratio : option payload) (acc : Z * list string)
  : result (Z * list string) :=
  let '(score, signals) := acc in
  match ls_ratio with
  | Some ls_ratio =>
      if truth (VDict ls_ratio) && succeeded ls_ratio then
        v <- item "top_trader_long_short_ratio" ls_ratio ;;
        ratio <- as_number v ;;
        if F64.gtb ratio (Fin LS_EXTREMELY_BULLISH) then
          ret ((score - SCORE_LS_RATIO)%Z,
               (signals ++ ["Top traders very long - Crowded trade"])%list)
        else if F64.ltb ratio (Fin LS_EXTREMELY_BEARISH) then
          ret ((score + SCORE_LS_RATIO)%Z,
               (signals ++ ["Top traders very short - Contrarian setup"])%list)
        else ret acc
      else ret acc
  | None => ret acc
  end.

Definition taker_adjustment (taker_ratio : option payload)
  (acc : Z * list string) : result (Z * list string) :=
  let '(score, signals) := acc in
  match taker_ratio with
  | Some taker_ratio =>
      if truth (VDict taker_ratio) && succeeded taker_ratio then
        pressure <- item "market_pressure" taker_ratio ;;
        match pressure with
        | VStr pressure =>
            if String.eqb pressure "STRONG_BUY_PRESSURE" then
              ret ((score + SCORE_TAKER_PRESSURE)%Z,
                   (signals ++ ["Strong buy pressure"])%list)
            else if String.eqb pressure "STRONG_SELL_PRESSURE" then
              ret ((score - SCORE_TAKER_PRESSURE)%Z,
                   (signals ++ ["Strong sell pressure"])%list)
            else ret acc
        | _ => ret acc
        end
      else ret acc
  | None => ret acc
  end.

Definition overall_signal (score : Z) : string :=
  if (score >=? 70)%Z then "STRONG_BUY"
  else if (score >=? 55)%Z then "BUY"
  else if (score <=? 30)%Z then "STRONG_SELL"
  else if (score <=? 45)%Z then "SELL"
  else "NEUTRAL".

(** [d if d.get('success') else None] *)
Definition if_success (d : payload) : value :=
  if succeeded d then VDict d else VNone.

(** *** compare_funding_rates *)

(** An entry of [rates]. *)
Record FundingQuote : Type := mkFundingQuote {
  quote_exchange : string;
  quote_rate : Q;
  quote_annual_rate : Q
}.

Definition quote_dict (q : FundingQuote) : value :=
  VDict [("exchange", VStr (quote_exchange q));
         ("rate", VNum (quote_rate q));
         ("annual_rate", VNum (quote_annual_rate q))].

(** [sorted(rates, key=lambda x: x['rate'])]: the sort is stable. *)
Fixpoint insert_by_rate (x : FundingQuote) (xs : list FundingQuote)
  : list FundingQuote :=
  match xs with
  | [] => [x]
  | y :: rest =>
      if Qle_bool (quote_rate x) (quote_rate y) then x :: xs
      else y :: insert_by_rate x rest
  end.

Definition sorted_by_rate (rates : list FundingQuote) : list FundingQuote :=
  fold_right insert_by_rate [] rates.

Section Tools.

(** [ex.fetch_funding_rate(formatted_symbol)] on the exchange named. *)
Variable fetch_funding_rate : string -> string -> result FundingRate.

(** [ex.fetch_ticker(formatted_symbol)['last']] on the exchange named. *)
Variable fetch_ticker_last : string -> string -> result (option Q).

(** [get_funding_rate].  The clock-dependent fields [next_funding_time] and
    [time_until_funding] and the echo [raw_data] of the exchange's reply are
    not part of the embedding. *)
Definition get_funding_rate (symbol exchange : string) : payload :=
  with_symbol_exchange RELIABLE_FUTURES_EXCHANGES symbol exchange
    (fun symbol exchange =>
    ex <- _get_exchange exchange ;;
    let formatted_symbol := _format_symbol symbol in
    funding_rate <- fetch_funding_rate ex formatted_symbol ;;
    rate <- match fundingRate funding_rate with
            | Some rate => ret rate
            | None => raise (TypeError
                "unsupported operand type(s) for *: 'NoneType' and 'int'")
            end ;;
    let annual_rate := annualize rate in
    _ <- match fundingTimestamp funding_rate with
         | Some ts => ret ts
         | None => raise (TypeError
             "unsupported operand type(s) for /: 'NoneType' and 'int'")
         end ;;
    let '(bias, interpretation) := funding_bias funding_thresholds annual_rate in
    ret [("success", VBool true);
         ("exchange", VStr exchange);
         ("symbol", VStr formatted_symbol);
         ("funding_rate", VNum rate);
         ("funding_rate_percentage", VNum (rate * 100));
         ("annual_rate_percentage", VNum (round annual_rate 2));
         ("market_bias", VStr bias);
         ("interpretation", VStr interpretation)]).

(** [calculate_liquidation_levels].  The [critical_zones] strings, which
    print two of the levels again, are not part of the embedding. *)
Definition calculate_liquidation_levels (symbol exchange : string)
  (current_price : option Q) : payload :=
  with_symbol_exchange RELIABLE_FUTURES_EXCHANGES symbol exchange
    (fun symbol exchange =>
    ex <- _get_exchange exchange ;;
    let formatted_symbol := _format_symbol symbol in
    current_price <-
      match current_price with
      | Some p => ret p
      | None =>
          last <- fetch_ticker_last ex formatted_symbol ;;
          match last with
          | Some p => ret p
          | None => raise (TypeError
              "unsupported operand type(s) for *: 'NoneType' and 'float'")
          end
      end ;;
    let '(longs, shorts) := liquidation_levels current_price in
    ret [("success", VBool true);
         ("exchange", VStr exchange);
         ("symbol", VStr formatted_symbol);
         ("current_price", VNum current_price);
         ("liquidation_levels",
           VDict [("longs", VDict longs); ("shorts", VDict shorts)]);
         ("interpretation",
           VStr "Liquidation zones are price magnets - High probability of hunting")]).

(** [ex.fetch_funding_rate_history(formatted_symbol, since=since)] on the
    exchange named: the [fundingRate] of each entry. *)
Variable fetch_funding_rate_history
  : string -> string -> Z -> result (list (option Q)).

(** [int((datetime.now() - timedelta(hours=hours)).timestamp() * 1000)] *)
Variable since_ms : Z -> Z.

(** [ex.fetch_open_interest(formatted_symbol)] on the exchange named. *)
Variable fetch_open_interest : string -> string -> result OpenInterest.

(** [requests.get] on Binance's three ratio endpoints, for a symbol and a
    period. *)
Variable requests_get_top : string -> string -> result (Response RatioEntry).
Variable requests_get_global
  : string -> string -> result (Response RatioEntry).
Variable requests_get_taker : string -> string -> result (Response TakerEntry).

(** [datetime.now().isoformat()] *)
Variable now_isoformat : string.

(** [get_funding_rate_history].  Of the entries echoed under [history]
    only the rate is part of the embedding. *)
Definition get_funding_rate_history (symbol exchange : string) (hours : Z)
  : payload :=
  with_symbol_exchange RELIABLE_FUTURES_EXCHANGES symbol exchange
    (fun symbol exchange =>
    hours <- validate_positive_int hours "hours" (Some 720%Z) ;;
    ex <- _get_exchange exchange ;;
    let formatted_symbol := _format_symbol symbol in
    let since := since_ms hours in
    history <- fetch_funding_rate_history ex formatted_symbol since ;;
    match history with
    | [] =>
        ret [("success", VBool false);
             ("error", VStr "No funding rate history available");
             ("error_type", VStr "NoDataError");
             ("exchange", VStr exchange);
             ("symbol", VStr formatted_symbol)]
    | _ =>
        rates <- float_rates history ;;
        avg_rate <- Statistics.mean rates ;;
        max_rate <- list_max rates ;;
        min_rate <- list_min rates ;;
        trend <- history_trend rates ;;
        current_rate <- list_last rates ;;
        ret [("success", VBool true);
             ("exchange", VStr exchange);
             ("symbol", VStr formatted_symbol);
             ("period_hours", VInt hours);
             ("total_fundings", VInt (Z.of_nat (List.length rates)));
             ("average_rate", VNum avg_rate);
             ("average_rate_percentage", VNum (avg_rate * 100));
             ("max_rate", VNum max_rate);
             ("min_rate", VNum min_rate);
             ("current_rate", VNum current_rate);
             ("trend", VStr trend);
             ("annual_rate_avg", VNum (round (avg_rate * 3 * 365 * 100) 2));
             ("history",
               VList (List.map (fun r => VDict [("fundingRate", VNum r)])
                               (tail 20 rates)))]
    end).

(** [get_open_interest].  The echo [raw_data] of the exchange's reply is
    not part of the embedding. *)
Definition get_open_interest (symbol exchange : string) : payload :=
  with_symbol_exchange RELIABLE_FUTURES_EXCHANGES symbol exchange
    (fun symbol exchange =>
    ex <- _get_exchange exchange ;;
    let formatted_symbol := _format_symbol symbol in
    oi <- fetch_open_interest ex formatted_symbol ;;
    current_price <- fetch_ticker_last ex formatted_symbol ;;
    let oi_value := openInterestAmount oi in
    let oi_contracts := openInterestValue oi in
    oi_btc_equivalent <- oi_equivalent oi_value current_price ;;
    let interpretation := oi_interpretation oi_btc_equivalent in
    ret [("success", VBool true);
         ("exchange", VStr exchange);
         ("symbol", VStr formatted_symbol);
         ("open_interest_usd", opt_num oi_value);
         ("open_interest_contracts", opt_num oi_contracts);
         ("open_interest_btc_equivalent", VNum (round oi_btc_equivalent 2));
         ("current_price", opt_num current_price);
         ("timestamp", opt_int (oi_timestamp oi));
         ("interpretation",
           VStr (match interpretation with
                 | [] => "Normal OI"
                 | _ => Str.join " | " interpretation
                 end))]).

(** [get_long_short_ratio].  The echo [raw_data] of the two replies is not
    part of the embedding. *)
Definition get_long_short_ratio (symbol exchange period : string) : payload :=
  if negb (String.eqb exchange "binance") then
    [("success", VBool false);
     ("error", VStr "Long/Short ratio only available on Binance");
     ("error_type", VStr "UnsupportedExchange");
     ("exchange", VStr exchange)]
  else
    match validate_symbol symbol with
    | inl e => failure e [("exchange", VStr exchange); ("symbol", VStr symbol)]
    | inr symbol =>
        guard [("exchange", VStr exchange); ("symbol", VStr symbol)]
          (let base_symbol :=
             Str.replace ":USDT" "" (Str.replace "/" "" symbol) in
           resp_top <- requests_get_top (base_symbol ++ "USDT") period ;;
           resp_global <- requests_get_global (base_symbol ++ "USDT") period ;;
           if negb (status_code resp_top =? 200)%Z
              || negb (status_code resp_global =? 200)%Z
           then
             ret [("success", VBool false);
                  ("error",
                    VStr "Error fetching Long/Short ratio from Binance");
                  ("error_type", VStr "APIError");
                  ("status_top", VInt (status_code resp_top));
                  ("status_global", VInt (status_code resp_global))]
           else
             let data_top := hd_error (json resp_top) in
             let data_global := hd_error (json resp_global) in
             top_ratio <-
               float_or_zero (match data_top with
                              | Some d => longShortRatio d
                              | None => Absent
                              end) ;;
             global_ratio <-
               float_or_zero (match data_global with
                              | Some d => longShortRatio d
                              | None => Absent
                              end) ;;
             let '(sentiment_top, interpretation_top) :=
               ls_sentiment top_ratio in
             ret [("success", VBool true);
                  ("exchange", VStr "binance");
                  ("symbol", VStr (base_symbol ++ "USDT"));
                  ("period", VStr period);
                  ("top_trader_long_short_ratio", VNum top_ratio);
                  ("global_long_short_ratio", VNum global_ratio);
                  ("top_trader_sentiment", VStr sentiment_top);
                  ("interpretation", VStr interpretation_top);
                  ("divergence",
                    VBool (Qgtb (Qabs (top_ratio - global_ratio)) 0.3))])
    end.

(** [get_taker_buy_sell_ratio], likewise without [raw_data]. *)
Definition get_taker_buy_sell_ratio (symbol exchange period : string)
  : payload :=
  if negb (String.eqb exchange "binance") then
    [("success", VBool false);
     ("error", VStr "Taker buy/sell ratio only available on Binance");
     ("error_type", VStr "UnsupportedExchange");
     ("exchange", VStr exchange)]
  else
    match validate_symbol symbol with
    | inl e => failure e [("exchange", VStr exchange); ("symbol", VStr symbol)]
    | inr symbol =>
        guard [("exchange", VStr exchange); ("symbol", VStr symbol)]
          (let base_symbol :=
             Str.replace ":USDT" "" (Str.replace "/" "" symbol) in
           resp <- requests_get_taker (base_symbol ++ "USDT") period ;;
           if negb (status_code resp =? 200)%Z then
             ret [("success", VBool false);
                  ("error",
                    VStr ("Error fetching taker ratio: "
                          ++ str_of_Z (status_code resp)));
                  ("error_type", VStr "APIError");
                  ("exchange", VStr exchange)]
           else
             let data := hd_error (json resp) in
             let field (f : TakerEntry -> JsonNumber) :=
               match data with
               | Some d => f d
               | None => Absent
               end in
             buy_sell_ratio <- float_or_zero (field buySellRatio) ;;
             buy_vol <- float_or_zero (field buyVol) ;;
             sell_vol <- float_or_zero (field sellVol) ;;
             let '(pressure, interpretation) :=
               taker_pressure buy_sell_ratio in
             ret [("success", VBool true);
                  ("exchange", VStr "binance");
                  ("symbol", VStr (base_symbol ++ "USDT"));
                  ("period", VStr period);
                  ("buy_sell_ratio", VNum buy_sell_ratio);
                  ("taker_buy_volume", VNum buy_vol);
                  ("taker_sell_volume", VNum sell_vol);
                  ("market_pressure", VStr pressure);
                  ("interpretation", VStr interpretation)])
    end.

(** [oi.get('current_price') if oi.get('success') else None], as the
    optional price [calculate_liquidation_levels] takes. *)
Definition price_of (oi : payload) : option Q :=
  if succeeded oi then
    match get "current_price" oi with
    | Some (VFloat (Fin p)) => Some p
    | _ => None
    end
  else None.

(** [get_perpetual_stats] calls the tools above as the plain functions
    they are defined as, with the validated symbol and exchange. *)
Definition get_perpetual_stats (symbol exchange : string) : payload :=
  with_symbol_exchange RELIABLE_FUTURES_EXCHANGES symbol exchange
    (fun symbol exchange =>
    let funding := get_funding_rate symbol exchange in
    let oi := get_open_interest symbol exchange in
    let ls_ratio :=
      if String.eqb exchange "binance"
      then Some (get_long_short_ratio symbol exchange "5m") else None in
    let taker_ratio :=
      if String.eqb exchange "binance"
      then Some (get_taker_buy_sell_ratio symbol exchange "5m") else None in
    let current_price := price_of oi in
    let liq_levels :=
      calculate_liquidation_levels symbol exchange current_price in
    acc <- funding_adjustment funding (50%Z, []) ;;
    acc <- ls_adjustment ls_ratio acc ;;
    ' (score, signals) <- taker_adjustment taker_ratio acc ;;
    ret [("success", VBool true);
         ("exchange", VStr exchange);
         ("symbol", VStr symbol);
         ("timestamp", VStr now_isoformat);
         ("score", VInt score);
         ("overall_signal", VStr (overall_signal score));
         ("signals", VList (List.map VStr signals));
         ("funding_rate_data", if_success funding);
         ("open_interest_data", if_success oi);
         ("long_short_ratio_data",
           match ls_ratio with
           | Some d => if truth (VDict d) then if_success d else VNone
           | None => VNone
           end);
         ("taker_ratio_data",
           match taker_ratio with
           | Some d => if truth (VDict d) then if_success d else VNone
           | None => VNone
           end);
         ("liquidation_levels", if_success liq_levels)]).

(** The loop [for exchange in exchanges] of [compare_funding_rates]: a
    payload without the two numbers is skipped. *)
Fixpoint compare_loop (symbol : string) (exchanges : list string)
  (results : payload) (rates : list FundingQuote)
  : payload * list FundingQuote :=
  match exchanges with
  | [] => (results, rates)
  | exchange :: rest =>
      let funding := get_funding_rate symbol exchange in
      if succeeded funding then
        let results := dict_set exchange (VDict funding) results in
        match get "funding_rate" funding,
              get "annual_rate_percentage" funding with
        | Some (VFloat (Fin rate)), Some (VFloat (Fin annual_rate)) =>
            compare_loop symbol rest results
              (rates ++ [{| quote_exchange := exchange;
                            quote_rate := rate;
                            quote_annual_rate := annual_rate |}])%list
        | _, _ => compare_loop symbol rest results rates
        end
      else compare_loop symbol rest results rates
  end.

Definition compare_funding_rates (symbol : string)
  (exchanges : option (list string)) : payload :=
  let exchanges :=
    match exchanges with
    | None => RELIABLE_FUTURES_EXCHANGES
    | Some exchanges => exchanges
    end in
  match validate_symbol symbol with
  | inl e => failure e [("symbol", VStr symbol)]
  | inr symbol =>
      guard [("symbol", VStr symbol)]
        (let '(results, rates) := compare_loop symbol exchanges [] [] in
         match rates with
         | [] =>
             ret [("success", VBool false);
                  ("error",
                    VStr "Could not fetch funding rates from any exchange");
                  ("error_type", VStr "NoDataError")]
         | _ =>
             let rates_sorted := sorted_by_rate rates in
             lowest <- match rates_sorted with
                       | q :: _ => ret q
                       | [] => raise (IndexError "list index out of range")
                       end ;;
             highest <- list_last rates_sorted ;;
             let spread := quote_rate highest - quote_rate lowest in
             let spread_annual := spread * 3 * 365 * 100 in
             let arbitrage_opportunity :=
               Qgtb spread_annual MIN_ARBITRAGE_SPREAD_ANNUAL in
             ret [("success", VBool true);
                  ("symbol", VStr symbol);
                  ("timestamp", VStr now_isoformat);
                  ("exchanges_compared",
                    VInt (Z.of_nat (List.length rates)));
                  ("lowest_funding", quote_dict lowest);
                  ("highest_funding", quote_dict highest);
                  ("spread", VNum spread);
                  ("spread_annual_percentage", VNum (round spread_annual 2));
                  ("arbitrage_opportunity", VBool arbitrage_opportunity);
                  ("arbitrage_strategy",
                    if arbitrage_opportunity
                    then VStr "Long on exchange with lowest funding, Short on exchange with highest funding"
                    else VNone);
                  ("all_rates", VList (List.map quote_dict rates_sorted));
                  ("detailed_data", VDict results)]
         end)
  end.


End Tools.

End FuturesData.

(** ** crypto_market_microstructure.py *)

Module MarketMicrostructure.

(** The keys of [EXCHANGES]. *)
Definition EXCHANGES : list string := ["binance"; "bybit"].

Definition SPOOFING_VOLUME_MULTIPLIER : Q := 5.
Definition SPOOFING_DISTANCE_PCT : Q := 5 # 10.
Definition SPOOFING_COUNT_THRESHOLD : Z := 3.
Definition IMPACT_MINIMAL_PCT : Q := 1 # 10.
Definition IMPACT_LOW_PCT : Q := 5 # 10.
Definition IMPACT_MODERATE_PCT : Q := 1.
Definition IMPACT_HIGH_PCT : Q := 2.

(** [EXCHANGES.get(exchange_name, EXCHANGES['binance'])] *)
Definition _get_exchange (exchange_name : string) : string :=
  if Str.mem exchange_name EXCHANGES then exchange_name else "binance".

(** One level of a book, [[price, volume]]. *)
Abbreviation Level := (Q * Q)%type.

Record OrderBook : Type := mkOrderBook {
  bids : list Level;
  asks : list Level
}.

(** [levels[0][0]] *)
Definition best_price (levels : list Level) : result Q :=
  match levels with
  | [] => raise (IndexError "list index out of range")
  | (price, _) :: _ => ret price
  end.

(** [statistics.mean] *)
Definition mean (xs : list Q) : result Q :=
  match xs with
  | [] => raise (StatisticsError "mean requires at least one data point")
  | _ => ret (Qsum xs / inject_Z (Z.of_nat (List.length xs)))
  end.

(** *** detect_spoofing_patterns *)

(** One of the two [for i, level in enumerate(...)] loops; [distance] is
    the side's signed distance to the mid price, before the division. *)
Fixpoint suspicious_loop (distance : Q -> Q) (mid_price threshold avg_volume : Q)
  (i : Z) (levels : list Level) : result (list value) :=
  match levels with
  | [] => ret []
  | (price, volume) :: rest =>
      d <- pydiv (distance price) mid_price ;;
      let distance_from_mid := d * 100 in
      if Qgtb volume threshold && Qgtb distance_from_mid SPOOFING_DISTANCE_PCT
      then
        volume_ratio <- pydiv volume avg_volume ;;
        more <- suspicious_loop distance mid_price threshold avg_volume
                  (i + 1) rest ;;
        ret (VDict [("level", VInt i);
                    ("price", VNum price);
                    ("volume", VNum (round volume 4));
                    ("distance_percentage", VNum (round distance_from_mid 2));
                    ("volume_ratio", VNum (round volume_ratio 2))] :: more)
      else
        suspicious_loop distance mid_price threshold avg_volume (i + 1) rest
  end.

(** The score from the numbers of suspicious bids and asks. *)
Definition spoofing_score (n_bids n_asks : Z) : Z :=
  let score := 0%Z in
  let score :=
    if (n_bids >? SPOOFING_COUNT_THRESHOLD)%Z then (score + 25)%Z else score in
  let score :=
    if (n_asks >? SPOOFING_COUNT_THRESHOLD)%Z then (score + 25)%Z else score in
  if (n_bids >? n_asks * 2)%Z then (score + 25)%Z
  else if (n_asks >? n_bids * 2)%Z then (score + 25)%Z
  else score.

Definition spoofing_risk (score : Z) : string * string :=
  if (score >? 50)%Z then
    ("HIGH", "High spoofing risk - Suspicious large orders detected")
  else if (score >? 25)%Z then
    ("MODERATE", "Moderate spoofing risk - Some suspicious orders")
  else
    ("LOW", "Low spoofing risk - Orderbook appears legitimate").

(** *** calculate_market_impact *)

Record Fill : Type := mkFill {
  cumulative_volume : Q;
  cumulative_cost : Q;
  levels_consumed : Z
}.

(** The walk [for level in side] of an order of [order_size_usd] through one
    side of the book, from the running totals [st]; the level that
    completes the order is filled in part and ends the walk. *)
Fixpoint walk (order_size_usd : Q) (levels : list Level) (st : Fill)
  : result Fill :=
  match levels with
  | [] => ret st
  | (price, volume) :: rest =>
      let value := price * volume in
      if Qgeb (cumulative_cost st + value) order_size_usd then
        let remaining_usd := order_size_usd - cumulative_cost st in
        remaining_volume <- pydiv remaining_usd price ;;
        ret {| cumulative_volume := cumulative_volume st + remaining_volume;
               cumulative_cost := order_size_usd;
               levels_consumed := (levels_consumed st + 1)%Z |}
      else
        walk order_size_usd rest
          {| cumulative_volume := cumulative_volume st + volume;
             cumulative_cost := cumulative_cost st + value;
             levels_consumed := (levels_consumed st + 1)%Z |}
  end.

Record Impact : Type := mkImpact {
  average_execution_price : option Q;
  price_impact_percentage : option Q;
  price_movement_usd : option Q;
  price_movement_percentage : option Q;
  impact_levels_consumed : Z;
  insufficient_liquidity : bool
}.

Definition no_fill (st : Fill) : Impact :=
  {| average_execution_price := None;
     price_impact_percentage := None;
     price_movement_usd := None;
     price_movement_percentage := None;
     impact_levels_consumed := levels_consumed st;
     insufficient_liquidity := true |}.

Definition start : Fill :=
  {| cumulative_volume := 0; cumulative_cost := 0; levels_consumed := 0 |}.

(** The buy order: walk the asks, then price the fill. *)
Definition buy_order_impact (order_size_usd best_ask mid_price : Q)
  (asks : list Level) : result Impact :=
  st <- walk order_size_usd asks start ;;
  if Qgeb (cumulative_cost st) order_size_usd then
    avg_execution_price <- pydiv order_size_usd (cumulative_volume st) ;;
    d <- pydiv (avg_execution_price - best_ask) best_ask ;;
    let price_impact_buy := d * 100 in
    let price_movement_buy := avg_execution_price - mid_price in
    m <- pydiv (avg_execution_price - mid_price) mid_price ;;
    let price_movement_buy_pct := m * 100 in
    ret {| average_execution_price := Some avg_execution_price;
           price_impact_percentage := Some price_impact_buy;
           price_movement_usd := Some price_movement_buy;
           price_movement_percentage := Some price_movement_buy_pct;
           impact_levels_consumed := levels_consumed st;
           insufficient_liquidity := false |}
  else ret (no_fill st).

(** The sell order: walk the bids; the differences are reversed. *)
Definition sell_order_impact (order_size_usd best_bid mid_price : Q)
  (bids : list Level) : result Impact :=
  st <- walk order_size_usd bids start ;;
  if Qgeb (cumulative_cost st) order_size_usd then
    avg_execution_price_sell <- pydiv order_size_usd (cumulative_volume st) ;;
    d <- pydiv (best_bid - avg_execution_price_sell) best_bid ;;
    let price_impact_sell := d * 100 in
    let price_movement_sell := mid_price - avg_execution_price_sell in
    m <- pydiv (mid_price - avg_execution_price_sell) mid_price ;;
    let price_movement_sell_pct := m * 100 in
    ret {| average_execution_price := Some avg_execution_price_sell;
           price_impact_percentage := Some price_impact_sell;
           price_movement_usd := Some price_movement_sell;
           price_movement_percentage := Some price_movement_sell_pct;
           impact_levels_consumed := levels_consumed st;
           insufficient_liquidity := false |}
  else ret (no_fill st).

(** [x and x < bound] on an optional float: [None] and [0.0] are false. *)
Definition below (x : option Q) (bound : Q) : bool :=
  match x with
  | Some q => negb (Qeq_bool q 0) && Qltb q bound
  | None => false
  end.

Definition impact_classification (price_impact_buy : option Q) : string :=
  if below price_impact_buy IMPACT_MINIMAL_PCT then "MINIMAL"
  else if below price_impact_buy IMPACT_LOW_PCT then "LOW"
  else if below price_impact_buy IMPACT_MODERATE_PCT then "MODERATE"
  else if below price_impact_buy IMPACT_HIGH_PCT then "HIGH"
  else "VERY_HIGH".

(** [round(x, n) if x else None] *)
Definition round_or_none (x : option Q) (ndigits : nat) : value :=
  match x with
  | Some q => if Qeq_bool q 0 then VNone else VNum (round q ndigits)
  | None => VNone
  end.

Definition impact_dict (r : Impact) : value :=
  VDict [("average_execution_price", round_or_none (average_execution_price r) 2);
         ("price_impact_percentage", round_or_none (price_impact_percentage r) 4);
         ("price_movement_usd", round_or_none (price_movement_usd r) 2);
         ("price_movement_percentage",
           round_or_none (price_movement_percentage r) 4);
         ("levels_consumed", VInt (impact_levels_consumed r));
         ("insufficient_liquidity", VBool (insufficient_liquidity r))].

Definition STRONG_LEVEL_MULTIPLIER : Q := 2.
Definition IMBALANCE_STRONG_BUY : Q := 1.5.
Definition IMBALANCE_STRONG_SELL : Q := 0.66.
Definition IMBALANCE_EXTREME_BUY : Q := 2.
Definition IMBALANCE_EXTREME_SELL : Q := 0.5.
Definition SPREAD_EXCELLENT_BPS : Q := 5.
Definition SPREAD_GOOD_BPS : Q := 10.
Definition SPREAD_MODERATE_BPS : Q := 20.
Definition ORDER_FLOW_STRONG_PCT : Q := 65.
Definition ORDER_FLOW_MODERATE_PCT : Q := 55.
Definition LARGE_TRADE_MULTIPLIER : Q := 3.

(** *** analyze_orderbook_depth *)

(** [levels[0][0] if levels else 0] *)
Definition best_or_zero (levels : list Level) : Q :=
  match levels with
  | [] => 0
  | (price, _) :: _ => price
  end.

(** [sum(l[1] for l in levels)] and [sum(l[0] * l[1] for l in levels)] *)
Definition total_volume (levels : list Level) : Q :=
  Qsum (List.map snd levels).

Definition total_value (levels : list Level) : Q :=
  Qsum (List.map (fun l => fst l * snd l) levels).

(** [a / b if b > 0 else 0] *)
Definition ratio_or_zero (a b : Q) : Q :=
  if Qgtb b 0 then a / b else 0.

(** The share of the volume that rests in the first ten levels, in
    percent. *)
Definition concentration (levels : list Level) : Q :=
  let total := total_volume levels in
  if Qgtb total 0 then (total_volume (firstn 10 levels) / total) * 100 else 0.

(** [total / len(levels) if levels else 0] *)
Definition avg_depth (levels : list Level) : Q :=
  match levels with
  | [] => 0
  | _ => total_volume levels / inject_Z (Z.of_nat (List.length levels))
  end.

(** One of the two loops that collect the levels holding more than
    [STRONG_LEVEL_MULTIPLIER] times the average. *)
Fixpoint strong_loop (avg : Q) (levels : list Level) : result (list value) :=
  match levels with
  | [] => ret []
  | (price, volume) :: rest =>
      if Qgtb volume (avg * STRONG_LEVEL_MULTIPLIER) then
        strength <- pydiv volume avg ;;
        more <- strong_loop avg rest ;;
        ret (VDict [("price", VNum price);
                    ("volume", VNum volume);
                    ("strength", VNum (round strength 2))] :: more)
      else strong_loop avg rest
  end.

Definition depth_bias (liquidity_ratio : Q) : string * string :=
  if Qgtb liquidity_ratio 1.2 then
    ("BID_HEAVY", "More liquidity on bids - Buy pressure")
  else if Qltb liquidity_ratio 0.8 then
    ("ASK_HEAVY", "More liquidity on asks - Sell pressure")
  else
    ("BALANCED", "Balanced liquidity").

(** *** detect_orderbook_imbalance *)

(** The bid/ask volume ratio over the first [level] levels, 10 when the
    asks hold nothing there. *)
Definition level_imbalance (bids asks : list Level) (level : nat) : Q :=
  let bid_vol := total_volume (firstn level bids) in
  let ask_vol := total_volume (firstn level asks) in
  if Qgtb ask_vol 0 then bid_vol / ask_vol else 10.

Definition imbalance_levels : list nat := [5; 10; 20]%nat.

Definition imbalance_pressure (avg_imbalance : Q) : string * string * string :=
  if Qgtb avg_imbalance IMBALANCE_EXTREME_BUY then
    ("EXTREME_BUY_PRESSURE", "Very likely upward move", "HIGH")
  else if Qgtb avg_imbalance IMBALANCE_STRONG_BUY then
    ("STRONG_BUY_PRESSURE", "Likely upward move", "MEDIUM")
  else if Qltb avg_imbalance IMBALANCE_EXTREME_SELL then
    ("EXTREME_SELL_PRESSURE", "Very likely downward move", "HIGH")
  else if Qltb avg_imbalance IMBALANCE_STRONG_SELL then
    ("STRONG_SELL_PRESSURE", "Likely downward move", "MEDIUM")
  else
    ("BALANCED", "Balanced orderbook - No clear bias", "LOW").

(** *** calculate_spread_metrics *)

(** The slippage walk of an order through one side of the book, from the
    running volume and cost: it returns them with the price of the level
    that completed the order, if one did. *)
Fixpoint slippage_walk (order_size_usd : Q) (levels : list Level)
  (cumulative_volume cumulative_cost : Q) : result (Q * Q * option Q) :=
  match levels with
  | [] => ret (cumulative_volume, cumulative_cost, None)
  | (price, volume) :: rest =>
      let volume_usd := price * volume in
      if Qgeb (cumulative_cost + volume_usd) order_size_usd then
        let remaining_usd := order_size_usd - cumulative_cost in
        remaining_volume <- pydiv remaining_usd price ;;
        ret (cumulative_volume + remaining_volume, order_size_usd, Some price)
      else
        slippage_walk order_size_usd rest
          (cumulative_volume + volume) (cumulative_cost + volume_usd)
  end.

(** The average price and the slippage, in percent, of a market buy. *)
Definition buy_slippage (order_size_usd best_ask : Q) (asks : list Level)
  : result (option Q * option Q) :=
  ' (cumulative_ask_volume, _, buy_slippage_price) <-
      slippage_walk order_size_usd asks 0 0 ;;
  if truthy buy_slippage_price then
    buy_avg_price <- pydiv order_size_usd cumulative_ask_volume ;;
    d <- pydiv (buy_avg_price - best_ask) best_ask ;;
    ret (Some buy_avg_price, Some (d * 100))
  else ret (None, None).

(** The same for a market sell, through the bids. *)
Definition sell_slippage (order_size_usd best_bid : Q) (bids : list Level)
  : result (option Q * option Q) :=
  ' (cumulative_bid_volume, _, sell_slippage_price) <-
      slippage_walk order_size_usd bids 0 0 ;;
  if truthy sell_slippage_price then
    sell_avg_price <- pydiv order_size_usd cumulative_bid_volume ;;
    d <- pydiv (best_bid - sell_avg_price) best_bid ;;
    ret (Some sell_avg_price, Some (d * 100))
  else ret (None, None).

Definition liquidity_quality (spread_bps : Q) : string :=
  if Qltb spread_bps SPREAD_EXCELLENT_BPS then "EXCELLENT"
  else if Qltb spread_bps SPREAD_GOOD_BPS then "GOOD"
  else if Qltb spread_bps SPREAD_MODERATE_BPS then "MODERATE"
  else "POOR".

(** *** analyze_order_flow *)

(** A trade of the tape, as far as the tool reads it. *)
Record Trade : Type := mkTrade {
  trade_price : Q;
  amount : Q;
  side : string;
  trade_timestamp : Z
}.

(** The running totals of the loop over the trades. *)
Record Flow : Type := mkFlow {
  buy_volume : Q;
  sell_volume : Q;
  buy_count : Z;
  sell_count : Z;
  large_buy_trades : list value;
  large_sell_trades : list value
}.

Definition large_trade (trade : Trade) : value :=
  VDict [("price", VNum (trade_price trade));
         ("amount", VNum (amount trade));
         ("timestamp", VInt (trade_timestamp trade))].

(** One turn of [for trade in trades]. *)
Definition flow_step (large_trade_threshold : Q) (acc : Flow) (trade : Trade)
  : Flow :=
  let is_large := Qgtb (amount trade) large_trade_threshold in
  if String.eqb (side trade) "buy" then
    {| buy_volume := buy_volume acc + amount trade;
       sell_volume := sell_volume acc;
       buy_count := (buy_count acc + 1)%Z;
       sell_count := sell_count acc;
       large_buy_trades :=
         if is_large then (large_buy_trades acc ++ [large_trade trade])%list
         else large_buy_trades acc;
       large_sell_trades := large_sell_trades acc |}
  else
    {| buy_volume := buy_volume acc;
       sell_volume := sell_volume acc + amount trade;
       buy_count := buy_count acc;
       sell_count := (sell_count acc + 1)%Z;
       large_buy_trades := large_buy_trades acc;
       large_sell_trades :=
         if is_large then (large_sell_trades acc ++ [large_trade trade])%list
         else large_sell_trades acc |}.

Definition flow_start : Flow :=
  {| buy_volume := 0; sell_volume := 0; buy_count := 0; sell_count := 0;
     large_buy_trades := []; large_sell_trades := [] |}.

Definition order_flow (large_trade_threshold : Q) (trades : list Trade)
  : Flow :=
  fold_left (flow_step large_trade_threshold) trades flow_start.

Definition flow_aggression (buy_ratio sell_ratio : Q) : string * string :=
  if Qgtb buy_ratio ORDER_FLOW_STRONG_PCT then
    ("STRONG_BUY_AGGRESSION",
     "Buyers very aggressive - Strong upward pressure")
  else if Qgtb buy_ratio ORDER_FLOW_MODERATE_PCT then
    ("MODERATE_BUY_AGGRESSION", "Buyers moderately aggressive")
  else if Qgtb sell_ratio ORDER_FLOW_STRONG_PCT then
    ("STRONG_SELL_AGGRESSION",
     "Sellers very aggressive - Strong downward pressure")
  else if Qgtb sell_ratio ORDER_FLOW_MODERATE_PCT then
    ("MODERATE_SELL_AGGRESSION", "Sellers moderately aggressive")
  else
    ("BALANCED", "Balanced flow between buyers and sellers").

Section Tools.

(** [ex.fetch_order_book(formatted_symbol, limit=limit)] on the exchange
    named. *)
Variable fetch_order_book : string -> string -> Z -> result OrderBook.

(** [datetime.now().isoformat()] *)
Variable now_isoformat : string.

Definition detect_spoofing_patterns (symbol exchange : string) (depth : Z)
  (large_order_threshold_btc : Q) : payload :=
  with_symbol_exchange EXCHANGES symbol exchange (fun symbol exchange =>
    depth <- validate_positive_int depth "depth" (Some 500%Z) ;;
    let ex := _get_exchange exchange in
    let formatted_symbol := symbol ++ "/USDT" in
    orderbook <- fetch_order_book ex formatted_symbol depth ;;
    let bids := bids orderbook in
    let asks := asks orderbook in
    best_bid <- best_price bids ;;
    best_ask <- best_price asks ;;
    let mid_price := (best_bid + best_ask) / 2 in
    avg_bid_volume <- mean (List.map snd bids) ;;
    avg_ask_volume <- mean (List.map snd asks) ;;
    let large_bid_threshold :=
      pymax (avg_bid_volume * SPOOFING_VOLUME_MULTIPLIER)
            large_order_threshold_btc in
    let large_ask_threshold :=
      pymax (avg_ask_volume * SPOOFING_VOLUME_MULTIPLIER)
            large_order_threshold_btc in
    suspicious_bids <-
      suspicious_loop (fun price => mid_price - price) mid_price
        large_bid_threshold avg_bid_volume 0 bids ;;
    suspicious_asks <-
      suspicious_loop (fun price => price - mid_price) mid_price
        large_ask_threshold avg_ask_volume 0 asks ;;
    let n_bids := Z.of_nat (List.length suspicious_bids) in
    let n_asks := Z.of_nat (List.length suspicious_asks) in
    let score := spoofing_score n_bids n_asks in
    let '(risk_level, interpretation) := spoofing_risk score in
    ret [("success", VBool true);
         ("exchange", VStr exchange);
         ("symbol", VStr formatted_symbol);
         ("timestamp", VStr now_isoformat);
         ("spoofing_score", VInt score);
         ("risk_level", VStr risk_level);
         ("suspicious_orders",
           VDict [("bids", VList (firstn 10 suspicious_bids));
                  ("asks", VList (firstn 10 suspicious_asks));
                  ("total_suspicious_bids", VInt n_bids);
                  ("total_suspicious_asks", VInt n_asks)]);
         ("interpretation", VStr interpretation);
         ("recommendation",
           VStr (if String.eqb risk_level "LOW"
                 then "Orderbook appears healthy"
                 else "Verify if these orders persist or get canceled quickly"))]).

Definition calculate_market_impact (symbol exchange : string)
  (order_size_usd : Q) : payload :=
  with_symbol_exchange EXCHANGES symbol exchange (fun symbol exchange =>
    let ex := _get_exchange exchange in
    let formatted_symbol := symbol ++ "/USDT" in
    orderbook <- fetch_order_book ex formatted_symbol 200 ;;
    let bids := bids orderbook in
    let asks := asks orderbook in
    best_bid <- best_price bids ;;
    best_ask <- best_price asks ;;
    let mid_price := (best_bid + best_ask) / 2 in
    buy <- buy_order_impact order_size_usd best_ask mid_price asks ;;
    sell <- sell_order_impact order_size_usd best_bid mid_price bids ;;
    let classification :=
      impact_classification (price_impact_percentage buy) in
    ret [("success", VBool true);
         ("exchange", VStr exchange);
         ("symbol", VStr formatted_symbol);
         ("order_size_usd", VNum order_size_usd);
         ("mid_price", VNum (round mid_price 2));
         ("buy_order_impact", impact_dict buy);
         ("sell_order_impact", impact_dict sell);
         ("impact_classification", VStr classification);
         ("recommendation",
           VStr (if String.eqb classification "HIGH"
                    || String.eqb classification "VERY_HIGH"
                 then "Impact " ++ classification
                      ++ " - Consider splitting into multiple orders"
                 else "Acceptable impact for direct execution"))]).

(** [ex.fetch_trades(formatted_symbol, limit=limit)] on the exchange named. *)
Variable fetch_trades : string -> string -> Z -> result (list Trade).

Definition analyze_orderbook_depth (symbol exchange : string)
  (depth_levels : Z) : payload :=
  with_symbol_exchange EXCHANGES symbol exchange (fun symbol exchange =>
    depth_levels <-
      validate_positive_int depth_levels "depth_levels" (Some 500%Z) ;;
    let ex := _get_exchange exchange in
    let formatted_symbol := symbol ++ "/USDT" in
    orderbook <- fetch_order_book ex formatted_symbol depth_levels ;;
    let bids := firstn (Z.to_nat depth_levels) (bids orderbook) in
    let asks := firstn (Z.to_nat depth_levels) (asks orderbook) in
    let best_bid := best_or_zero bids in
    let best_ask := best_or_zero asks in
    let mid_price := (best_bid + best_ask) / 2 in
    let total_bid_volume := total_volume bids in
    let total_ask_volume := total_volume asks in
    let total_bid_value := total_value bids in
    let total_ask_value := total_value asks in
    let liquidity_ratio := ratio_or_zero total_bid_volume total_ask_volume in
    let spread_absolute := best_ask - best_bid in
    let spread_percentage :=
      if Qgtb mid_price 0 then (spread_absolute / mid_price) * 100 else 0 in
    let bid_concentration := concentration bids in
    let ask_concentration := concentration asks in
    let avg_bid_depth := avg_depth bids in
    let avg_ask_depth := avg_depth asks in
    strong_support_levels <- strong_loop avg_bid_depth bids ;;
    strong_resistance_levels <- strong_loop avg_ask_depth asks ;;
    let '(bias, interpretation) := depth_bias liquidity_ratio in
    ret [("success", VBool true);
         ("exchange", VStr exchange);
         ("symbol", VStr formatted_symbol);
         ("timestamp", VStr now_isoformat);
         ("mid_price", VNum (round mid_price 2));
         ("best_bid", VNum best_bid);
         ("best_ask", VNum best_ask);
         ("spread",
           VDict [("absolute", VNum (round spread_absolute 2));
                  ("percentage", VNum (round spread_percentage 4))]);
         ("liquidity",
           VDict [("total_bid_volume", VNum (round total_bid_volume 4));
                  ("total_ask_volume", VNum (round total_ask_volume 4));
                  ("total_bid_value_usd", VNum (round total_bid_value 2));
                  ("total_ask_value_usd", VNum (round total_ask_value 2));
                  ("liquidity_ratio", VNum (round liquidity_ratio 2));
                  ("bias", VStr bias)]);
         ("concentration",
           VDict [("bid_concentration_top10",
                    VNum (round bid_concentration 2));
                  ("ask_concentration_top10",
                    VNum (round ask_concentration 2))]);
         ("strong_levels",
           VDict [("support", VList (firstn 5 strong_support_levels));
                  ("resistance", VList (firstn 5 strong_resistance_levels))]);
         ("interpretation", VStr interpretation)]).

Definition detect_orderbook_imbalance (symbol exchange : string) (depth : Z)
  : payload :=
  with_symbol_exchange EXCHANGES symbol exchange (fun symbol exchange =>
    depth <- validate_positive_int depth "depth" (Some 200%Z) ;;
    let ex := _get_exchange exchange in
    let formatted_symbol := symbol ++ "/USDT" in
    orderbook <- fetch_order_book ex formatted_symbol depth ;;
    let bids := firstn (Z.to_nat depth) (bids orderbook) in
    let asks := firstn (Z.to_nat depth) (asks orderbook) in
    let imbalances :=
      List.map (fun level => round (level_imbalance bids asks level) 2)
               imbalance_levels in
    avg_imbalance <- mean imbalances ;;
    let '(pressure, prediction, confidence) :=
      imbalance_pressure avg_imbalance in
    ret [("success", VBool true);
         ("exchange", VStr exchange);
         ("symbol", VStr formatted_symbol);
         ("timestamp", VStr now_isoformat);
         ("imbalances_by_level",
           VDict (List.map
                    (fun level =>
                       ("level_" ++ str_of_Z (Z.of_nat level),
                        VNum (round (level_imbalance bids asks level) 2)))
                    imbalance_levels));
         ("average_imbalance", VNum (round avg_imbalance 2));
         ("market_pressure", VStr pressure);
         ("prediction", VStr prediction);
         ("confidence", VStr confidence);
         ("interpretation",
           VStr ("Bid/ask ratio: " ++ format_f avg_imbalance 2 ++ " - "
                 ++ prediction))]).

Definition calculate_spread_metrics (symbol exchange : string)
  (order_size_usd : Q) : payload :=
  with_symbol_exchange EXCHANGES symbol exchange (fun symbol exchange =>
    let ex := _get_exchange exchange in
    let formatted_symbol := symbol ++ "/USDT" in
    orderbook <- fetch_order_book ex formatted_symbol 100 ;;
    let bids := bids orderbook in
    let asks := asks orderbook in
    best_bid <- best_price bids ;;
    best_ask <- best_price asks ;;
    let mid_price := (best_bid + best_ask) / 2 in
    let spread_absolute := best_ask - best_bid in
    s <- pydiv spread_absolute mid_price ;;
    let spread_percentage := s * 100 in
    let spread_bps := spread_percentage * 100 in
    ' (buy_avg_price, buy_slippage) <-
        buy_slippage order_size_usd best_ask asks ;;
    ' (sell_avg_price, sell_slippage) <-
        sell_slippage order_size_usd best_bid bids ;;
    let total_cost_percentage :=
      match buy_slippage, sell_slippage with
      | Some b, Some s =>
          if truthy buy_slippage && truthy sell_slippage
          then spread_percentage + ((b + s) / 2)
          else spread_percentage
      | _, _ => spread_percentage
      end in
    let quality := liquidity_quality spread_bps in
    ret [("success", VBool true);
         ("exchange", VStr exchange);
         ("symbol", VStr formatted_symbol);
         ("mid_price", VNum (round mid_price 2));
         ("spread",
           VDict [("absolute", VNum (round spread_absolute 2));
                  ("percentage", VNum (round spread_percentage 4));
                  ("basis_points", VNum (round spread_bps 2))]);
         ("slippage_estimate",
           VDict [("order_size_usd", VNum order_size_usd);
                  ("buy_slippage_percentage", round_or_none buy_slippage 4);
                  ("sell_slippage_percentage", round_or_none sell_slippage 4);
                  ("buy_avg_price", round_or_none buy_avg_price 2);
                  ("sell_avg_price", round_or_none sell_avg_price 2)]);
         ("total_trading_cost_percentage",
           VNum (round total_cost_percentage 4));
         ("liquidity_quality", VStr quality);
         ("interpretation",
           VStr ("Spread: " ++ format_f spread_bps 1 ++ " bps - Liquidity: "
                 ++ quality))]).

Definition analyze_order_flow (symbol exchange : string) (limit : Z)
  : payload :=
  with_symbol_exchange EXCHANGES symbol exchange (fun symbol exchange =>
    limit <- validate_positive_int limit "limit" (Some 1000%Z) ;;
    let ex := _get_exchange exchange in
    let formatted_symbol := symbol ++ "/USDT" in
    trades <- fetch_trades ex formatted_symbol limit ;;
    match trades with
    | [] =>
        ret [("success", VBool false);
             ("error", VStr "No trades available");
             ("error_type", VStr "NoDataError");
             ("exchange", VStr exchange);
             ("symbol", VStr formatted_symbol)]
    | _ =>
        avg_volume <- mean (List.map amount trades) ;;
        let large_trade_threshold := avg_volume * LARGE_TRADE_MULTIPLIER in
        let flow := order_flow large_trade_threshold trades in
        let total_volume := buy_volume flow + sell_volume flow in
        let buy_ratio :=
          if Qgtb total_volume 0
          then (buy_volume flow / total_volume) * 100 else 0 in
        let sell_ratio :=
          if Qgtb total_volume 0
          then (sell_volume flow / total_volume) * 100 else 0 in
        let '(aggression, interpretation) :=
          flow_aggression buy_ratio sell_ratio in
        ret [("success", VBool true);
             ("exchange", VStr exchange);
             ("symbol", VStr formatted_symbol);
             ("timestamp", VStr now_isoformat);
             ("trades_analyzed", VInt limit);
             ("volume_distribution",
               VDict [("buy_volume", VNum (round (buy_volume flow) 4));
                      ("sell_volume", VNum (round (sell_volume flow) 4));
                      ("buy_percentage", VNum (round buy_ratio 2));
                      ("sell_percentage", VNum (round sell_ratio 2))]);
             ("trade_count",
               VDict [("buy_trades", VInt (buy_count flow));
                      ("sell_trades", VInt (sell_count flow))]);
             ("large_trades",
               VDict [("threshold", VNum (round large_trade_threshold 4));
                      ("large_buys",
                        VInt (Z.of_nat (List.length (large_buy_trades flow))));
                      ("large_sells",
                        VInt (Z.of_nat (List.length (large_sell_trades flow))));
                      ("recent_large_buys",
                        VList (firstn 5 (large_buy_trades flow)));
                      ("recent_large_sells",
                        VList (firstn 5 (large_sell_trades flow)))]);
             ("market_aggression", VStr aggression);
             ("interpretation", VStr interpretation)]
    end).

End Tools.

End MarketMicrostructure.

(** ** Sample inputs *)

Import AdvancedIndicators TechnicalAnalysis FuturesData MarketMicrostructure.

(** A bar that only matters through its high, low and close. *)
Definition bar (h l c : Q) : Candle :=
  {| timestamp := 0; open := c; high := h; low := l; close := c; volume := 1 |}.

(** A bar with a close and a volume. *)
Definition tick (c v : Q) : Candle :=
  {| timestamp := 0; open := c; high := c; low := c; close := c; volume := v |}.

(** An exchange client that always answers with the same frame. *)
Definition serve (df : DataFrame) : string -> string -> Z -> result DataFrame :=
  fun _ _ _ => ret df.

(** ** Quantities and sample inputs used by the statements *)

(** One move of the running total between two consecutive rows. *)
Definition obv_move (prev cur : Candle) (o_prev o_cur : Q) : Prop :=
  (close prev < close cur -> o_cur - o_prev == volume cur) /\
  (close cur < close prev -> o_cur - o_prev == - volume cur) /\
  (close cur == close prev -> o_cur - o_prev == 0).

(** USD value and base volume held by a run of levels. *)
Definition notional (levels : list Level) : Q :=
  Qsum (List.map (fun l => fst l * snd l) levels).

Definition base_volume (levels : list Level) : Q :=
  Qsum (List.map snd levels).

(** A level of a well-formed book: positive price, non-negative size. *)
Definition valid_level (l : Level) : Prop := 0 < fst l /\ 0 <= snd l.

(** [d[outer][inner]] on a returned dictionary. *)
Definition get2 (outer inner : string) (d : payload) : option value :=
  match get outer d with
  | Some (VDict sub) => get inner sub
  | _ => None
  end.

(** The three-level ask book of the example, under one bid. *)
Definition three_asks : list Level := [(100, 1); (101, 2); (102, 5)].

Definition three_level_book : OrderBook :=
  {| bids := [(99, 10)]; asks := three_asks |}.

(** A book of a hundred levels a side, ten cents apart, with nine large
    bids and four large asks resting at the far end. *)
Definition spoofed_book : OrderBook :=
  {| bids := List.map (fun i => (100 - inject_Z (Z.of_nat i) / 10,
                                 if Nat.ltb i 91 then 1 else 1000))
                      (seq 0 100);
     asks := List.map (fun i => (100.1 + inject_Z (Z.of_nat i) / 10,
                                 if Nat.ltb i 96 then 1 else 1000))
                      (seq 0 100) |}.

(** A row of the data model: no negative price or volume. *)
Definition valid_candle (c : Candle) : Prop :=
  0 <= high c /\ 0 <= low c /\ 0 <= close c /\ 0 <= volume c.

Definition nonneg (x : Q) : Prop := 0 <= x.

(** Four rows on which the typical price rises, falls, rises. *)
Definition four_bars : DataFrame :=
  [{| timestamp := 0; open := 10; high := 11; low := 9; close := 10;
      volume := 100 |};
   {| timestamp := 1; open := 10; high := 13; low := 11; close := 12;
      volume := 50 |};
   {| timestamp := 2; open := 12; high := 12; low := 10; close := 11;
      volume := 80 |};
   {| timestamp := 3; open := 11; high := 14; low := 12; close := 13;
      volume := 20 |}].

(** Twelve flat rows: too few for a 14-period RSI or MFI. *)
Definition twelve_rows : DataFrame := repeat (tick 100 1) 12.

(** The gains and losses behind [gain] and [loss], as plain rationals: the
    first row has no predecessor and counts for 0 in both. *)
Fixpoint gains_loop (prev : Q) (xs : list Q) : list Q :=
  match xs with
  | [] => []
  | x :: rest =>
      (if Qgtb (x - prev) 0 then x - prev else 0) :: gains_loop x rest
  end.

Fixpoint losses_loop (prev : Q) (xs : list Q) : list Q :=
  match xs with
  | [] => []
  | x :: rest =>
      - (if Qgtb 0 (x - prev) then x - prev else 0) :: losses_loop x rest
  end.

Definition gains (close_prices : list Q) : list Q :=
  match close_prices with
  | [] => []
  | x :: rest => 0 :: gains_loop x rest
  end.

Definition losses (close_prices : list Q) : list Q :=
  match close_prices with
  | [] => []
  | x :: rest => - 0 :: losses_loop x rest
  end.

(** The mean of the last [w] entries. *)
Definition last_mean (w : nat) (xs : list Q) : Q :=
  Qsum (slice (List.length xs - w) (List.length xs) xs)
  / inject_Z (Z.of_nat w).

(** Fifteen rows that all close at 100. *)
Definition flat_rows : DataFrame := repeat (tick 100 1) 15.

(** Fifteen rows that rise by one each: no loss in the window. *)
Definition rising_rows : DataFrame :=
  List.map (fun i => tick (100 + inject_Z (Z.of_nat i)) 1) (seq 0 15).

(** ** Quantities used by the further properties *)

(** Every name of [names] validates to itself against [names]. *)
Definition self_validating (names : list string) : bool :=
  forallb (fun x => match validate_exchange x names with
                    | inr y => String.eqb y x
                    | inl _ => false
                    end) names.

(** The seven named levels, in the order of the [levels] dictionary. *)
Definition named_levels (p : Pivots) : list (string * Q) :=
  [("R3", r3 p); ("R2", r2 p); ("R1", r1 p); ("PIVOT", pivot p);
   ("S1", s1 p); ("S2", s2 p); ("S3", s3 p)].

(** The value [calculate_mfi] reports, from the rows before the last. *)
Definition lagged_mfi (period : nat) (df : DataFrame) : float64 :=
  mfi_val
    (Qsum (slice (List.length df - period) (List.length df)
             (0 :: fst (flows df))))
    (Qsum (slice (List.length df - period) (List.length df)
             (0 :: snd (flows df)))).

(** A level whose size is not negative. *)
Definition nonneg_size (l : Level) : Prop := 0 <= snd l.

(** A side of ask or bid levels an order can be walked through. *)
Definition valid_side (levels : list Level) : Prop :=
  levels <> [] /\ Forall valid_level levels.

(** The trades the loop of [analyze_order_flow] counts as buys. *)
Definition taker_buys (trades : list Trade) : list Trade :=
  filter (fun trade => String.eqb (side trade) "buy") trades.

Definition nonneg_amount (trade : Trade) : Prop := 0 <= amount trade.

(** A tape of three trades, one of them with a side the exchange left
    empty. *)
Definition three_trades : list Trade :=
  [{| trade_price := 100; amount := 2; side := "buy"; trade_timestamp := 1 |};
   {| trade_price := 101; amount := 1; side := "sell"; trade_timestamp := 2 |};
   {| trade_price := 101; amount := 1; side := ""; trade_timestamp := 3 |}].

(** The exchanges [compare_funding_rates] goes through. *)
Definition compared (exchanges : option (list string)) : list string :=
  match exchanges with
  | None => RELIABLE_FUTURES_EXCHANGES
  | Some exchanges => exchanges
  end.

(** A funding source that answers on every exchange, each with its own
    rate. *)
Definition three_rates (exchange symbol : string) : result FundingRate :=
  if String.eqb exchange "binance" then
    ret {| fundingRate := Some 0.0001; fundingTimestamp := Some 0%Z |}
  else if String.eqb exchange "bybit" then
    ret {| fundingRate := Some 0.0003; fundingTimestamp := Some 0%Z |}
  else if String.eqb exchange "okx" then
    ret {| fundingRate := Some (-0.0001); fundingTimestamp := Some 0%Z |}
  else raise (OtherError "NetworkError" "timeout").

(** Every later quote of a sorted list has a rate at least as high. *)
Fixpoint ascending (xs : list FundingQuote) : Prop :=
  match xs with
  | [] => True
  | x :: rest =>
      (forall y, In y rest -> quote_rate x <= quote_rate y) /\ ascending rest
  end.

(** A bar whose close lies between its low and its high. *)
Definition ordered_candle (c : Candle) : Prop :=
  low c <= close c /\ close c <= high c.



(** * Properties *)

(** ** Comparisons and payloads *)

Ltac conjs := repeat match goal with |- _ /\ _ => split end.

Lemma Qltb_lt (x y : Q) : Qltb x y = true <-> x < y.
Proof.
  unfold Qltb. rewrite negb_true_iff, <- not_true_iff_false, Qle_bool_iff.
  split; [apply Qnot_le_lt | apply Qlt_not_le].
Qed.

Lemma Qgtb_gt (x y : Q) : Qgtb x y = true <-> y < x.
Proof. apply Qltb_lt. Qed.

Lemma Qgeb_ge (x y : Q) : Qgeb x y = true <-> y <= x.
Proof. apply Qle_bool_iff. Qed.

Lemma Qltb_ge (x y : Q) : Qltb x y = false <-> y <= x.
Proof.
  unfold Qltb. rewrite negb_false_iff. apply Qle_bool_iff.
Qed.

Lemma Qeq_bool_false (x y : Q) : Qeq_bool x y = false <-> ~ x == y.
Proof.
  rewrite <- not_true_iff_false, Qeq_bool_iff. reflexivity.
Qed.

(** ** Pivot points *)

(** C2, as amended. For every previous bar, the levels of
    [calculate_pivot_points] satisfy R1 + S1 = 4 Pivot - (High + Low), which
    is 2 Pivot exactly when High + Low = 2 Close, and R1 - S1 = High - Low
    and R2 - S2 = 2 (High - Low); for the bar High=110, Low=90, Close=100
    they are Pivot=100, R1=110, S1=90, R2=120, S2=80, R3=130, S3=70, and the
    tool reports exactly these. *)
Theorem pivot_points_relations :
  (forall h l c : Q,
      let p := pivot_levels h l c in
      pivot p == (h + l + c) / 3 /\
      r1 p == 2 * pivot p - l /\
      s1 p == 2 * pivot p - h /\
      r2 p == pivot p + (h - l) /\
      s2 p == pivot p - (h - l) /\
      r1 p + s1 p == 4 * pivot p - (h + l) /\
      (r1 p + s1 p == 2 * pivot p <-> h + l == 2 * c) /\
      r1 p - s1 p == h - l /\
      r2 p - s2 p == 2 * (h - l))
  /\ (let p := pivot_levels 110 90 100 in
      pivot p == 100 /\ r1 p == 110 /\ s1 p == 90 /\ r2 p == 120 /\
      s2 p == 80 /\ r3 p == 130 /\ s3 p == 70)
  /\ (let out :=
        calculate_pivot_points (serve [bar 110 90 100; bar 104 96 103])
          "BTC" "1d" 2 in
      get "success" out = Some (VBool true) /\
      get "pivot" out = Some (VNum 100) /\
      get "resistances" out
      = Some (VDict [("R1", VNum 110); ("R2", VNum 120); ("R3", VNum 130)]) /\
      get "supports" out
      = Some (VDict [("S1", VNum 90); ("S2", VNum 80); ("S3", VNum 70)])).
Proof.
  split; [| split].
  - intros h l c p. subst p. unfold pivot_levels.
    cbv zeta. cbn [pivot r1 r2 s1 s2].
    conjs; try reflexivity; try ring.
    assert (F : 3 * ((h + l + c) / 3) == h + l + c) by (field; discriminate).
    set (x := (h + l + c) / 3) in *. clearbody x.
    split; intro H; lra.
  - cbv zeta. conjs; vm_compute; reflexivity.
  - vm_compute. conjs; reflexivity.
Qed.

(** C2, as stated, fails: on the bar High=110, Low=90, Close=110 the sum
    R1 + S1 is 640/3 while 2 Pivot is 620/3. *)
Lemma pivot_r1_s1_sum_counterexample :
  let p := pivot_levels 110 90 110 in
  90 <= 110 /\
  r1 p + s1 p == 640 / 3 /\
  2 * pivot p == 620 / 3 /\
  ~ r1 p + s1 p == 2 * pivot p.
Proof. cbv zeta. conjs; vm_compute; try reflexivity; discriminate. Qed.

(** ** Funding rate *)

Lemma validate_exchange_mem (exchange exchange' : string) (supported : list string) :
  supported <> [] ->
  validate_exchange exchange supported = inr exchange' ->
  Str.mem exchange' supported = true.
Proof.
  intros Hne. unfold validate_exchange.
  destruct (Str.is_empty exchange); [discriminate |].
  destruct supported as [| s0 rest]; [congruence |].
  destruct (Str.mem _ _) eqn:M; cbn [negb]; [| discriminate].
  intros [= <-]. exact M.
Qed.

Lemma get_exchange_validated (exchange exchange' : string) :
  validate_exchange exchange RELIABLE_FUTURES_EXCHANGES = inr exchange' ->
  FuturesData._get_exchange exchange' = inr exchange'.
Proof.
  intros V. apply validate_exchange_mem in V; [| discriminate].
  unfold FuturesData._get_exchange. rewrite V. reflexivity.
Qed.




(** C4. The bias of [get_funding_rate] is NEUTRAL exactly when the
    annualized rate is within 5 of zero, BULLISH_EXTREME exactly when it is
    above 5, and BEARISH_EXTREME in every other case;
    [FUNDING_EXTREME_THRESHOLD] plays no part.  A rate of 10.95, between the
    two thresholds, is already BULLISH_EXTREME, and the tool labels the
    funding rate 0.0001 so. *)
Theorem funding_bias_classification :
  (forall a : Q,
      let bias := fst (funding_bias funding_thresholds a) in
      (bias = "NEUTRAL" <-> Qabs a < 5) /\
      (bias = "BULLISH_EXTREME" <-> 5 < a) /\
      (bias = "BEARISH_EXTREME" <-> ~ Qabs a < 5 /\ ~ 5 < a))
  /\ (forall (a extreme : Q),
        funding_bias {| FUNDING_NEUTRAL_THRESHOLD := 5;
                        FUNDING_EXTREME_THRESHOLD := extreme |} a
        = funding_bias funding_thresholds a)
  /\ fst (funding_bias funding_thresholds 10.95) = "BULLISH_EXTREME"
  /\ get "market_bias"
       (get_funding_rate
          (fun _ _ => ret {| fundingRate := Some 0.0001;
                             fundingTimestamp := Some 1700000000000%Z |})
          "BTC" "binance")
     = Some (VStr "BULLISH_EXTREME").
Proof.
  conjs.
  - intros a bias. subst bias. unfold funding_bias.
    cbn [FUNDING_NEUTRAL_THRESHOLD funding_thresholds].
    pose proof (Qle_Qabs a) as Habs.
    destruct (Qltb (Qabs a) 5) eqn:N.
    + apply Qltb_lt in N. cbn [fst].
      conjs; split; try discriminate; try tauto; intros; exfalso; lra.
    + apply Qltb_ge in N.
      destruct (Qgtb a 5) eqn:G; cbn [fst].
      * apply Qgtb_gt in G.
        conjs; split; try discriminate; try tauto; intros; exfalso; lra.
      * apply Qltb_ge in G.
        conjs; split; try discriminate; try tauto; intros; try (exfalso; lra).
        split; intro; lra.
  - reflexivity.
  - reflexivity.
  - reflexivity.
Qed.

(** ** Liquidation levels *)



(** ** On-balance volume *)

Lemma obv_loop_length (rows : list Candle) :
  forall prev last, List.length (obv_loop prev last rows) = List.length rows.
Proof.
  induction rows as [| c rest IH]; intros prev last; cbn; [reflexivity |].
  now rewrite IH.
Qed.

Lemma obv_loop_move (rows : list Candle) :
  forall prev last i c1 c2 o1 o2,
    nth_error (prev :: rows) i = Some c1 ->
    nth_error (prev :: rows) (S i) = Some c2 ->
    nth_error (last :: obv_loop prev last rows) i = Some o1 ->
    nth_error (last :: obv_loop prev last rows) (S i) = Some o2 ->
    obv_move c1 c2 o1 o2.
Proof.
  induction rows as [| c rest IH]; intros prev last i c1 c2 o1 o2 H1 H2 H3 H4.
  - destruct i; cbn in H2; discriminate.
  - destruct i as [| i].
    + cbn in H1, H2, H3, H4.
      injection H1 as <-. injection H2 as <-. injection H3 as <-.
      injection H4 as <-. unfold obv_move.
      destruct (Qgtb (close c) (close prev)) eqn:G.
      * apply Qgtb_gt in G. conjs; intros; lra.
      * apply Qltb_ge in G.
        destruct (Qltb (close c) (close prev)) eqn:L.
        -- apply Qltb_lt in L. conjs; intros; lra.
        -- apply Qltb_ge in L. conjs; intros; lra.
    + cbn [obv_loop] in H3, H4.
      change (nth_error (prev :: c :: rest) (S i)) with
        (nth_error (c :: rest) i) in H1.
      change (nth_error (prev :: c :: rest) (S (S i))) with
        (nth_error (c :: rest) (S i)) in H2.
      cbn [nth_error] in H3, H4.
      eapply IH; eauto.
Qed.

(** C6. For every non-empty series the OBV column of [calculate_obv] has
    one value per row, starts at 0, and between consecutive rows moves by
    +volume[i] when the close rose, by -volume[i] when it fell and not at
    all when it stayed. *)
Theorem obv_running_sum (df : DataFrame) :
  df <> [] ->
  List.length (obv_values df) = List.length df /\
  nth_error (obv_values df) 0 = Some 0 /\
  forall i prev cur,
    nth_error df i = Some prev ->
    nth_error df (S i) = Some cur ->
    exists o_prev o_cur,
      nth_error (obv_values df) i = Some o_prev /\
      nth_error (obv_values df) (S i) = Some o_cur /\
      obv_move prev cur o_prev o_cur.
Proof.
  intros Hne. destruct df as [| c0 rest]; [congruence |].
  unfold obv_values. conjs.
  - cbn. now rewrite obv_loop_length.
  - reflexivity.
  - intros i prev cur H1 H2.
    assert (Hlen : List.length (0 :: obv_loop c0 0 rest)
                   = List.length (c0 :: rest))
      by (cbn; now rewrite obv_loop_length).
    assert (Hi : (S i < List.length (c0 :: rest))%nat)
      by (apply nth_error_Some; congruence).
    destruct (nth_error (0 :: obv_loop c0 0 rest) i) as [o1 |] eqn:E1.
    2: { apply nth_error_None in E1. lia. }
    destruct (nth_error (0 :: obv_loop c0 0 rest) (S i)) as [o2 |] eqn:E2.
    2: { apply nth_error_None in E2. lia. }
    exists o1, o2. conjs; try reflexivity.
    eapply obv_loop_move; eauto.
Qed.

Lemma obv_running_sum_witness :
  obv_values [tick 10 5; tick 12 7; tick 11 3; tick 11 4] = [0; 7; 4; 4]
  /\ exists o_prev o_cur,
       nth_error (obv_values [tick 10 5; tick 12 7; tick 11 3; tick 11 4]) 1
       = Some o_prev /\
       nth_error (obv_values [tick 10 5; tick 12 7; tick 11 3; tick 11 4]) 2
       = Some o_cur /\
       obv_move (tick 12 7) (tick 11 3) o_prev o_cur.
Proof.
  split; [vm_compute; reflexivity |].
  apply (obv_running_sum [tick 10 5; tick 12 7; tick 11 3; tick 11 4]);
    [discriminate | reflexivity | reflexivity].
Defined.

(** ** Spoofing score *)

Lemma spoofing_score_values (n_bids n_asks : Z) :
  In (spoofing_score n_bids n_asks) [0; 25; 50; 75]%Z.
Proof.
  unfold spoofing_score.
  destruct (n_bids >? SPOOFING_COUNT_THRESHOLD)%Z,
           (n_asks >? SPOOFING_COUNT_THRESHOLD)%Z,
           (n_bids >? n_asks * 2)%Z, (n_asks >? n_bids * 2)%Z;
    cbn; tauto.
Qed.

Lemma spoofing_risk_high (score : Z) :
  fst (spoofing_risk score) = "HIGH" <-> (score > 50)%Z.
Proof.
  unfold spoofing_risk.
  destruct (score >? 50)%Z eqn:H; [| destruct (score >? 25)%Z]; cbn [fst];
    split; intros; try discriminate; try lia; reflexivity.
Qed.

(** The payload of a tool that answered [success: True] comes from its
    body. *)
Lemma with_symbol_exchange_success (supported : list string)
  (symbol exchange : string) (body : string -> string -> result payload) :
  get "success" (with_symbol_exchange supported symbol exchange body)
  = Some (VBool true) ->
  exists symbol' exchange' p,
    validate_symbol symbol = inr symbol' /\
    validate_exchange exchange supported = inr exchange' /\
    body symbol' exchange' = inr p /\
    with_symbol_exchange supported symbol exchange body = p.
Proof.
  unfold with_symbol_exchange.
  destruct (validate_symbol symbol) as [e | symbol']; [discriminate |].
  destruct (validate_exchange exchange supported) as [e | exchange'];
    [discriminate |].
  destruct (body symbol' exchange') as [e | p] eqn:B; [discriminate |].
  intros _. exists symbol', exchange', p. cbn [guard]. auto.
Qed.

(** Peel one [x <- m ;; k] off a computation known to return. *)
Ltac bind_inv H :=
  match type of H with
  | bind ?m _ = inr _ =>
      let E := fresh "E" in
      destruct m eqn:E; cbn [bind] in H; [discriminate H |]
  end.

(** C10. Whenever [detect_spoofing_patterns] succeeds, its spoofing_score
    is one of 0, 25, 50, 75 and its risk_level is HIGH exactly when the
    score is 75; the two dominance bonuses exclude each other, whatever the
    two counts. *)
Theorem spoofing_score_range :
  (forall (fetch : string -> string -> Z -> result OrderBook) (now : string)
          (symbol exchange : string) (depth : Z) (threshold : Q),
      let out :=
        detect_spoofing_patterns fetch now symbol exchange depth threshold in
      get "success" out = Some (VBool true) ->
      exists score : Z,
        get "spoofing_score" out = Some (VInt score) /\
        In score [0; 25; 50; 75]%Z /\
        (get "risk_level" out = Some (VStr "HIGH") <-> score = 75%Z))
  /\ (forall n_bids n_asks : nat,
        ~ (n_bids > n_asks * 2 /\ n_asks > n_bids * 2)%nat)
  /\ (forall n_bids n_asks : Z,
        spoofing_score n_bids n_asks = 75%Z <->
        (n_bids > 3 /\ n_asks > 3
         /\ (n_bids > n_asks * 2 \/ n_asks > n_bids * 2))%Z).
Proof.
  conjs.
  - intros fetch now symbol exchange depth threshold out Hs. subst out.
    unfold detect_spoofing_patterns in *.
    destruct (with_symbol_exchange_success _ _ _ _ Hs)
      as (symbol' & exchange' & out & _ & _ & B & ->).
    clear Hs. cbv beta in B.
    repeat bind_inv B.
    destruct (spoofing_risk _) as [risk interp] eqn:R.
    injection B as <-.
    match type of R with
    | spoofing_risk (spoofing_score ?a ?b) = _ =>
        pose proof (spoofing_risk_high (spoofing_score a b)) as Hh;
        pose proof (spoofing_score_values a b) as Hv
    end.
    rewrite R in Hh. cbn [fst] in Hh. cbn [In] in Hv.
    eexists. conjs; [reflexivity | apply spoofing_score_values |].
    cbn [get String.eqb Ascii.eqb Bool.eqb].
    split.
    + intros [= Hr]. apply Hh in Hr. lia.
    + intros Hs. f_equal. f_equal. apply Hh. lia.
  - intros n_bids n_asks. lia.
  - intros n_bids n_asks. unfold spoofing_score, SPOOFING_COUNT_THRESHOLD.
    destruct (n_bids >? 3)%Z eqn:A, (n_asks >? 3)%Z eqn:B,
             (n_bids >? n_asks * 2)%Z eqn:C, (n_asks >? n_bids * 2)%Z eqn:D;
      lia.
Qed.

(** ** Market impact: the buy-side walk *)

Lemma fold_left_Qplus (xs : list Q) :
  forall a, fold_left Qplus xs a == a + fold_left Qplus xs 0.
Proof.
  induction xs as [| x rest IH]; intros a; cbn [fold_left].
  - ring.
  - rewrite (IH (a + x)), (IH (0 + x)). ring.
Qed.

Lemma Qsum_cons (x : Q) (xs : list Q) : Qsum (x :: xs) == x + Qsum xs.
Proof.
  unfold Qsum. cbn [fold_left]. rewrite fold_left_Qplus. ring.
Qed.

Lemma notional_cons (p v : Q) (levels : list Level) :
  notional ((p, v) :: levels) == p * v + notional levels.
Proof. unfold notional. cbn [List.map]. apply Qsum_cons. Qed.

Lemma base_volume_cons (p v : Q) (levels : list Level) :
  base_volume ((p, v) :: levels) == v + base_volume levels.
Proof. unfold base_volume. cbn [List.map]. apply Qsum_cons. Qed.

Lemma notional_nonneg (levels : list Level) :
  Forall valid_level levels -> 0 <= notional levels.
Proof.
  induction 1 as [| [p v] rest [Hp Hv] _ IH].
  - discriminate.
  - rewrite notional_cons. cbn [fst snd] in *.
    pose proof (Qmult_le_0_compat p v). lra.
Qed.

Lemma base_volume_nonneg (levels : list Level) :
  Forall valid_level levels -> 0 <= base_volume levels.
Proof.
  induction 1 as [| [p v] rest [Hp Hv] _ IH].
  - discriminate.
  - rewrite base_volume_cons. cbn [fst snd] in *. lra.
Qed.

Lemma pydiv_nonzero (a b : Q) : ~ b == 0 -> pydiv a b = inr (a / b).
Proof.
  intros H. unfold pydiv. apply Qeq_bool_false in H. now rewrite H.
Qed.

(** The walk from running totals still below the order size: either the
    levels run out below it, or the first level that reaches it is filled in
    part. *)
Lemma walk_cases (size : Q) (levels : list Level) :
  Forall valid_level levels ->
  forall st,
    cumulative_cost st < size ->
    (cumulative_cost st + notional levels < size /\
     exists st',
       walk size levels st = inr st' /\
       cumulative_cost st' == cumulative_cost st + notional levels /\
       cumulative_volume st' == cumulative_volume st + base_volume levels /\
       levels_consumed st'
       = (levels_consumed st + Z.of_nat (List.length levels))%Z)
    \/
    (size <= cumulative_cost st + notional levels /\
     exists pre p v post st',
       levels = (pre ++ (p, v) :: post)%list /\
       cumulative_cost st + notional pre < size /\
       size <= cumulative_cost st + notional pre + p * v /\
       walk size levels st = inr st' /\
       cumulative_cost st' = size /\
       cumulative_volume st'
       == cumulative_volume st + base_volume pre
          + (size - (cumulative_cost st + notional pre)) / p /\
       levels_consumed st'
       = (levels_consumed st + Z.of_nat (List.length pre) + 1)%Z).
Proof.
  induction 1 as [| [p v] rest [Hp Hv] Hrest IH]; intros st Hst.
  - left. split; [unfold notional, Qsum; cbn; lra |].
    exists st. cbn. conjs; try reflexivity.
    + unfold notional, Qsum; cbn; lra.
    + unfold base_volume, Qsum; cbn; lra.
    + lia.
  - cbn [fst snd] in Hp, Hv. cbn [walk].
    pose proof (notional_cons p v rest) as Nc.
    pose proof (base_volume_cons p v rest) as Bc.
    pose proof (notional_nonneg rest Hrest) as Nn.
    destruct (Qgeb (cumulative_cost st + p * v) size) eqn:G.
    + apply Qgeb_ge in G. right. split; [lra |].
      exists [], p, v, rest. eexists. rewrite pydiv_nonzero by lra.
      cbn [bind ret cumulative_cost cumulative_volume levels_consumed
           List.length app].
      assert (N0 : notional [] == 0) by reflexivity.
      assert (B0 : base_volume [] == 0) by reflexivity.
      conjs; try reflexivity.
      all: cbn [cumulative_cost cumulative_volume levels_consumed].
      all: try lra; try lia.
      rewrite N0, B0. field. lra.
    + assert (G' : cumulative_cost st + p * v < size).
      { apply Qltb_lt. unfold Qltb. unfold Qgeb in G. now rewrite G. }
      clear G.
      set (st1 := {| cumulative_volume := cumulative_volume st + v;
                     cumulative_cost := cumulative_cost st + p * v;
                     levels_consumed := (levels_consumed st + 1)%Z |}).
      destruct (IH st1 G') as [[Hlt (st' & W & C & V & L)]
                              | [Hge (pre & p' & v' & post & st' & -> & Hpre
                                      & Hfill & W & C & V & L)]];
        cbn [st1 cumulative_cost cumulative_volume levels_consumed] in *.
      * left. split; [lra |]. exists st'.
        conjs; [exact W | lra | lra |].
        rewrite L. cbn [List.length]. lia.
      * right. split; [lra |].
        exists ((p, v) :: pre), p', v', post, st'.
        pose proof (notional_cons p v pre) as Nc'.
        pose proof (base_volume_cons p v pre) as Bc'.
        conjs; [reflexivity | lra | lra | exact W | exact C | |].
        -- rewrite V, Nc', Bc'.
           assert (Hp' : 0 < p').
           { apply Forall_app in Hrest. destruct Hrest as [_ Hr].
             inversion Hr as [| ? ? [Hp'' _] _]; subst. exact Hp''. }
           field. lra.
        -- rewrite L. cbn [List.length]. lia.
Qed.

(** C9. On a well-formed ask side and a positive order, the buy walk of
    [calculate_market_impact] takes the levels in order while the running
    notional stays below the order size, fills the first level that reaches
    it only in part so that the cost is the order size exactly, and prices
    the fill at order size / base volume; it reports insufficient liquidity,
    with no average price, exactly when the whole side is worth less than
    the order.  On the asks (100,1), (101,2), (102,5) a 300 USD order takes
    two levels at the average price 300 / (1 + 200/101). *)
Theorem market_impact_buy_walk :
  (forall (asks : list Level) (size best_ask mid : Q),
      0 < size ->
      Forall valid_level asks ->
      ~ best_ask == 0 ->
      ~ mid == 0 ->
      exists st r,
        walk size asks start = inr st /\
        buy_order_impact size best_ask mid asks = inr r /\
        impact_levels_consumed r = levels_consumed st /\
        ((notional asks < size /\
          insufficient_liquidity r = true /\
          average_execution_price r = None /\
          levels_consumed st = Z.of_nat (List.length asks) /\
          cumulative_cost st == notional asks)
         \/
         (size <= notional asks /\
          insufficient_liquidity r = false /\
          exists pre p v post avg,
            asks = (pre ++ (p, v) :: post)%list /\
            notional pre < size /\
            size <= notional pre + p * v /\
            levels_consumed st = (Z.of_nat (List.length pre) + 1)%Z /\
            cumulative_cost st = size /\
            cumulative_volume st
            == base_volume pre + (size - notional pre) / p /\
            average_execution_price r = Some avg /\
            avg == size / cumulative_volume st)))
  /\ (exists r avg,
        buy_order_impact 300 100 ((99 + 100) / 2) three_asks = inr r /\
        impact_levels_consumed r = 2%Z /\
        insufficient_liquidity r = false /\
        average_execution_price r = Some avg /\
        avg == 300 / (1 + 200 / 101))
  /\ (let out :=
        calculate_market_impact (fun _ _ _ => ret three_level_book)
          "BTC" "binance" 300 in
      get2 "buy_order_impact" "levels_consumed" out = Some (VInt 2) /\
      get2 "buy_order_impact" "insufficient_liquidity" out
      = Some (VBool false) /\
      get2 "buy_order_impact" "average_execution_price" out
      = Some (VNum (round (300 / (1 + 200 / 101)) 2)))
  /\ (let out :=
        calculate_market_impact (fun _ _ _ => ret three_level_book)
          "BTC" "binance" 900 in
      get2 "buy_order_impact" "levels_consumed" out = Some (VInt 3) /\
      get2 "buy_order_impact" "insufficient_liquidity" out
      = Some (VBool true) /\
      get2 "buy_order_impact" "average_execution_price" out = Some VNone).
Proof.
  conjs.
  - intros asks size best_ask mid Hsize Hasks Hbest Hmid.
    unfold buy_order_impact.
    assert (S0 : cumulative_cost start < size) by exact Hsize.
    destruct (walk_cases size asks Hasks start S0)
      as [[Hlt (st & W & C & V & L)]
         | [Hge (pre & p & v & post & st & E & Hpre & Hfill & W & C & V & L)]];
      cbn [start cumulative_cost cumulative_volume levels_consumed] in *;
      rewrite W; cbn [bind].
    + assert (G : Qgeb (cumulative_cost st) size = false).
      { unfold Qgeb. apply not_true_iff_false. rewrite Qle_bool_iff. lra. }
      rewrite G. exists st. eexists.
      conjs; [reflexivity | reflexivity | reflexivity |].
      left. conjs; try reflexivity; try lra; try lia.
    + assert (G : Qgeb (cumulative_cost st) size = true).
      { apply Qgeb_ge. rewrite C. lra. }
      rewrite G.
      assert (Hp : 0 < p).
      { subst asks. apply Forall_app in Hasks. destruct Hasks as [_ Hr].
        inversion Hr as [| ? ? [Hp' _] _]; subst. exact Hp'. }
      assert (Hpre0 : 0 <= base_volume pre).
      { subst asks. apply Forall_app in Hasks. destruct Hasks as [Hl _].
        now apply base_volume_nonneg. }
      assert (Hrem : 0 < (size - (0 + notional pre)) / p).
      { apply Qlt_shift_div_l; lra. }
      assert (Hvol : ~ cumulative_volume st == 0) by lra.
      rewrite (pydiv_nonzero _ _ Hvol). cbn [bind].
      rewrite (pydiv_nonzero _ _ Hbest). cbn [bind].
      rewrite (pydiv_nonzero _ _ Hmid). cbn [bind ret].
      exists st. eexists.
      conjs; [reflexivity | reflexivity | reflexivity |].
      right. cbn [insufficient_liquidity average_execution_price].
      conjs; [lra | reflexivity |].
      exists pre, p, v, post. eexists.
      conjs; try reflexivity; try assumption; try lra; try lia.
      rewrite V. assert (Z0 : 0 + base_volume pre + (size - (0 + notional pre)) / p
                               == base_volume pre + (size - notional pre) / p).
      { field. lra. }
      exact Z0.
  - vm_compute. do 2 eexists. conjs; reflexivity.
  - vm_compute. conjs; reflexivity.
  - vm_compute. conjs; reflexivity.
Qed.

Lemma market_impact_buy_walk_witness :
  exists st r,
    walk 300 three_asks start = inr st /\
    buy_order_impact 300 100 (199 / 2) three_asks = inr r /\
    impact_levels_consumed r = levels_consumed st.
Proof.
  destruct (proj1 market_impact_buy_walk three_asks 300 100 (199 / 2))
    as (st & r & W & B & L & _).
  - reflexivity.
  - repeat constructor; cbn; discriminate.
  - discriminate.
  - discriminate.
  - exists st, r. auto.
Defined.

Lemma spoofing_score_range_witness :
  exists score : Z,
    get "spoofing_score"
      (detect_spoofing_patterns (fun _ _ _ => ret three_level_book) "t0"
         "BTC" "binance" 50 5)
    = Some (VInt score) /\
    In score [0; 25; 50; 75]%Z /\
    (get "risk_level"
       (detect_spoofing_patterns (fun _ _ _ => ret three_level_book) "t0"
          "BTC" "binance" 50 5)
     = Some (VStr "HIGH") <-> score = 75%Z).
Proof.
  apply (proj1 spoofing_score_range (fun _ _ _ => ret three_level_book) "t0"
           "BTC" "binance" 50%Z 5).
  vm_compute. reflexivity.
Defined.

(** The score 75 is reached: nine suspicious bids against four suspicious
    asks collect all three bonuses that can go together. *)
Example spoofing_score_75 :
  let out :=
    detect_spoofing_patterns (fun _ _ _ => ret spoofed_book) "t0"
      "BTC" "binance" 100 5 in
  get "spoofing_score" out = Some (VInt 75) /\
  get "risk_level" out = Some (VStr "HIGH") /\
  get2 "suspicious_orders" "total_suspicious_bids" out = Some (VInt 9) /\
  get2 "suspicious_orders" "total_suspicious_asks" out = Some (VInt 4).
Proof. vm_compute. conjs; reflexivity. Qed.

(** ** Money flow index *)

Lemma Qeq_bool_true (x y : Q) : x == y -> Qeq_bool x y = true.
Proof. apply Qeq_bool_iff. Qed.

Lemma Qeq_bool_neq (x y : Q) : ~ x == y -> Qeq_bool x y = false.
Proof. apply Qeq_bool_false. Qed.

(** The value of one window, by cases on the two sums. *)
Lemma mfi_val_cases (pos_sum neg_sum : Q) :
  (neg_sum == 0 -> mfi_val pos_sum neg_sum = Fin 100) /\
  (~ neg_sum == 0 -> ~ 1 + pos_sum / neg_sum == 0 ->
   mfi_val pos_sum neg_sum = Fin (100 + - (100 / (1 + pos_sum / neg_sum)))) /\
  (~ neg_sum == 0 -> 1 + pos_sum / neg_sum == 0 ->
   mfi_val pos_sum neg_sum = NInf).
Proof.
  unfold mfi_val. conjs.
  - intros H. now rewrite (Qeq_bool_true _ _ H).
  - intros H1 H2. rewrite (Qeq_bool_neq _ _ H1). cbn [F64.div F64.add].
    rewrite (Qeq_bool_neq _ _ H1). cbn [F64.add F64.div F64.sub F64.neg].
    rewrite (Qeq_bool_neq _ _ H2). reflexivity.
  - intros H1 H2. rewrite (Qeq_bool_neq _ _ H1). cbn [F64.div F64.add].
    rewrite (Qeq_bool_neq _ _ H1). cbn [F64.add F64.div F64.sub F64.neg].
    rewrite (Qeq_bool_true _ _ H2). reflexivity.
Qed.

Lemma flow_loop_length (rows : list Candle) :
  forall prev,
    List.length (fst (flow_loop prev rows)) = List.length rows /\
    List.length (snd (flow_loop prev rows)) = List.length rows.
Proof.
  induction rows as [| c rest IH]; intros prev; cbn [flow_loop].
  - split; reflexivity.
  - destruct (IH c) as [Hp Hn].
    destruct (flow_loop c rest) as [positive negative]. cbn [fst snd] in *.
    destruct (Qgtb _ _); [| destruct (Qltb _ _)]; cbn; split; congruence.
Qed.

Lemma mfi_values_length (period : nat) (positive negative : list Q) :
  List.length (mfi_values period positive negative)
  = (List.length positive - period)%nat.
Proof. unfold mfi_values. now rewrite length_map, length_seq. Qed.

Lemma mfi_values_nth (period : nat) (positive negative : list Q) (k : nat) :
  (k < List.length positive - period)%nat ->
  nth_error (mfi_values period positive negative) k
  = Some (mfi_val (Qsum (slice k (k + period) positive))
                  (Qsum (slice k (k + period) negative))).
Proof.
  intros H. unfold mfi_values. rewrite nth_error_map.
  rewrite (nth_error_nth' _ 0%nat) by (now rewrite length_seq).
  rewrite seq_nth by exact H. cbn [option_map].
  replace (period + k - period)%nat with k by lia.
  replace (period + k)%nat with (k + period)%nat by lia.
  reflexivity.
Qed.

Lemma iloc_neg_ok {A} (xs : list A) (k : nat) :
  (1 <= k <= List.length xs)%nat ->
  exists x, iloc_neg xs k = inr x /\
            nth_error xs (List.length xs - k) = Some x.
Proof.
  intros H. unfold iloc_neg.
  destruct (Nat.ltb_spec (List.length xs) k); [lia |].
  destruct (nth_error xs (List.length xs - k)) as [x |] eqn:E.
  - exists x. auto.
  - apply nth_error_None in E. lia.
Qed.

Lemma validate_positive_int_ok (v m : Z) (name : string) :
  (0 < v <= m)%Z -> validate_positive_int v name (Some m) = inr v.
Proof.
  intros H. unfold validate_positive_int.
  destruct (Z.leb_spec v 0); [lia |].
  destruct (Z.gtb_spec v m); [lia | reflexivity].
Qed.

Lemma set_column_ok {A} (df : DataFrame) (values : list A) :
  List.length values = List.length df -> set_column df values = inr values.
Proof.
  intros H. unfold set_column. rewrite H, Nat.eqb_refl. reflexivity.
Qed.

(** With valid arguments and more rows than [period], [calculate_mfi]
    returns the value of the last window. *)
Lemma calculate_mfi_returns
  (fetch : string -> string -> Z -> result DataFrame)
  (symbol timeframe symbol' timeframe' : string) (period periods : Z)
  (df : DataFrame) :
  validate_symbol symbol = inr symbol' ->
  validate_timeframe timeframe = inr timeframe' ->
  (0 < period <= 100)%Z ->
  (0 < periods <= 500)%Z ->
  fetch (symbol' ++ "/USDT") timeframe' periods = inr df ->
  (Z.to_nat period < List.length df)%nat ->
  exists m,
    nth_error
      (mfi_values (Z.to_nat period) (0 :: fst (flows df)) (0 :: snd (flows df)))
      (List.length df - Z.to_nat period - 1)
    = Some m /\
    get "success" (calculate_mfi fetch symbol timeframe period periods)
    = Some (VBool true) /\
    get "current_mfi" (calculate_mfi fetch symbol timeframe period periods)
    = Some (VFloat (F64.round m 2)).
Proof.
  intros Vs Vt Hp Hps F Hlen.
  unfold calculate_mfi, with_symbol, _fetch_ohlcv. rewrite Vs, Vt.
  cbn [bind guard].
  rewrite (validate_positive_int_ok _ _ _ Hp),
          (validate_positive_int_ok _ _ _ Hps).
  cbn [bind]. rewrite F. cbn [bind].
  destruct df as [| c0 rest]; [cbn [List.length] in Hlen; lia |].
  cbn [flows]. destruct (flow_loop_length rest c0) as [Lp Ln].
  destruct (flow_loop c0 rest) as [positive negative]. cbn [fst snd] in *.
  rewrite !set_column_ok by (cbn [List.length]; congruence). cbn [bind].
  set (n := Z.to_nat period) in *.
  set (vals := mfi_values n (0 :: positive) (0 :: negative)).
  assert (Lv : List.length vals = (S (List.length rest) - n)%nat).
  { unfold vals. rewrite mfi_values_length. cbn [List.length].
    now rewrite Lp. }
  assert (Lm : List.length (repeat (@None float64) n ++ List.map Some vals)%list
               = List.length (c0 :: rest)).
  { rewrite length_app, repeat_length, length_map, Lv.
    cbn [List.length] in *. lia. }
  rewrite (set_column_ok _ _ Lm). cbn [bind].
  destruct (iloc_neg_ok (repeat (@None float64) n ++ List.map Some vals)%list 1)
    as (x & Ix & Nx); [rewrite Lm; cbn [List.length]; lia |].
  rewrite Ix. cbn [bind].
  rewrite Lm in Nx. rewrite nth_error_app2 in Nx
    by (rewrite repeat_length; cbn [List.length] in *; lia).
  rewrite repeat_length, nth_error_map in Nx.
  replace (List.length (c0 :: rest) - 1 - n)%nat
    with (List.length (c0 :: rest) - n - 1)%nat in Nx by lia.
  destruct (nth_error vals _) as [m |] eqn:Em; cbn [option_map] in Nx;
    [| discriminate].
  injection Nx as <-.
  exists m. split; [reflexivity |].
  destruct (mfi_signal m) as [signal interpretation].
  destruct (iloc_neg_ok (c0 :: rest) 1) as (last & Il & _);
    [cbn [List.length]; lia |].
  rewrite Il. cbn [bind ret]. split; reflexivity.
Qed.

Lemma Qsum_nonneg (xs : list Q) : Forall nonneg xs -> 0 <= Qsum xs.
Proof.
  induction 1 as [| x rest Hx _ IH]; [discriminate |].
  rewrite Qsum_cons. unfold nonneg in Hx. lra.
Qed.

Lemma slice_Forall {A} (P : A -> Prop) (a b : nat) (xs : list A) :
  Forall P xs -> Forall P (slice a b xs).
Proof.
  intros H. unfold slice.
  assert (Hs : Forall P (skipn a xs)).
  { rewrite <- (firstn_skipn a xs) in H. now apply Forall_app in H. }
  rewrite <- (firstn_skipn (b - a) (skipn a xs)) in Hs.
  now apply Forall_app in Hs.
Qed.

Lemma money_flow_nonneg (c : Candle) : valid_candle c -> nonneg (money_flow c).
Proof.
  intros (Hh & Hl & Hc & Hv). unfold nonneg, money_flow, typical_price.
  apply Qmult_le_0_compat; [| exact Hv].
  apply Qle_shift_div_l; [reflexivity | lra].
Qed.

Lemma flow_loop_nonneg (rows : list Candle) :
  Forall valid_candle rows ->
  forall prev,
    Forall nonneg (fst (flow_loop prev rows)) /\
    Forall nonneg (snd (flow_loop prev rows)).
Proof.
  induction 1 as [| c rest Hc _ IH]; intros prev; cbn [flow_loop].
  - split; constructor.
  - destruct (IH c) as [Hp Hn].
    destruct (flow_loop c rest) as [positive negative]. cbn [fst snd] in *.
    pose proof (money_flow_nonneg c Hc) as Hm.
    assert (H0 : nonneg 0) by (unfold nonneg; lra).
    destruct (Qgtb _ _); [| destruct (Qltb _ _)]; cbn [fst snd];
      split; constructor; assumption.
Qed.

(** C5. [calculate_mfi] is total on its windows: a window whose negative
    money flow sums to 0 gives exactly 100 without dividing, any other
    window gives 100 - 100/(1 + sumPositive/sumNegative) in NumPy's
    non-raising arithmetic (a finite value below 100 on rows without
    negative prices or volumes), and with valid arguments and more rows than
    [period] the tool returns the value of the last window. *)
Theorem mfi_total :
  (forall pos_sum neg_sum : Q,
      (neg_sum == 0 -> mfi_val pos_sum neg_sum = Fin 100) /\
      (~ neg_sum == 0 -> ~ 1 + pos_sum / neg_sum == 0 ->
       mfi_val pos_sum neg_sum
       = Fin (100 + - (100 / (1 + pos_sum / neg_sum)))) /\
      (~ neg_sum == 0 -> 1 + pos_sum / neg_sum == 0 ->
       mfi_val pos_sum neg_sum = NInf))
  /\ (forall pos_sum neg_sum : Q,
        0 <= pos_sum -> 0 < neg_sum ->
        exists q,
          mfi_val pos_sum neg_sum = Fin q /\
          q == 100 - 100 / (1 + pos_sum / neg_sum) /\
          0 <= q /\ q < 100)
  /\ (forall (df : DataFrame) (a b : nat),
        Forall valid_candle df ->
        0 <= Qsum (slice a b (0 :: fst (flows df))) /\
        0 <= Qsum (slice a b (0 :: snd (flows df))))
  /\ (forall (period : nat) (positive negative : list Q) (k : nat),
        (k < List.length positive - period)%nat ->
        nth_error (mfi_values period positive negative) k
        = Some (mfi_val (Qsum (slice k (k + period) positive))
                        (Qsum (slice k (k + period) negative))))
  /\ (forall (fetch : string -> string -> Z -> result DataFrame)
             (symbol timeframe symbol' timeframe' : string)
             (period periods : Z) (df : DataFrame),
        validate_symbol symbol = inr symbol' ->
        validate_timeframe timeframe = inr timeframe' ->
        (0 < period <= 100)%Z ->
        (0 < periods <= 500)%Z ->
        fetch (symbol' ++ "/USDT") timeframe' periods = inr df ->
        (Z.to_nat period < List.length df)%nat ->
        exists m,
          nth_error
            (mfi_values (Z.to_nat period)
               (0 :: fst (flows df)) (0 :: snd (flows df)))
            (List.length df - Z.to_nat period - 1)
          = Some m /\
          get "success" (calculate_mfi fetch symbol timeframe period periods)
          = Some (VBool true) /\
          get "current_mfi"
            (calculate_mfi fetch symbol timeframe period periods)
          = Some (VFloat (F64.round m 2))).
Proof.
  conjs.
  - apply mfi_val_cases.
  - intros pos_sum neg_sum Hp Hn.
    assert (Hr : 0 <= pos_sum / neg_sum)
      by (apply Qle_shift_div_l; lra).
    destruct (mfi_val_cases pos_sum neg_sum) as (_ & H & _).
    rewrite H by lra.
    eexists. conjs; [reflexivity | ring | |].
    + assert (Hd : 100 / (1 + pos_sum / neg_sum) <= 100)
        by (apply Qle_shift_div_r; lra).
      lra.
    + assert (Hd : 0 < 100 / (1 + pos_sum / neg_sum))
        by (apply Qlt_shift_div_l; lra).
      lra.
  - intros df a b Hdf.
    assert (H0 : nonneg 0) by (unfold nonneg; lra).
    destruct df as [| c0 rest]; cbn [flows fst snd].
    + split; apply Qsum_nonneg, slice_Forall; repeat constructor; exact H0.
    + inversion Hdf as [| ? ? _ Hrest]; subst.
      destruct (flow_loop_nonneg rest Hrest c0) as [Hp Hn].
      split; apply Qsum_nonneg, slice_Forall; constructor; assumption.
  - apply mfi_values_nth.
  - apply calculate_mfi_returns.
Qed.

Lemma mfi_total_witness :
  get "current_mfi" (calculate_mfi (serve four_bars) "btc" "1h" 2 100)
  = Some (VFloat (Fin (Qred 40.54))).
Proof.
  destruct (proj2 (proj2 (proj2 (proj2 mfi_total))) (serve four_bars)
              "btc" "1h" "BTC" "1h" 2%Z 100%Z four_bars)
    as (m & Hm & _ & Hc);
    [reflexivity | reflexivity | lia | lia | reflexivity | cbn; lia |].
  rewrite Hc. vm_compute in Hm. injection Hm as <-. vm_compute. reflexivity.
Defined.

(** ** Short series *)

Lemma validate_positive_int_inv (v v' : Z) (name : string) (m : option Z) :
  validate_positive_int v name m = inr v' -> v' = v /\ (0 < v)%Z.
Proof.
  unfold validate_positive_int.
  destruct (Z.leb_spec v 0); [discriminate |].
  destruct m as [m |]; [destruct (v >? m)%Z; [discriminate |] |];
    intros [= <-]; split; [reflexivity | lia | reflexivity | lia].
Qed.







(** The payloads themselves, on twelve rows and on a single row. *)
Example short_series_examples :
  calculate_mfi (serve twelve_rows) "BTC" "1h" 14 100
  = [("success", VBool false);
     ("error",
       VStr "Length of values (14) does not match length of index (12)");
     ("error_type", VStr "ValueError");
     ("symbol", VStr "BTC")]
  /\ calculate_pivot_points (serve [bar 110 90 100]) "BTC" "1d" 1
     = [("success", VBool false);
        ("error", VStr "single positional indexer is out-of-bounds");
        ("error_type", VStr "IndexError");
        ("symbol", VStr "BTC")].
Proof. split; vm_compute; reflexivity. Qed.


(** ** Relative strength index *)

Lemma where_gains (close_prices : list Q) :
  where_ (fun d => F64.gtb d (Fin 0)) (Fin 0) (diff close_prices)
  = List.map Fin (gains close_prices).
Proof.
  destruct close_prices as [| x rest]; [reflexivity |].
  cbn [diff gains where_ List.map F64.gtb]. f_equal.
  revert x. induction rest as [| y rest IH]; intros x; [reflexivity |].
  cbn [diff_loop gains_loop List.map F64.gtb]. rewrite IH.
  now destruct (Qgtb (y - x) 0).
Qed.

Lemma where_losses (close_prices : list Q) :
  List.map F64.neg
    (where_ (fun d => F64.ltb d (Fin 0)) (Fin 0) (diff close_prices))
  = List.map Fin (losses close_prices).
Proof.
  destruct close_prices as [| x rest]; [reflexivity |].
  cbn [diff losses where_ List.map F64.ltb F64.gtb F64.neg]. f_equal.
  revert x. induction rest as [| y rest IH]; intros x; [reflexivity |].
  cbn [diff_loop losses_loop List.map F64.ltb F64.gtb]. rewrite IH.
  now destruct (Qgtb 0 (y - x)).
Qed.

Lemma gains_loop_facts (xs : list Q) :
  forall prev,
    List.length (gains_loop prev xs) = List.length xs /\
    Forall nonneg (gains_loop prev xs).
Proof.
  induction xs as [| x rest IH]; intros prev; cbn [gains_loop].
  - split; [reflexivity | constructor].
  - destruct (IH x) as [L F]. split; [cbn; congruence |].
    constructor; [| exact F]. unfold nonneg.
    destruct (Qgtb (x - prev) 0) eqn:G; [apply Qgtb_gt in G |]; lra.
Qed.

Lemma losses_loop_facts (xs : list Q) :
  forall prev,
    List.length (losses_loop prev xs) = List.length xs /\
    Forall nonneg (losses_loop prev xs).
Proof.
  induction xs as [| x rest IH]; intros prev; cbn [losses_loop].
  - split; [reflexivity | constructor].
  - destruct (IH x) as [L F]. split; [cbn; congruence |].
    constructor; [| exact F]. unfold nonneg.
    destruct (Qgtb 0 (x - prev)) eqn:G; [apply Qgtb_gt in G |]; lra.
Qed.

Lemma gains_facts (close_prices : list Q) :
  List.length (gains close_prices) = List.length close_prices /\
  Forall nonneg (gains close_prices).
Proof.
  destruct close_prices as [| x rest]; cbn [gains].
  - split; [reflexivity | constructor].
  - destruct (gains_loop_facts rest x) as [L F].
    split; [cbn; congruence | constructor; [unfold nonneg; lra | exact F]].
Qed.

Lemma losses_facts (close_prices : list Q) :
  List.length (losses close_prices) = List.length close_prices /\
  Forall nonneg (losses close_prices).
Proof.
  destruct close_prices as [| x rest]; cbn [losses].
  - split; [reflexivity | constructor].
  - destruct (losses_loop_facts rest x) as [L F].
    split; [cbn; congruence | constructor; [unfold nonneg; lra | exact F]].
Qed.

Lemma fsum_Fin (xs : list Q) : fsum (List.map Fin xs) = Fin (Qsum xs).
Proof.
  unfold fsum, Qsum. generalize 0 as a.
  induction xs as [| x rest IH]; intros a; [reflexivity |].
  cbn [List.map fold_left F64.add]. apply IH.
Qed.

Lemma slice_map {A B} (f : A -> B) (a b : nat) (xs : list A) :
  slice a b (List.map f xs) = List.map f (slice a b xs).
Proof. unfold slice. now rewrite skipn_map, firstn_map. Qed.

Lemma last_mean_nonneg (w : nat) (xs : list Q) :
  (1 <= w)%nat -> Forall nonneg xs -> 0 <= last_mean w xs.
Proof.
  intros Hw Hxs. unfold last_mean.
  apply Qle_shift_div_l.
  - change 0 with (inject_Z 0). rewrite <- Zlt_Qlt. lia.
  - pose proof (Qsum_nonneg _ (slice_Forall nonneg (List.length xs - w)
                                 (List.length xs) xs Hxs)). lra.
Qed.

(** The last entry of a rolling mean over finite values. *)
Lemma rolling_mean_last (w : nat) (xs : list Q) :
  (1 <= w <= List.length xs)%nat ->
  nth_error (rolling_mean_nat w (List.map Fin xs)) (List.length xs - 1)
  = Some (Fin (last_mean w xs)).
Proof.
  intros H. unfold rolling_mean_nat. rewrite length_map, nth_error_map.
  rewrite nth_error_seq.
  destruct (Nat.ltb_spec (List.length xs - 1) (List.length xs)); [| lia].
  cbn [option_map Nat.add].
  destruct (Nat.ltb_spec (List.length xs - 1 + 1) w); [lia |].
  rewrite slice_map, fsum_Fin. cbn [F64.div].
  replace (List.length xs - 1 + 1)%nat with (List.length xs) by lia.
  replace (List.length xs - 1 + 1 - w)%nat with (List.length xs - w)%nat by lia.
  assert (Hz : Qeq_bool (inject_Z (Z.of_nat w)) 0 = false).
  { apply Qeq_bool_neq. change 0 with (inject_Z 0). rewrite inject_Z_injective.
    lia. }
  rewrite Hz. reflexivity.
Qed.

Lemma rolling_mean_length (w : nat) (xs : list float64) :
  List.length (rolling_mean_nat w xs) = List.length xs.
Proof. unfold rolling_mean_nat. now rewrite length_map, length_seq. Qed.

Lemma nth_error_map2 {A B C} (f : A -> B -> C) (xs : list A) (ys : list B) :
  forall i x y,
    nth_error xs i = Some x -> nth_error ys i = Some y ->
    nth_error (map2 f xs ys) i = Some (f x y).
Proof.
  revert ys. induction xs as [| x0 xs IH]; intros ys i x y Hx Hy.
  - destruct i; discriminate.
  - destruct ys as [| y0 ys]; [destruct i; discriminate |].
    destruct i as [| i]; cbn in *; [congruence | eauto].
Qed.

Lemma map2_length {A B C} (f : A -> B -> C) (xs : list A) (ys : list B) :
  List.length xs = List.length ys ->
  List.length (map2 f xs ys) = List.length xs.
Proof.
  revert ys. induction xs as [| x xs IH]; intros [| y ys] H; cbn in *;
    try discriminate; [reflexivity |].
  f_equal. apply IH. congruence.
Qed.

(** The RSI value from a window's average gain and average loss. *)
Lemma rsi_of_rs_cases (avg_gain avg_loss : Q) :
  0 <= avg_gain -> 0 <= avg_loss ->
  let current := rsi_of_rs (F64.div (Fin avg_gain) (Fin avg_loss)) in
  (avg_loss == 0 -> avg_gain == 0 -> current = NaN) /\
  (avg_loss == 0 -> 0 < avg_gain -> exists r, current = Fin r /\ r == 100) /\
  (0 < avg_loss ->
   exists r, current = Fin r /\
             r == 100 - 100 / (1 + avg_gain / avg_loss) /\
             0 <= r /\ r < 100).
Proof.
  intros Hg Hl current. subst current. unfold rsi_of_rs. conjs.
  - intros L0 G0. cbn [F64.div]. rewrite (Qeq_bool_true _ _ L0).
    assert (A : Qltb 0 avg_gain = false) by (apply Qltb_ge; lra).
    assert (B : Qltb avg_gain 0 = false) by (apply Qltb_ge; lra).
    rewrite A, B. reflexivity.
  - intros L0 G0. cbn [F64.div]. rewrite (Qeq_bool_true _ _ L0).
    assert (A : Qltb 0 avg_gain = true) by (apply Qltb_lt; lra).
    rewrite A. cbn. eexists. split; [reflexivity | ring].
  - intros L0.
    assert (Hr : 0 <= avg_gain / avg_loss) by (apply Qle_shift_div_l; lra).
    cbn [F64.div]. rewrite (Qeq_bool_neq avg_loss 0) by lra.
    cbn [F64.add F64.div]. rewrite (Qeq_bool_neq (1 + avg_gain / avg_loss) 0) by lra.
    cbn [F64.sub F64.neg F64.add].
    eexists. conjs; [reflexivity | ring | |].
    + assert (Hd : 100 / (1 + avg_gain / avg_loss) <= 100)
        by (apply Qle_shift_div_r; lra).
      lra.
    + assert (Hd : 0 < 100 / (1 + avg_gain / avg_loss))
        by (apply Qlt_shift_div_l; lra).
      lra.
Qed.

(** On [period+1] rows or more, [rsi_series] returns, and its last entry is
    the RSI of the last window's average gain and average loss. *)
Lemma rsi_series_last (close_prices : list Q) (period : Z) :
  (1 <= period)%Z ->
  (period + 1 <= Z.of_nat (List.length close_prices))%Z ->
  exists rsi,
    rsi_series period close_prices = inr rsi /\
    iloc_neg rsi 1
    = inr (rsi_of_rs
             (F64.div (Fin (last_mean (Z.to_nat period) (gains close_prices)))
                      (Fin (last_mean (Z.to_nat period) (losses close_prices))))).
Proof.
  intros Hp Hlen.
  unfold rsi_series, rsi_gain, rsi_loss, rolling_mean.
  destruct (Z.ltb_spec period 0); [lia |].
  cbn [bind ret]. rewrite where_gains, where_losses.
  eexists. split; [reflexivity |].
  destruct (gains_facts close_prices) as [Lg _].
  destruct (losses_facts close_prices) as [Ll _].
  set (n := List.length close_prices) in *.
  set (p := Z.to_nat period) in *.
  assert (Hn : (1 <= p <= n)%nat) by lia.
  assert (Lr : List.length
                 (List.map rsi_of_rs
                    (map2 F64.div
                       (rolling_mean_nat p (List.map Fin (gains close_prices)))
                       (rolling_mean_nat p (List.map Fin (losses close_prices)))))
               = n).
  { rewrite length_map, map2_length; rewrite !rolling_mean_length, !length_map;
      congruence. }
  unfold iloc_neg. rewrite Lr.
  destruct (Nat.ltb_spec n 1); [lia |].
  rewrite nth_error_map.
  erewrite nth_error_map2.
  - reflexivity.
  - rewrite <- Lg. apply rolling_mean_last. lia.
  - rewrite <- Ll. apply rolling_mean_last. lia.
Qed.

(** With a frame of [period+1] rows or more, [calculate_rsi] reports the RSI
    of the last window, rounded, and its label. *)
Lemma calculate_rsi_returns (fetch : string -> Z -> option DataFrame)
  (now symbol : string) (period days : Z) (df : DataFrame) :
  fetch symbol days = Some df ->
  (1 <= period)%Z ->
  (period + 1 <= Z.of_nat (List.length df))%Z ->
  let current :=
    rsi_of_rs
      (F64.div
         (Fin (last_mean (Z.to_nat period) (gains (List.map close df))))
         (Fin (last_mean (Z.to_nat period) (losses (List.map close df))))) in
  let out := calculate_rsi fetch now symbol period days in
  get "current_rsi" out = Some (VFloat (F64.round current 2)) /\
  get "rsi_signal" out = Some (VStr (rsi_signal current)).
Proof.
  intros F Hp Hlen current out. subst out. unfold calculate_rsi. rewrite F.
  destruct (Z.ltb_spec (Z.of_nat (List.length df)) (period + 1)); [lia |].
  unfold calculate_rsi_body.
  destruct (rsi_series_last (List.map close df) period Hp) as (rsi & S & I);
    [now rewrite length_map |].
  rewrite S. cbn [bind]. rewrite I. cbn [bind ret].
  split; reflexivity.
Qed.

(** C3, on the code. On [period+1] rows or more the RSI of [calculate_rsi]
    is computed from the last window's average gain and average loss, both
    non-negative: it is a number in [0,100) when the average loss is positive
    and exactly 100 when the average loss is 0 and the average gain is
    positive.  When both averages are 0 the value is NaN, not 100: on fifteen
    rows closing at 100 the tool reports a NaN [current_rsi], labelled
    BEARISH. *)
Theorem rsi_range_and_flat_window :
  (forall (fetch : string -> Z -> option DataFrame) (now symbol : string)
          (period days : Z) (df : DataFrame),
      fetch symbol days = Some df ->
      (1 <= period)%Z ->
      (period + 1 <= Z.of_nat (List.length df))%Z ->
      let avg_gain := last_mean (Z.to_nat period) (gains (List.map close df)) in
      let avg_loss := last_mean (Z.to_nat period) (losses (List.map close df)) in
      let out := calculate_rsi fetch now symbol period days in
      0 <= avg_gain /\ 0 <= avg_loss /\
      exists current,
        get "current_rsi" out = Some (VFloat (F64.round current 2)) /\
        get "rsi_signal" out = Some (VStr (rsi_signal current)) /\
        (avg_loss == 0 -> avg_gain == 0 -> current = NaN) /\
        (avg_loss == 0 -> 0 < avg_gain ->
         exists r, current = Fin r /\ r == 100) /\
        (0 < avg_loss ->
         exists r, current = Fin r /\
                   r == 100 - 100 / (1 + avg_gain / avg_loss) /\
                   0 <= r /\ r < 100))
  /\ (let out := calculate_rsi (fun _ _ => Some flat_rows) "t0" "USDC" 14 100 in
      last_mean 14 (gains (List.map close flat_rows)) == 0 /\
      last_mean 14 (losses (List.map close flat_rows)) == 0 /\
      get "current_rsi" out = Some (VFloat NaN) /\
      get "rsi_signal" out = Some (VStr "BEARISH") /\
      get "error" out = None).
Proof.
  split.
  - intros fetch now symbol period days df F Hp Hlen avg_gain avg_loss out.
    assert (Hw : (1 <= Z.to_nat period)%nat) by lia.
    assert (Hg : 0 <= avg_gain)
      by (apply last_mean_nonneg; [exact Hw | apply gains_facts]).
    assert (Hl : 0 <= avg_loss)
      by (apply last_mean_nonneg; [exact Hw | apply losses_facts]).
    conjs; [exact Hg | exact Hl |].
    destruct (calculate_rsi_returns fetch now symbol period days df F Hp Hlen)
      as [Hc Hs].
    eexists. conjs; [exact Hc | exact Hs | | |];
      apply (rsi_of_rs_cases avg_gain avg_loss Hg Hl).
  - vm_compute. conjs; reflexivity.
Qed.

Lemma rsi_range_and_flat_window_witness :
  exists current r,
    get "current_rsi"
      (calculate_rsi (fun _ _ => Some rising_rows) "t0" "BTC" 14 100)
    = Some (VFloat (F64.round current 2)) /\
    current = Fin r /\ r == 100.
Proof.
  destruct (proj1 rsi_range_and_flat_window (fun _ _ => Some rising_rows)
              "t0" "BTC" 14%Z 100%Z rising_rows)
    as (_ & _ & current & Hc & _ & _ & H100 & _);
    [reflexivity | lia | vm_compute; discriminate |].
  destruct H100 as (r & E & Hr); [vm_compute; reflexivity | reflexivity |].
  exists current, r. auto.
Defined.

(** On the rising rows the tool reports 100, OVERBOUGHT. *)
Example rsi_rising_rows :
  let out := calculate_rsi (fun _ _ => Some rising_rows) "t0" "BTC" 14 100 in
  get "current_rsi" out = Some (VFloat (Fin 100)) /\
  get "rsi_signal" out = Some (VStr "OVERBOUGHT").
Proof. vm_compute. conjs; reflexivity. Qed.

(** ** Validators *)

Example validate_symbol_btc : validate_symbol "btc " = inr "BTC".
Proof. reflexivity. Qed.

Example validate_timeframe_7h :
  validate_timeframe "7h"
  = inl (ValueError "Invalid timeframe '7h'. Valid: ['12h', '15m', '1M', '1d', '1h', '1m', '1w', '2h', '30m', '3d', '3m', '4h', '5m', '6h', '8h']").
Proof. reflexivity. Qed.

Example validate_positive_int_5_3 :
  validate_positive_int 5 "x" (Some 3%Z) = inl (ValueError "x must be <= 3, got 5").
Proof. reflexivity. Qed.

(** ** The flat tail

    The flat window needs no flat series: eleven rows that climb and then
    close three times at the same price give a NaN 2-period RSI. *)

Example rsi_flat_tail :
  let df := List.map (fun c => tick c 1) [1; 2; 3; 4; 5; 6; 7; 8; 9; 9; 9] in
  let out := calculate_rsi (fun _ _ => Some df) "t0" "BTC" 2 100 in
  get "current_rsi" out = Some (VFloat NaN) /\
  get "rsi_signal" out = Some (VStr "BEARISH") /\
  get "rsi_trend" out = Some (VStr "FLAT") /\
  get "recent_rsi_values" out
  = Some (VList [VFloat (Fin 100); VFloat (Fin 100); VFloat (Fin 100);
                 VFloat (Fin 100)]).
Proof. vm_compute. conjs; reflexivity. Qed.

(** ** Binary64 cross-checks

    The embedding carries finite floats as exact rationals and gives the
    special values by IEEE's rules.  These run the expressions of the
    sources in the kernel's binary64 arithmetic, the arithmetic of Python's
    floats: the special values come out as [F64] has them, and the literal
    examples of the statements above hold there as well (the two products
    within half a cent of the value that [round(x, 2)] returns). *)

Module Binary64.

Import PrimFloat.
#[local] Set Warnings "-inexact-float".
Local Open Scope float_scope.

Example zero_over_zero : is_nan (0 / 0) = true.
Proof. reflexivity. Qed.

Example positive_over_zero : 1 / 0 = infinity.
Proof. reflexivity. Qed.

Example finite_over_infinity : 100 / infinity = 0.
Proof. reflexivity. Qed.

(** [100 - 100 / (1 + gain / loss)] with no gain and no loss. *)
Example rsi_flat_window : is_nan (100 - 100 / (1 + 0 / 0)) = true.
Proof. reflexivity. Qed.

(** The four labels of [calculate_rsi] on a NaN: the last one is left. *)
Example rsi_nan_comparisons :
  (70 <? nan) = false /\ (nan <? 30) = false /\ (50 <? nan) = false.
Proof. conjs; reflexivity. Qed.

(** With a gain and no loss. *)
Example rsi_no_loss : 100 - 100 / (1 + 1 / 0) = 100.
Proof. reflexivity. Qed.

(** The pivot levels of High=110, Low=90, Close=100. *)
Example pivot_literal :
  let pivot := (110 + 90 + 100) / 3 in
  pivot = 100 /\ 2 * pivot - 90 = 110 /\ 2 * pivot - 110 = 90 /\
  pivot + (110 - 90) = 120 /\ pivot - (110 - 90) = 80 /\
  110 + 2 * (pivot - 90) = 130 /\ 90 - 2 * (110 - pivot) = 70.
Proof. vm_compute. conjs; reflexivity. Qed.

(** High=110, Low=90, Close=110: R1 + S1 against 2 Pivot. *)
Example pivot_sum_differs :
  let pivot := (110 + 90 + 110) / 3 in
  ((2 * pivot - 90) + (2 * pivot - 110) =? 2 * pivot) = false.
Proof. vm_compute. reflexivity. Qed.

(** [rate * 3 * 365 * 100] at rate 0.0001. *)
Example funding_literal :
  (10.945 <? 0.0001 * 3 * 365 * 100) = true /\
  (0.0001 * 3 * 365 * 100 <? 10.955) = true.
Proof. vm_compute. conjs; reflexivity. Qed.

(** The 10x levels at price 50000. *)
Example liquidation_literal :
  (44749.995 <? 50000 * (1 - (1 / 10) - 0.005)) = true /\
  (50000 * (1 - (1 / 10) - 0.005) <? 44750.005) = true /\
  (55249.995 <? 50000 * (1 + (1 / 10) + 0.005)) = true /\
  (50000 * (1 + (1 / 10) + 0.005) <? 55250.005) = true.
Proof. vm_compute. conjs; reflexivity. Qed.

(** The 300 USD order on the asks (100,1), (101,2), (102,5): the second
    level completes it, at an average price that rounds to 100.66. *)
Example market_impact_literal :
  (0 + 100 * 1 <? 300) = true /\
  (300 <=? 0 + 100 * 1 + 101 * 2) = true /\
  (100.655 <? 300 / (0 + 1 + (300 - (0 + 100 * 1)) / 101)) = true /\
  (300 / (0 + 1 + (300 - (0 + 100 * 1)) / 101) <? 100.665) = true.
Proof. vm_compute. conjs; reflexivity. Qed.

End Binary64.

(** * Further properties of the code *)

(** ** Validators: normal forms *)

Lemma rev_append_assoc (s a b : string) :
  Str.rev_append (Str.rev_append s a) b = Str.rev_append a (s ++ b).
Proof.
  revert a. induction s as [| c r IH]; intros a; cbn; [reflexivity |].
  now rewrite IH.
Qed.

Lemma append_empty_r (s : string) : s ++ "" = s.
Proof. induction s as [| c r IH]; cbn; [reflexivity | now rewrite IH]. Qed.

Lemma rev_involutive (s : string) : Str.rev (Str.rev s) = s.
Proof.
  unfold Str.rev. rewrite rev_append_assoc. cbn. apply append_empty_r.
Qed.

Lemma forallb_rev_append (f : ascii -> bool) (s a : string) :
  Str.forallb f (Str.rev_append s a) = Str.forallb f s && Str.forallb f a.
Proof.
  revert a. induction s as [| c r IH]; intros a; cbn; [reflexivity |].
  rewrite IH. cbn. destruct (f c), (Str.forallb f r); reflexivity.
Qed.

Lemma forallb_rev (f : ascii -> bool) (s : string) :
  Str.forallb f (Str.rev s) = Str.forallb f s.
Proof.
  unfold Str.rev. rewrite forallb_rev_append. cbn. apply andb_true_r.
Qed.

Lemma forallb_impl (f g : ascii -> bool) (s : string) :
  (forall c, f c = true -> g c = true) ->
  Str.forallb f s = true -> Str.forallb g s = true.
Proof.
  intros H. induction s as [| c r IH]; cbn; [reflexivity |].
  intros E. apply andb_true_iff in E. destruct E as [Ec Er].
  now rewrite (H c Ec), (IH Er).
Qed.

Lemma forallb_map (f : ascii -> bool) (g : ascii -> ascii) (s : string) :
  Str.forallb f (Str.map g s) = Str.forallb (fun c => f (g c)) s.
Proof. induction s as [| c r IH]; cbn; [reflexivity | now rewrite IH]. Qed.

Lemma map_fixed (g : ascii -> ascii) (f : ascii -> bool) (s : string) :
  (forall c, f c = true -> g c = c) ->
  Str.forallb f s = true -> Str.map g s = s.
Proof.
  intros H. induction s as [| c r IH]; cbn; [reflexivity |].
  intros E. apply andb_true_iff in E. destruct E as [Ec Er].
  now rewrite (H c Ec), (IH Er).
Qed.

Lemma lstrip_fixed (s : string) :
  Str.forallb (fun c => negb (Str.is_space c)) s = true -> Str.lstrip s = s.
Proof.
  destruct s as [| c r]; cbn; [reflexivity |].
  intros E. apply andb_true_iff in E. destruct E as [Ec _].
  apply negb_true_iff in Ec. now rewrite Ec.
Qed.

Lemma strip_fixed (s : string) :
  Str.forallb (fun c => negb (Str.is_space c)) s = true -> Str.strip s = s.
Proof.
  intros E. unfold Str.strip. rewrite (lstrip_fixed s E).
  rewrite lstrip_fixed by (now rewrite forallb_rev).
  apply rev_involutive.
Qed.

(** Facts about single characters, by enumeration. *)
Ltac by_cases_on_char c :=
  destruct c as [[] [] [] [] [] [] [] []]; vm_compute;
  intros; first [reflexivity | discriminate].

Lemma upper_char_alpha (c : ascii) :
  Str.is_alpha (Str.upper_char c) = true ->
  Str.is_upper (Str.upper_char c) = true.
Proof. by_cases_on_char c. Qed.

Lemma upper_char_fixed (c : ascii) :
  Str.is_upper c = true -> Str.upper_char c = c.
Proof. by_cases_on_char c. Qed.

Lemma upper_not_space (c : ascii) :
  Str.is_upper c = true -> negb (Str.is_space c) = true.
Proof. by_cases_on_char c. Qed.

Lemma upper_is_alpha (c : ascii) :
  Str.is_upper c = true -> Str.is_alpha c = true.
Proof. by_cases_on_char c. Qed.

Lemma coin_char_not_space (c : ascii) :
  is_coin_char c = true -> negb (Str.is_space c) = true.
Proof. by_cases_on_char c. Qed.

Lemma coin_char_lower_fixed (c : ascii) :
  is_coin_char c = true -> Str.lower_char c = c.
Proof. by_cases_on_char c. Qed.

Lemma length_nonempty (s : string) :
  (1 <= String.length s)%nat -> Str.is_empty s = false.
Proof. destruct s; cbn; [lia | reflexivity]. Qed.

Lemma validate_symbol_inv (symbol symbol' : string) :
  validate_symbol symbol = inr symbol' ->
  symbol' = Str.upper (Str.strip symbol) /\
  (1 <= String.length symbol' <= 10)%nat /\
  Str.forallb Str.is_upper symbol' = true /\
  validate_symbol symbol' = inr symbol'.
Proof.
  unfold validate_symbol at 1.
  destruct (Str.is_empty symbol); [discriminate |].
  destruct (symbol_re_match (Str.upper (Str.strip symbol))) eqn:M;
    cbn [negb]; [| discriminate].
  intros [= <-]. set (s := Str.upper (Str.strip symbol)) in *.
  unfold symbol_re_match in M.
  apply andb_true_iff in M. destruct M as [M Ha].
  apply andb_true_iff in M. destruct M as [L1 L2].
  apply Nat.leb_le in L1, L2.
  assert (Hu : Str.forallb Str.is_upper s = true).
  { unfold s, Str.upper in *. rewrite forallb_map in *.
    revert Ha. apply forallb_impl. intros c. apply upper_char_alpha. }
  conjs; [reflexivity | exact L1 | exact L2 | exact Hu |].
  unfold validate_symbol. rewrite (length_nonempty s L1).
  assert (Hs : Str.strip s = s)
    by (apply strip_fixed; revert Hu; apply forallb_impl, upper_not_space).
  assert (Hup : Str.upper s = s)
    by (apply (map_fixed _ Str.is_upper); [apply upper_char_fixed | exact Hu]).
  rewrite Hs, Hup. unfold symbol_re_match.
  apply Nat.leb_le in L1, L2. rewrite L1, L2, Ha. reflexivity.
Qed.

(** X1. What [validate_symbol] returns is its argument stripped and
    upper-cased, made of one to ten capital letters, and validating it again
    returns it unchanged. *)
Theorem validate_symbol_normal_form (symbol symbol' : string) :
  validate_symbol symbol = inr symbol' ->
  symbol' = Str.upper (Str.strip symbol) /\
  (1 <= String.length symbol' <= 10)%nat /\
  Str.forallb Str.is_upper symbol' = true /\
  validate_symbol symbol' = inr symbol'.
Proof. apply validate_symbol_inv. Qed.

Lemma validate_symbol_normal_form_witness :
  validate_symbol "	eth " = inr "ETH" /\ validate_symbol "ETH" = inr "ETH".
Proof.
  split; [reflexivity |].
  apply (validate_symbol_normal_form "	eth " "ETH"). reflexivity.
Defined.

(** X2. What [validate_coin_id] returns is its argument stripped and
    lower-cased, made of one to a hundred lower-case letters, digits and
    hyphens, and validating it again returns it unchanged. *)
Theorem validate_coin_id_normal_form (coin_id coin_id' : string) :
  validate_coin_id coin_id = inr coin_id' ->
  coin_id' = Str.lower (Str.strip coin_id) /\
  (1 <= String.length coin_id' <= 100)%nat /\
  Str.forallb is_coin_char coin_id' = true /\
  validate_coin_id coin_id' = inr coin_id'.
Proof.
  unfold validate_coin_id at 1.
  destruct (Str.is_empty coin_id); [discriminate |].
  destruct (coin_id_re_match (Str.lower (Str.strip coin_id))) eqn:M;
    cbn [negb]; [| discriminate].
  intros [= <-]. set (s := Str.lower (Str.strip coin_id)) in *.
  pose proof M as M'. unfold coin_id_re_match in M.
  apply andb_true_iff in M. destruct M as [M Ha].
  apply andb_true_iff in M. destruct M as [L1 L2].
  apply Nat.leb_le in L1, L2.
  conjs; [reflexivity | exact L1 | exact L2 | exact Ha |].
  unfold validate_coin_id. rewrite (length_nonempty s L1).
  assert (Hs : Str.strip s = s)
    by (apply strip_fixed; revert Ha; apply forallb_impl, coin_char_not_space).
  assert (Hlo : Str.lower s = s)
    by (apply (map_fixed _ is_coin_char);
        [apply coin_char_lower_fixed | exact Ha]).
  rewrite Hs, Hlo, M'. reflexivity.
Qed.

Lemma validate_coin_id_normal_form_witness :
  validate_coin_id " Avalanche-2" = inr "avalanche-2" /\
  validate_coin_id "avalanche-2" = inr "avalanche-2".
Proof.
  split; [reflexivity |].
  apply (validate_coin_id_normal_form " Avalanche-2" "avalanche-2").
  reflexivity.
Defined.

Lemma mem_In (x : string) (xs : list string) :
  Str.mem x xs = true <-> In x xs.
Proof.
  unfold Str.mem. rewrite existsb_exists. split.
  - intros (y & Hy & E). apply String.eqb_eq in E. now subst.
  - intros H. exists x. split; [exact H | apply String.eqb_refl].
Qed.

(** X3. What [validate_exchange] returns is its argument stripped and
    lower-cased and a member of the allowed set, which is
    [SUPPORTED_EXCHANGES] when the set passed is empty; against each of the
    three sets the servers use, validating the result again returns it
    unchanged. *)
Theorem validate_exchange_normal_form
  (exchange exchange' : string) (supported : list string) :
  validate_exchange exchange supported = inr exchange' ->
  exchange' = Str.lower (Str.strip exchange) /\
  In exchange' (match supported with
                | [] => SUPPORTED_EXCHANGES
                | _ => supported
                end) /\
  (In supported [SUPPORTED_EXCHANGES; RELIABLE_FUTURES_EXCHANGES; EXCHANGES] ->
   validate_exchange exchange' supported = inr exchange').
Proof.
  intros V. pose proof V as V0. unfold validate_exchange in V.
  destruct (Str.is_empty exchange); [discriminate |].
  destruct (Str.mem _ _) eqn:M; cbn [negb] in V; [| discriminate].
  injection V as <-. apply mem_In in M.
  conjs; [reflexivity | exact M |].
  intros Hs.
  assert (S : self_validating supported = true).
  { cbn in Hs. destruct Hs as [<- | [<- | [<- | []]]]; reflexivity. }
  assert (Hin : In (Str.lower (Str.strip exchange)) supported).
  { destruct supported; [cbn in Hs |]; [| exact M].
    destruct Hs as [E | [E | [E | []]]]; discriminate. }
  unfold self_validating in S. rewrite forallb_forall in S.
  specialize (S _ Hin).
  destruct (validate_exchange (Str.lower (Str.strip exchange)) supported)
    as [e | y]; [discriminate |].
  apply String.eqb_eq in S. now subst.
Qed.

Lemma validate_exchange_normal_form_witness :
  validate_exchange " ByBit" EXCHANGES = inr "bybit" /\
  validate_exchange "bybit" EXCHANGES = inr "bybit".
Proof.
  split; [reflexivity |].
  apply (validate_exchange_normal_form " ByBit" "bybit" EXCHANGES);
    [reflexivity | cbn; tauto].
Defined.

(** X4. What [validate_timeframe] returns is its argument stripped, with
    its case kept, and one of the fifteen valid timeframes; validating it
    again returns it unchanged. *)
Theorem validate_timeframe_normal_form (timeframe timeframe' : string) :
  validate_timeframe timeframe = inr timeframe' ->
  timeframe' = Str.strip timeframe /\
  In timeframe' VALID_TIMEFRAMES /\
  List.length VALID_TIMEFRAMES = 15%nat /\
  validate_timeframe timeframe' = inr timeframe'.
Proof.
  unfold validate_timeframe at 1.
  destruct (Str.is_empty timeframe); [discriminate |].
  destruct (Str.mem _ _) eqn:M; cbn [negb]; [| discriminate].
  intros [= <-]. apply mem_In in M.
  conjs; [reflexivity | exact M | reflexivity |].
  cbn in M.
  repeat (destruct M as [<- | M]; [reflexivity |]). contradiction.
Qed.

Lemma validate_timeframe_normal_form_witness :
  validate_timeframe " 1M " = inr "1M" /\ validate_timeframe "1M" = inr "1M".
Proof.
  split; [reflexivity |].
  apply (validate_timeframe_normal_form " 1M " "1M"). reflexivity.
Defined.

(** ** Futures symbols *)

Lemma contains_char_app (c : ascii) (s t : string) :
  contains_char c (s ++ t) = contains_char c s || contains_char c t.
Proof.
  induction s as [| d r IH]; cbn; [reflexivity |].
  rewrite IH. now destruct (Ascii.eqb c d).
Qed.

Lemma upper_no_separator (c : ascii) :
  Str.is_upper c = true -> Ascii.eqb ":" c = false /\ Ascii.eqb "/" c = false.
Proof.
  destruct c as [[] [] [] [] [] [] [] []]; vm_compute; intros;
    first [split; reflexivity | discriminate].
Qed.

Lemma contains_char_upper (c : ascii) (s : string) :
  (forall d, Str.is_upper d = true -> Ascii.eqb c d = false) ->
  Str.forallb Str.is_upper s = true -> contains_char c s = false.
Proof.
  intros H. induction s as [| d r IH]; cbn; [reflexivity |].
  intros E. apply andb_true_iff in E. destruct E as [Ed Er].
  now rewrite (H d Ed), (IH Er).
Qed.

(** X5. [_format_symbol] always returns a symbol with a settlement suffix
    (it contains a colon), formatting twice is formatting once, and a
    validated symbol S becomes S/USDT:USDT. *)
Theorem format_symbol_idempotent :
  (forall symbol : string,
      contains_char ":" (_format_symbol symbol) = true /\
      _format_symbol (_format_symbol symbol) = _format_symbol symbol)
  /\ (forall symbol symbol' : string,
        validate_symbol symbol = inr symbol' ->
        _format_symbol symbol' = symbol' ++ "/USDT:USDT").
Proof.
  split.
  - intros symbol.
    assert (C : contains_char ":" (_format_symbol symbol) = true).
    { unfold _format_symbol.
      destruct (contains_char ":" symbol) eqn:E; [exact E |].
      destruct (contains_char "/" symbol);
        rewrite contains_char_app; cbn; apply orb_true_r. }
    split; [exact C |].
    unfold _format_symbol at 1. now rewrite C.
  - intros symbol symbol' V.
    apply validate_symbol_inv in V. destruct V as (_ & _ & Hu & _).
    unfold _format_symbol.
    rewrite (contains_char_upper ":" symbol'), (contains_char_upper "/" symbol');
      try exact Hu; try reflexivity;
      intros d Hd; now apply upper_no_separator in Hd.
Qed.

Lemma format_symbol_idempotent_witness :
  _format_symbol "BTC" = "BTC/USDT:USDT" /\
  _format_symbol "ETH/USDC" = "ETH/USDT:USDT" /\
  _format_symbol (_format_symbol "ETH/USDC") = "ETH/USDT:USDT".
Proof.
  conjs; [| reflexivity |].
  - apply (proj2 format_symbol_idempotent "btc" "BTC"). reflexivity.
  - rewrite (proj2 (proj1 format_symbol_idempotent "ETH/USDC")). reflexivity.
Defined.

(** ** Pivot points: the closest level *)

Lemma min_by_spec {A} (key : A -> Q) (xs : list A) :
  forall best,
    In (min_by key best xs) (best :: xs) /\
    forall x, In x (best :: xs) -> key (min_by key best xs) <= key x.
Proof.
  induction xs as [| y rest IH]; intros best; cbn [min_by].
  - split; [left; reflexivity |].
    intros x [<- | []]. apply Qle_refl.
  - destruct (IH (if Qltb (key y) (key best) then y else best)) as [Hin Hle].
    split.
    + destruct Hin as [E | Hin]; [| right; right; exact Hin].
      rewrite <- E. destruct (Qltb (key y) (key best)); cbn; tauto.
    + intros x Hx.
      destruct (Qltb (key y) (key best)) eqn:L.
      * apply Qltb_lt in L.
        destruct Hx as [<- | [<- | Hx]].
        -- specialize (Hle y (or_introl eq_refl)). lra.
        -- apply Hle. left. reflexivity.
        -- apply Hle. right. exact Hx.
      * apply Qltb_ge in L.
        destruct Hx as [<- | [<- | Hx]].
        -- apply Hle. left. reflexivity.
        -- specialize (Hle best (or_introl eq_refl)). lra.
        -- apply Hle. right. exact Hx.
Qed.

(** X6. With valid arguments and two rows or more, the [closest_level] of
    [calculate_pivot_points] is one of the seven levels computed from the
    row before the last, reported with its price rounded, and no level lies
    nearer to the last close. *)
Theorem pivot_closest_level
  (fetch : string -> string -> Z -> result DataFrame)
  (symbol timeframe symbol' timeframe' : string) (periods : Z)
  (df : DataFrame) (prev last : Candle) :
  validate_symbol symbol = inr symbol' ->
  validate_timeframe timeframe = inr timeframe' ->
  (0 < periods <= 30)%Z ->
  fetch (symbol' ++ "/USDT") timeframe' periods = inr df ->
  nth_error df (List.length df - 2) = Some prev ->
  nth_error df (List.length df - 1) = Some last ->
  (2 <= List.length df)%nat ->
  let out := calculate_pivot_points fetch symbol timeframe periods in
  let levels := named_levels (pivot_levels (high prev) (low prev) (close prev)) in
  exists name price,
    In (name, price) levels /\
    (forall name' price',
        In (name', price') levels ->
        Qabs (price - close last) <= Qabs (price' - close last)) /\
    get "success" out = Some (VBool true) /\
    get2 "closest_level" "level" out = Some (VStr name) /\
    get2 "closest_level" "price" out = Some (VNum (round price 2)) /\
    get2 "closest_level" "distance" out
    = Some (VNum (round (close last - price) 2)).
Proof.
  intros Vs Vt Hp F Hprev Hlast Hlen out levels. subst out.
  unfold calculate_pivot_points, with_symbol, _fetch_ohlcv. rewrite Vs, Vt.
  cbn [bind guard]. rewrite (validate_positive_int_ok _ _ _ Hp).
  cbn [bind]. rewrite F. cbn [bind].
  destruct (iloc_neg_ok df 2) as (x & Ix & Nx); [lia |].
  destruct (iloc_neg_ok df 1) as (y & Iy & Ny); [lia |].
  rewrite Hprev in Nx. rewrite Hlast in Ny.
  injection Nx as <-. injection Ny as <-.
  rewrite Ix. cbn [bind]. rewrite Iy. cbn [bind ret].
  set (p := pivot_levels (high prev) (low prev) (close prev)) in *.
  destruct (min_by_spec (fun x => Qabs (snd x - close last)) 
              [("R2", r2 p); ("R1", r1 p); ("PIVOT", pivot p);
               ("S1", s1 p); ("S2", s2 p); ("S3", s3 p)] ("R3", r3 p))
    as [Hin Hle].
  set (m := min_by _ _ _) in *.
  exists (fst m), (snd m).
  conjs; try reflexivity.
  - rewrite <- surjective_pairing. exact Hin.
  - intros name' price' H'. apply (Hle (name', price') H').
Qed.

Lemma pivot_closest_level_witness :
  get2 "closest_level" "level"
    (calculate_pivot_points (serve [bar 110 90 100; bar 104 96 103])
       "BTC" "1d" 2)
  = Some (VStr "PIVOT").
Proof.
  destruct (pivot_closest_level (serve [bar 110 90 100; bar 104 96 103])
              "BTC" "1d" "BTC" "1d" 2 [bar 110 90 100; bar 104 96 103]
              (bar 110 90 100) (bar 104 96 103))
    as (name & price & _ & _ & _ & L & _);
    [reflexivity | reflexivity | lia | reflexivity | reflexivity
    | reflexivity | cbn; lia |].
  vm_compute. reflexivity.
Defined.

(** ** Money flow index: the window stops before the last bar *)

Lemma flow_loop_snoc (rows : list Candle) (c : Candle) :
  forall prev, exists x y,
    flow_loop prev (rows ++ [c])%list
    = ((fst (flow_loop prev rows) ++ [x])%list,
       (snd (flow_loop prev rows) ++ [y])%list).
Proof.
  induction rows as [| r rest IH]; intros prev.
  - cbn. destruct (Qgtb _ _); [| destruct (Qltb _ _)]; eauto.
  - cbn [app flow_loop]. destruct (IH r) as (x & y & E). rewrite E.
    exists x, y. destruct (flow_loop r rest) as [ps ns]. cbn [fst snd].
    destruct (Qgtb _ _); [| destruct (Qltb _ _)]; reflexivity.
Qed.

Lemma slice_snoc {A} (a b : nat) (xs : list A) (x : A) :
  (b <= List.length xs)%nat -> slice a b (xs ++ [x])%list = slice a b xs.
Proof.
  intros H. unfold slice.
  destruct (Nat.le_gt_cases a (List.length xs)) as [Ha | Ha].
  - rewrite skipn_app. replace (a - List.length xs)%nat with 0%nat by lia.
    cbn [skipn]. rewrite firstn_app, length_skipn.
    replace (b - a - (List.length xs - a))%nat with 0%nat by lia.
    cbn [firstn]. apply app_nil_r.
  - replace (b - a)%nat with 0%nat by lia. reflexivity.
Qed.

(** X7. The MFI window of [calculate_mfi] stops before the last bar: with
    valid arguments and at least [period] rows before it, [current_mfi] is
    computed from those rows alone, so that two frames that differ only in
    their last bar report the same [current_mfi]. *)
Theorem mfi_ignores_last_bar
  (fetch : string -> string -> Z -> result DataFrame)
  (symbol timeframe symbol' timeframe' : string) (period periods : Z)
  (df : DataFrame) (c : Candle) :
  validate_symbol symbol = inr symbol' ->
  validate_timeframe timeframe = inr timeframe' ->
  (0 < period <= 100)%Z ->
  (0 < periods <= 500)%Z ->
  fetch (symbol' ++ "/USDT") timeframe' periods = inr (df ++ [c])%list ->
  (Z.to_nat period <= List.length df)%nat ->
  get "current_mfi" (calculate_mfi fetch symbol timeframe period periods)
  = Some (VFloat (F64.round (lagged_mfi (Z.to_nat period) df) 2)).
Proof.
  intros Vs Vt Hp Hps F Hlen.
  destruct (calculate_mfi_returns fetch symbol timeframe symbol' timeframe'
              period periods (df ++ [c])%list Vs Vt Hp Hps F)
    as (m & Hm & _ & Hc).
  { rewrite length_app. cbn. lia. }
  rewrite Hc. do 3 f_equal.
  set (p := Z.to_nat period) in *.
  destruct df as [| c0 rest]; [cbn [List.length] in Hlen; lia |].
  set (n := List.length rest) in *.
  assert (Hn : List.length (c0 :: rest) = S n) by reflexivity.
  assert (Hn' : List.length ((c0 :: rest) ++ [c])%list = S (S n))
    by (rewrite length_app, Hn; cbn [List.length]; lia).
  rewrite Hn in Hlen. rewrite Hn' in Hm.
  replace (S (S n) - p - 1)%nat with (S n - p)%nat in Hm by lia.
  unfold lagged_mfi. rewrite Hn.
  cbn [app flows] in Hm. cbn [flows].
  destruct (flow_loop_snoc rest c c0) as (x & y & E). rewrite E in Hm.
  cbn [fst snd] in Hm.
  destruct (flow_loop_length rest c0) as [Lp Ln]. fold n in Lp, Ln.
  set (ps := fst (flow_loop c0 rest)) in *.
  set (ns := snd (flow_loop c0 rest)) in *.
  rewrite mfi_values_nth in Hm
    by (cbn [List.length]; rewrite length_app, Lp; cbn [List.length]; lia).
  match type of Hm with
  | Some ?v = Some _ => assert (Em : v = m) by congruence
  end.
  rewrite <- Em. clear Hm Em Hc.
  replace (S n - p + p)%nat with (S n) by lia.
  change (0 :: (ps ++ [x])%list) with ((0 :: ps) ++ [x])%list.
  change (0 :: (ns ++ [y])%list) with ((0 :: ns) ++ [y])%list.
  rewrite !slice_snoc by (cbn [List.length]; rewrite ?Lp, ?Ln; lia).
  reflexivity.
Qed.

Lemma mfi_ignores_last_bar_witness :
  get "current_mfi"
    (calculate_mfi (serve (four_bars ++ [bar 900 800 850])%list) "BTC" "1h" 2 100)
  = get "current_mfi"
      (calculate_mfi (serve (four_bars ++ [bar 2 1 1])%list) "BTC" "1h" 2 100).
Proof.
  rewrite (mfi_ignores_last_bar (serve (four_bars ++ [bar 900 800 850])%list)
             "BTC" "1h" "BTC" "1h" 2 100 four_bars (bar 900 800 850));
    [| reflexivity | reflexivity | lia | lia | reflexivity | cbn; lia].
  rewrite (mfi_ignores_last_bar (serve (four_bars ++ [bar 2 1 1])%list)
             "BTC" "1h" "BTC" "1h" 2 100 four_bars (bar 2 1 1));
    [| reflexivity | reflexivity | lia | lia | reflexivity | cbn; lia].
  reflexivity.
Defined.

(** ** Rounding *)

Lemma round_half_even_comp (x y : Q) :
  x == y -> round_half_even x = round_half_even y.
Proof.
  intros E. unfold round_half_even.
  rewrite (Qfloor_comp _ _ E).
  assert (C : Qcompare (x - inject_Z (Qfloor y)) (1 # 2)
              = Qcompare (y - inject_Z (Qfloor y)) (1 # 2)).
  { apply Qcompare_comp; [rewrite E |]; reflexivity. }
  rewrite C. reflexivity.
Qed.

Lemma round_comp (x y : Q) (ndigits : nat) :
  x == y -> round x ndigits = round y ndigits.
Proof.
  intros E. unfold round. apply Qred_complete.
  set (s := inject_Z (10 ^ Z.of_nat ndigits)).
  rewrite (round_half_even_comp (x * s) (y * s)); [reflexivity |].
  rewrite E. reflexivity.
Qed.

Lemma round_half_even_bounds (x : Q) (m M : Z) :
  inject_Z m <= x <= inject_Z M -> (m <= round_half_even x <= M)%Z.
Proof.
  intros [Hm HM]. unfold round_half_even.
  pose proof (Qfloor_le x) as Fl.
  assert (Fm : (m <= Qfloor x)%Z).
  { rewrite <- (Qfloor_Z m). now apply Qfloor_resp_le. }
  assert (FM : (Qfloor x <= M)%Z).
  { rewrite <- (Qfloor_Z M). now apply Qfloor_resp_le. }
  assert (Top : Qfloor x = M -> x - inject_Z (Qfloor x) < 1 # 2).
  { intros E. rewrite E. lra. }
  destruct (Qcompare_spec (x - inject_Z (Qfloor x)) (1 # 2)) as [E | L | G].
  - destruct (Z.even (Qfloor x)); [lia |].
    destruct (Z.eq_dec (Qfloor x) M) as [T | T]; [| lia].
    apply Top in T. lra.
  - lia.
  - destruct (Z.eq_dec (Qfloor x) M) as [T | T]; [| lia].
    apply Top in T. lra.
Qed.

Lemma scale_pos (ndigits : nat) : 0 < inject_Z (10 ^ Z.of_nat ndigits).
Proof.
  change 0 with (inject_Z 0). rewrite <- Zlt_Qlt.
  apply Z.pow_pos_nonneg; lia.
Qed.

(** Rounding does not leave an interval with integer ends. *)
Lemma round_bounds (q : Q) (ndigits : nat) (a b : Z) :
  inject_Z a <= q <= inject_Z b ->
  inject_Z a <= round q ndigits <= inject_Z b.
Proof.
  intros [Ha Hb]. unfold round. rewrite Qred_correct.
  pose proof (scale_pos ndigits) as Hs.
  set (s := (10 ^ Z.of_nat ndigits)%Z) in *.
  destruct (round_half_even_bounds (q * inject_Z s) (a * s) (b * s)) as [L U].
  { rewrite !inject_Z_mult. split; apply Qmult_le_compat_r; lra. }
  rewrite Zle_Qle, inject_Z_mult in L. rewrite Zle_Qle, inject_Z_mult in U.
  split.
  - apply Qle_shift_div_l; assumption.
  - apply Qle_shift_div_r; assumption.
Qed.

(** ** Order book depth *)

Lemma microstructure_exchange_validated (exchange exchange' : string) :
  validate_exchange exchange EXCHANGES = inr exchange' ->
  MarketMicrostructure._get_exchange exchange' = exchange'.
Proof.
  intros V. apply validate_exchange_mem in V; [| discriminate].
  unfold MarketMicrostructure._get_exchange. rewrite V. reflexivity.
Qed.

Lemma total_volume_cons (p v : Q) (levels : list Level) :
  total_volume ((p, v) :: levels) == v + total_volume levels.
Proof. unfold total_volume. cbn [List.map snd]. apply Qsum_cons. Qed.

Lemma total_volume_nonneg (levels : list Level) :
  Forall nonneg_size levels -> 0 <= total_volume levels.
Proof.
  induction 1 as [| [p v] rest Hv _ IH].
  - discriminate.
  - rewrite total_volume_cons. unfold nonneg_size in Hv. cbn [snd] in Hv. lra.
Qed.

(** Sizes that are not negative and add up to nothing are all zero. *)
Lemma total_volume_zero (levels : list Level) :
  Forall nonneg_size levels -> total_volume levels <= 0 ->
  Forall (fun l => snd l <= 0) levels.
Proof.
  induction 1 as [| [p v] rest Hv Hrest IH]; intros H0; constructor.
  - rewrite total_volume_cons in H0.
    pose proof (total_volume_nonneg rest Hrest). cbn [snd]. lra.
  - apply IH. rewrite total_volume_cons in H0.
    unfold nonneg_size in Hv. cbn [snd] in Hv. lra.
Qed.

Lemma inject_length_pos {A} (x : A) (xs : list A) :
  0 < inject_Z (Z.of_nat (List.length (x :: xs))).
Proof.
  change 0 with (inject_Z 0). rewrite <- Zlt_Qlt. cbn [List.length]. lia.
Qed.

(** The loop over the strong levels divides by the average only at a level
    above twice the average. *)
Lemma strong_loop_returns (avg : Q) (levels : list Level) :
  (avg == 0 -> Forall (fun l => snd l <= 0) levels) ->
  exists strong, strong_loop avg levels = inr strong.
Proof.
  induction levels as [| [p v] rest IH]; intros H; cbn [strong_loop].
  - eexists. reflexivity.
  - destruct IH as [more Hmore].
    { intros Z0. specialize (H Z0). now inversion H. }
    destruct (Qgtb v (avg * STRONG_LEVEL_MULTIPLIER)) eqn:G.
    + apply Qgtb_gt in G. unfold STRONG_LEVEL_MULTIPLIER in G.
      assert (Hn : ~ avg == 0).
      { intros Z0. specialize (H Z0). inversion H as [| ? ? Hv _]; subst.
        cbn [snd] in Hv. rewrite Z0 in G. lra. }
      rewrite (pydiv_nonzero _ _ Hn). cbn [bind]. rewrite Hmore. cbn [bind ret].
      eexists. reflexivity.
    + rewrite Hmore. eexists. reflexivity.
Qed.

Lemma avg_depth_zero (levels : list Level) :
  Forall nonneg_size levels -> avg_depth levels == 0 ->
  Forall (fun l => snd l <= 0) levels.
Proof.
  intros Hn H0. apply total_volume_zero; [exact Hn |].
  destruct levels as [| l rest]; [discriminate |].
  unfold avg_depth in H0.
  pose proof (inject_length_pos l rest) as Hl.
  set (n := inject_Z (Z.of_nat (List.length (l :: rest)))) in *.
  set (t := total_volume (l :: rest)) in *.
  assert (E : t == (t / n) * n) by (field; lra).
  rewrite E, H0. lra.
Qed.

Lemma Forall_firstn {A} (P : A -> Prop) (n : nat) (xs : list A) :
  Forall P xs -> Forall P (firstn n xs).
Proof.
  intros H. revert n. induction H as [| x rest Hx _ IH]; intros [| n];
    cbn [firstn]; constructor; auto.
Qed.

Lemma total_volume_firstn (n : nat) (levels : list Level) :
  Forall nonneg_size levels ->
  0 <= total_volume (firstn n levels) <= total_volume levels.
Proof.
  intros H. revert n. induction H as [| [p v] rest Hv Hrest IH]; intros n.
  - destruct n; cbn [firstn]; split; discriminate.
  - unfold nonneg_size in Hv. cbn [snd] in Hv.
    pose proof (total_volume_nonneg rest Hrest) as Hr.
    destruct n as [| n]; cbn [firstn].
    + rewrite total_volume_cons. change (total_volume []) with 0. lra.
    + rewrite !total_volume_cons. specialize (IH n). lra.
Qed.

Lemma concentration_bounds (levels : list Level) :
  Forall nonneg_size levels -> 0 <= concentration levels <= 100.
Proof.
  intros H. unfold concentration.
  destruct (Qgtb (total_volume levels) 0) eqn:G; [| lra].
  apply Qgtb_gt in G.
  destruct (total_volume_firstn 10 levels H) as [L U].
  set (t := total_volume levels) in *.
  set (h := total_volume (firstn 10 levels)) in *.
  assert (0 <= h / t) by (apply Qle_shift_div_l; lra).
  assert (h / t <= 1) by (apply Qle_shift_div_r; lra).
  lra.
Qed.

(** Run [analyze_orderbook_depth] up to its return statement. *)
Ltac depth_run Vs Ve Hd F Hb Ha :=
  unfold analyze_orderbook_depth, with_symbol_exchange;
  rewrite Vs, Ve, (validate_positive_int_ok _ _ _ Hd);
  cbn [bind]; rewrite (microstructure_exchange_validated _ _ Ve), F;
  cbn [bind];
  do 2 match goal with
       | |- context [strong_loop (avg_depth ?side) ?side] =>
           let Hloop := fresh "Hloop" in
           first
             [ destruct (strong_loop_returns (avg_depth side) side
                           (avg_depth_zero side (Forall_firstn _ _ _ Hb)))
                 as [? Hloop]
             | destruct (strong_loop_returns (avg_depth side) side
                           (avg_depth_zero side (Forall_firstn _ _ _ Ha)))
                 as [? Hloop] ];
           rewrite Hloop; clear Hloop; cbn [bind]
       end;
  cbn [guard].

(** X8. With valid arguments [analyze_orderbook_depth] succeeds on every
    book whose sizes are not negative, an empty one included: no division
    of the tool meets a zero divisor.  With no asks it reports the ask
    price 0, the liquidity ratio 0 and, although the ask side is empty, the
    bias ASK_HEAVY; over a positive best bid the spread is then -200 percent
    of the mid price. *)
Theorem orderbook_depth_never_divides_by_zero
  (fetch : string -> string -> Z -> result OrderBook) (now : string)
  (symbol exchange symbol' exchange' : string) (depth_levels : Z)
  (book : OrderBook) :
  validate_symbol symbol = inr symbol' ->
  validate_exchange exchange EXCHANGES = inr exchange' ->
  (0 < depth_levels <= 500)%Z ->
  fetch exchange' (symbol' ++ "/USDT") depth_levels = inr book ->
  Forall nonneg_size (bids book) ->
  Forall nonneg_size (asks book) ->
  let out := analyze_orderbook_depth fetch now symbol exchange depth_levels in
  get "success" out = Some (VBool true) /\
  get "symbol" out = Some (VStr (symbol' ++ "/USDT")) /\
  (asks book = [] ->
   get "best_ask" out = Some (VNum 0) /\
   get2 "liquidity" "liquidity_ratio" out = Some (VNum 0) /\
   get2 "liquidity" "bias" out = Some (VStr "ASK_HEAVY") /\
   get "interpretation" out
   = Some (VStr "More liquidity on asks - Sell pressure") /\
   (0 < best_or_zero (bids book) ->
    get2 "spread" "percentage" out = Some (VNum (-200)))).
Proof.
  intros Vs Ve Hd F Hb Ha out. subst out.
  depth_run Vs Ve Hd F Hb Ha.
  conjs.
  - destruct (depth_bias _); reflexivity.
  - destruct (depth_bias _); reflexivity.
  - intros E. rewrite E in *.
    replace (firstn (Z.to_nat depth_levels) (@nil Level)) with (@nil Level)
      by now destruct (Z.to_nat depth_levels).
    conjs; try reflexivity.
    intros Hp. destruct (bids book) as [| [p v] rest]; [discriminate Hp |].
    cbn [best_or_zero] in Hp.
    destruct (Z.to_nat depth_levels) as [| n] eqn:En; [lia |].
    cbn [firstn best_or_zero].
    assert (G : Qgtb ((p + 0) / 2) 0 = true) by (apply Qgtb_gt, Qlt_shift_div_l; lra).
    destruct (depth_bias _). cbn [guard ret].
    unfold get2. cbn [get String.eqb Ascii.eqb Bool.eqb]. rewrite G.
    rewrite (round_comp ((0 - p) / ((p + 0) / 2) * 100) (-200));
      [reflexivity | field; lra].
Qed.

Lemma orderbook_depth_never_divides_by_zero_witness :
  get "success"
    (analyze_orderbook_depth
       (fun _ _ _ => ret {| bids := [(99, 10)]; asks := [] |}) "t0"
       "btc" "Binance" 50)
  = Some (VBool true) /\
  get2 "spread" "percentage"
    (analyze_orderbook_depth
       (fun _ _ _ => ret {| bids := [(99, 10)]; asks := [] |}) "t0"
       "btc" "Binance" 50)
  = Some (VNum (-200)).
Proof.
  destruct (orderbook_depth_never_divides_by_zero
              (fun _ _ _ => ret {| bids := [(99, 10)]; asks := [] |}) "t0"
              "btc" "Binance" "BTC" "binance" 50
              {| bids := [(99, 10)]; asks := [] |})
    as (S & _ & E).
  - reflexivity.
  - reflexivity.
  - lia.
  - reflexivity.
  - repeat constructor. discriminate.
  - constructor.
  - split; [exact S |]. apply E; reflexivity.
Defined.

(** X9. On a book whose sizes are not negative, the two concentrations
    that [analyze_orderbook_depth] reports (the share of a side's volume
    that rests in its first ten levels, rounded to two places) lie between
    0 and 100. *)
Theorem orderbook_depth_concentration_range
  (fetch : string -> string -> Z -> result OrderBook) (now : string)
  (symbol exchange symbol' exchange' : string) (depth_levels : Z)
  (book : OrderBook) :
  validate_symbol symbol = inr symbol' ->
  validate_exchange exchange EXCHANGES = inr exchange' ->
  (0 < depth_levels <= 500)%Z ->
  fetch exchange' (symbol' ++ "/USDT") depth_levels = inr book ->
  Forall nonneg_size (bids book) ->
  Forall nonneg_size (asks book) ->
  let out := analyze_orderbook_depth fetch now symbol exchange depth_levels in
  exists bid_concentration ask_concentration : Q,
    get2 "concentration" "bid_concentration_top10" out
    = Some (VNum bid_concentration) /\
    get2 "concentration" "ask_concentration_top10" out
    = Some (VNum ask_concentration) /\
    0 <= bid_concentration <= 100 /\
    0 <= ask_concentration <= 100.
Proof.
  intros Vs Ve Hd F Hb Ha out. subst out.
  depth_run Vs Ve Hd F Hb Ha.
  destruct (depth_bias _).
  do 2 eexists. split; [reflexivity | split; [reflexivity | split]].
  - apply (round_bounds _ 2 0 100).
    apply concentration_bounds, Forall_firstn; assumption.
  - apply (round_bounds _ 2 0 100).
    apply concentration_bounds, Forall_firstn; assumption.
Qed.

Lemma orderbook_depth_concentration_range_witness :
  exists bid_concentration ask_concentration : Q,
    get2 "concentration" "bid_concentration_top10"
      (analyze_orderbook_depth (fun _ _ _ => ret three_level_book) "t0"
         "BTC" "bybit" 50)
    = Some (VNum bid_concentration) /\
    get2 "concentration" "ask_concentration_top10"
      (analyze_orderbook_depth (fun _ _ _ => ret three_level_book) "t0"
         "BTC" "bybit" 50)
    = Some (VNum ask_concentration) /\
    0 <= bid_concentration <= 100 /\
    0 <= ask_concentration <= 100.
Proof.
  apply (orderbook_depth_concentration_range
           (fun _ _ _ => ret three_level_book) "t0"
           "BTC" "bybit" "BTC" "bybit" 50 three_level_book).
  - reflexivity.
  - reflexivity.
  - lia.
  - reflexivity.
  - repeat constructor; discriminate.
  - repeat constructor; discriminate.
Defined.

(** ** Order book imbalance *)

(** X10. With valid arguments [detect_orderbook_imbalance] succeeds on
    every book the exchange returns: the ratio of a level without ask
    volume is replaced by 10.  On a book without asks, an empty book
    included, each of the three ratios is 10 and the report is
    EXTREME_BUY_PRESSURE with confidence HIGH. *)
Theorem orderbook_imbalance_without_asks
  (fetch : string -> string -> Z -> result OrderBook) (now : string)
  (symbol exchange symbol' exchange' : string) (depth : Z)
  (book : OrderBook) :
  validate_symbol symbol = inr symbol' ->
  validate_exchange exchange EXCHANGES = inr exchange' ->
  (0 < depth <= 200)%Z ->
  fetch exchange' (symbol' ++ "/USDT") depth = inr book ->
  let out := detect_orderbook_imbalance fetch now symbol exchange depth in
  get "success" out = Some (VBool true) /\
  (asks book = [] ->
   get "imbalances_by_level" out
   = Some (VDict [("level_5", VNum 10); ("level_10", VNum 10);
                  ("level_20", VNum 10)]) /\
   get "average_imbalance" out = Some (VNum 10) /\
   get "market_pressure" out = Some (VStr "EXTREME_BUY_PRESSURE") /\
   get "confidence" out = Some (VStr "HIGH") /\
   get "interpretation" out
   = Some (VStr "Bid/ask ratio: 10.00 - Very likely upward move")).
Proof.
  intros Vs Ve Hd F out. subst out.
  unfold detect_orderbook_imbalance, with_symbol_exchange.
  rewrite Vs, Ve, (validate_positive_int_ok _ _ _ Hd).
  cbn [bind]. rewrite (microstructure_exchange_validated _ _ Ve), F.
  cbn [bind imbalance_levels List.map mean]. unfold ret at 1. cbn [bind].
  split.
  - destruct (imbalance_pressure _) as [[pressure prediction] confidence].
    reflexivity.
  - intros E. rewrite E.
    replace (firstn (Z.to_nat depth) (@nil Level)) with (@nil Level)
      by now destruct (Z.to_nat depth).
    conjs; reflexivity.
Qed.

Lemma orderbook_imbalance_without_asks_witness :
  get "market_pressure"
    (detect_orderbook_imbalance
       (fun _ _ _ => ret {| bids := []; asks := [] |}) "t0" "BTC" "binance" 20)
  = Some (VStr "EXTREME_BUY_PRESSURE").
Proof.
  destruct (orderbook_imbalance_without_asks
              (fun _ _ _ => ret {| bids := []; asks := [] |}) "t0"
              "BTC" "binance" "BTC" "binance" 20 {| bids := []; asks := [] |})
    as (_ & E).
  - reflexivity.
  - reflexivity.
  - lia.
  - reflexivity.
  - apply E. reflexivity.
Defined.

(** ** Slippage and market impact *)

(** The walk of an order through a well-formed side returns; it reaches
    the order size exactly when the side is worth at least as much, and has
    then bought a positive volume. *)
Lemma walk_fill (size : Q) (levels : list Level) :
  0 < size -> Forall valid_level levels ->
  exists st,
    walk size levels start = inr st /\
    ((notional levels < size /\ Qgeb (cumulative_cost st) size = false)
     \/ (size <= notional levels /\ Qgeb (cumulative_cost st) size = true /\
         0 < cumulative_volume st)).
Proof.
  intros Hsize Hl.
  assert (S0 : cumulative_cost start < size) by exact Hsize.
  destruct (walk_cases size levels Hl start S0)
    as [[Hlt (st & W & C & V & L)]
       | [Hge (pre & p & v & post & st & E & Hpre & Hfill & W & C & V & L)]];
    cbn [start cumulative_cost cumulative_volume levels_consumed] in *;
    exists st; (split; [exact W |]).
  - left. split; [lra |].
    unfold Qgeb. apply not_true_iff_false. rewrite Qle_bool_iff. lra.
  - right. split; [lra |]. split; [apply Qgeb_ge; rewrite C; lra |].
    assert (Hp : 0 < p).
    { subst levels. apply Forall_app in Hl. destruct Hl as [_ Hr].
      inversion Hr as [| ? ? [Hp' _] _]; subst. exact Hp'. }
    assert (Hpre0 : 0 <= base_volume pre).
    { subst levels. apply Forall_app in Hl. destruct Hl as [Hl _].
      now apply base_volume_nonneg. }
    assert (Hrem : 0 < (size - (0 + notional pre)) / p).
    { apply Qlt_shift_div_l; lra. }
    lra.
Qed.

(** The slippage walk of [calculate_spread_metrics] is the walk of
    [calculate_market_impact] without the count of levels; it names a level
    exactly when the other reaches the order size. *)
Lemma slippage_walk_walk (size : Q) (levels : list Level) :
  Forall valid_level levels ->
  forall st, cumulative_cost st < size ->
  match walk size levels st with
  | inr st' =>
      exists price,
        slippage_walk size levels (cumulative_volume st) (cumulative_cost st)
        = inr (cumulative_volume st', cumulative_cost st', price) /\
        truthy price = Qgeb (cumulative_cost st') size
  | inl e =>
      slippage_walk size levels (cumulative_volume st) (cumulative_cost st)
      = inl e
  end.
Proof.
  induction 1 as [| [p v] rest [Hp Hv] Hrest IH]; intros st Hst.
  - cbn [walk slippage_walk ret]. exists None. split; [reflexivity |].
    cbn [truthy]. symmetry. unfold Qgeb. apply not_true_iff_false.
    rewrite Qle_bool_iff. lra.
  - cbn [fst snd] in Hp, Hv. cbn [walk slippage_walk].
    destruct (Qgeb (cumulative_cost st + p * v) size) eqn:G.
    + rewrite pydiv_nonzero by lra. cbn [bind ret].
      exists (Some p). split; [reflexivity |].
      cbn [truthy cumulative_cost]. rewrite Qeq_bool_neq by lra.
      symmetry. apply Qgeb_ge. lra.
    + assert (G' : cumulative_cost st + p * v < size).
      { apply Qltb_lt. unfold Qltb. unfold Qgeb in G. now rewrite G. }
      apply (IH {| cumulative_volume := cumulative_volume st + v;
                   cumulative_cost := cumulative_cost st + p * v;
                   levels_consumed := (levels_consumed st + 1)%Z |} G').
Qed.

(** Buying through the asks: the estimate of [calculate_spread_metrics]
    is the average price and the impact of [calculate_market_impact]. *)
Lemma buy_slippage_impact (size best_ask mid : Q) (asks : list Level) :
  0 < size -> Forall valid_level asks -> 0 < best_ask -> 0 < mid ->
  exists r,
    buy_order_impact size best_ask mid asks = inr r /\
    buy_slippage size best_ask asks
    = inr (average_execution_price r, price_impact_percentage r) /\
    (notional asks < size ->
     average_execution_price r = None /\ price_impact_percentage r = None /\
     insufficient_liquidity r = true).
Proof.
  intros Hsize Hl Hb Hm. unfold buy_order_impact, buy_slippage.
  pose proof (slippage_walk_walk size asks Hl start Hsize) as SW.
  destruct (walk_fill size asks Hsize Hl) as (st & W & Hcase).
  rewrite W in SW. destruct SW as (price & SW & T).
  cbn [start cumulative_volume cumulative_cost] in SW.
  rewrite W, SW. cbn [bind]. rewrite T.
  destruct Hcase as [[Hlt G] | (Hge & G & Hv)]; rewrite G.
  - eexists. conjs; [reflexivity | reflexivity |]. intros _.
    cbn [no_fill average_execution_price price_impact_percentage
         insufficient_liquidity]. auto.
  - rewrite !pydiv_nonzero by lra. cbn [bind].
    rewrite !pydiv_nonzero by lra. cbn [bind ret].
    eexists. conjs; [reflexivity | reflexivity |]. intros Hlt. lra.
Qed.

(** Selling through the bids, likewise. *)
Lemma sell_slippage_impact (size best_bid mid : Q) (bids : list Level) :
  0 < size -> Forall valid_level bids -> 0 < best_bid -> 0 < mid ->
  exists r,
    sell_order_impact size best_bid mid bids = inr r /\
    sell_slippage size best_bid bids
    = inr (average_execution_price r, price_impact_percentage r) /\
    (notional bids < size ->
     average_execution_price r = None /\ price_impact_percentage r = None /\
     insufficient_liquidity r = true).
Proof.
  intros Hsize Hl Hb Hm. unfold sell_order_impact, sell_slippage.
  pose proof (slippage_walk_walk size bids Hl start Hsize) as SW.
  destruct (walk_fill size bids Hsize Hl) as (st & W & Hcase).
  rewrite W in SW. destruct SW as (price & SW & T).
  cbn [start cumulative_volume cumulative_cost] in SW.
  rewrite W, SW. cbn [bind]. rewrite T.
  destruct Hcase as [[Hlt G] | (Hge & G & Hv)]; rewrite G.
  - eexists. conjs; [reflexivity | reflexivity |]. intros _.
    cbn [no_fill average_execution_price price_impact_percentage
         insufficient_liquidity]. auto.
  - rewrite !pydiv_nonzero by lra. cbn [bind].
    rewrite !pydiv_nonzero by lra. cbn [bind ret].
    eexists. conjs; [reflexivity | reflexivity |]. intros Hlt. lra.
Qed.

Lemma valid_side_best (levels : list Level) :
  valid_side levels ->
  exists best, best_price levels = inr best /\ 0 < best.
Proof.
  intros [Hne Hl]. destruct levels as [| [p v] rest]; [congruence |].
  inversion Hl as [| ? ? [Hp _] _]; subst. exists p. split; [reflexivity |].
  exact Hp.
Qed.

Lemma mid_price_pos (best_bid best_ask : Q) :
  0 < best_bid -> 0 < best_ask -> 0 < (best_bid + best_ask) / 2.
Proof. intros. apply Qlt_shift_div_l; lra. Qed.

(** Run [calculate_spread_metrics] and [calculate_market_impact] on the
    same well-formed book up to their return statements. *)
Ltac walk_both Vs Ve F100 F200 Hsize Hb Ha :=
  unfold calculate_spread_metrics, calculate_market_impact,
    with_symbol_exchange;
  rewrite Vs, Ve, (microstructure_exchange_validated _ _ Ve), F100, F200;
  cbn [bind];
  let best_bid := fresh "best_bid" in
  let best_ask := fresh "best_ask" in
  let Bb := fresh "Bb" in
  let Ba := fresh "Ba" in
  let Pb := fresh "Pb" in
  let Pa := fresh "Pa" in
  destruct (valid_side_best _ Hb) as (best_bid & Bb & Pb);
  destruct (valid_side_best _ Ha) as (best_ask & Ba & Pa);
  rewrite Bb, Ba; cbn [bind];
  pose proof (mid_price_pos _ _ Pb Pa);
  rewrite (pydiv_nonzero (best_ask - best_bid) ((best_bid + best_ask) / 2))
    by lra;
  cbn [bind].

(** X11. On a book with both sides well-formed (not empty, positive
    prices, sizes not negative) and for a positive order, both
    [calculate_spread_metrics] and [calculate_market_impact] succeed, and when
    the exchange hands both the same book they agree: the mid price, the
    average price of the buy and of the sell, and the slippage of the one,
    which is the price impact of the other, are reported with the same
    values. *)
Theorem spread_metrics_match_market_impact
  (fetch : string -> string -> Z -> result OrderBook)
  (symbol exchange symbol' exchange' : string) (order_size_usd : Q)
  (book : OrderBook) :
  validate_symbol symbol = inr symbol' ->
  validate_exchange exchange EXCHANGES = inr exchange' ->
  fetch exchange' (symbol' ++ "/USDT") 100%Z = inr book ->
  fetch exchange' (symbol' ++ "/USDT") 200%Z = inr book ->
  0 < order_size_usd ->
  valid_side (bids book) ->
  valid_side (asks book) ->
  let spread := calculate_spread_metrics fetch symbol exchange order_size_usd in
  let impact := calculate_market_impact fetch symbol exchange order_size_usd in
  get "success" spread = Some (VBool true) /\
  get "success" impact = Some (VBool true) /\
  exists mid buy_price buy_pct sell_price sell_pct : value,
    get "mid_price" spread = Some mid /\
    get "mid_price" impact = Some mid /\
    get2 "slippage_estimate" "buy_avg_price" spread = Some buy_price /\
    get2 "buy_order_impact" "average_execution_price" impact
    = Some buy_price /\
    get2 "slippage_estimate" "buy_slippage_percentage" spread
    = Some buy_pct /\
    get2 "buy_order_impact" "price_impact_percentage" impact = Some buy_pct /\
    get2 "slippage_estimate" "sell_avg_price" spread = Some sell_price /\
    get2 "sell_order_impact" "average_execution_price" impact
    = Some sell_price /\
    get2 "slippage_estimate" "sell_slippage_percentage" spread
    = Some sell_pct /\
    get2 "sell_order_impact" "price_impact_percentage" impact = Some sell_pct.
Proof.
  intros Vs Ve F100 F200 Hsize Hb Ha spread impact. subst spread impact.
  walk_both Vs Ve F100 F200 Hsize Hb Ha.
  destruct Hb as [_ Hb]. destruct Ha as [_ Ha].
  destruct (buy_slippage_impact order_size_usd best_ask
              ((best_bid + best_ask) / 2) (asks book))
    as (buy & Ib & Sb & _); try assumption.
  destruct (sell_slippage_impact order_size_usd best_bid
              ((best_bid + best_ask) / 2) (bids book))
    as (sell & Is & Ss & _); try assumption.
  rewrite Ib, Sb, Is, Ss. cbn [bind guard ret].
  conjs; [reflexivity | reflexivity |].
  do 5 eexists. conjs; reflexivity.
Qed.

Lemma spread_metrics_match_market_impact_witness :
  get "success"
    (calculate_spread_metrics (fun _ _ _ => ret three_level_book)
       "BTC" "binance" 300)
  = Some (VBool true) /\
  get "success"
    (calculate_market_impact (fun _ _ _ => ret three_level_book)
       "BTC" "binance" 300)
  = Some (VBool true).
Proof.
  destruct (spread_metrics_match_market_impact
              (fun _ _ _ => ret three_level_book)
              "BTC" "binance" "BTC" "binance" 300 three_level_book)
    as (S & I & _).
  - reflexivity.
  - reflexivity.
  - reflexivity.
  - reflexivity.
  - reflexivity.
  - split; [discriminate | repeat constructor; cbn; discriminate].
  - split; [discriminate | repeat constructor; cbn; discriminate].
  - split; [exact S | exact I].
Defined.

(** X12. An order worth more than the whole ask side of a well-formed
    book: [calculate_market_impact] succeeds, flags the buy as
    insufficient_liquidity, gives null for its average price and impact, and
    classifies the impact VERY_HIGH with the advice to split the order;
    [calculate_spread_metrics] gives null for the buy slippage and reports as
    total trading cost the spread alone. *)
Theorem order_larger_than_ask_side
  (fetch : string -> string -> Z -> result OrderBook)
  (symbol exchange symbol' exchange' : string) (order_size_usd : Q)
  (book : OrderBook) :
  validate_symbol symbol = inr symbol' ->
  validate_exchange exchange EXCHANGES = inr exchange' ->
  fetch exchange' (symbol' ++ "/USDT") 100%Z = inr book ->
  fetch exchange' (symbol' ++ "/USDT") 200%Z = inr book ->
  0 < order_size_usd ->
  valid_side (bids book) ->
  valid_side (asks book) ->
  notional (asks book) < order_size_usd ->
  let spread := calculate_spread_metrics fetch symbol exchange order_size_usd in
  let impact := calculate_market_impact fetch symbol exchange order_size_usd in
  get "success" impact = Some (VBool true) /\
  get2 "buy_order_impact" "insufficient_liquidity" impact
  = Some (VBool true) /\
  get2 "buy_order_impact" "average_execution_price" impact = Some VNone /\
  get2 "buy_order_impact" "price_impact_percentage" impact = Some VNone /\
  get "impact_classification" impact = Some (VStr "VERY_HIGH") /\
  get "recommendation" impact
  = Some (VStr "Impact VERY_HIGH - Consider splitting into multiple orders") /\
  get "success" spread = Some (VBool true) /\
  get2 "slippage_estimate" "buy_slippage_percentage" spread = Some VNone /\
  exists cost : value,
    get "total_trading_cost_percentage" spread = Some cost /\
    get2 "spread" "percentage" spread = Some cost.
Proof.
  intros Vs Ve F100 F200 Hsize Hb Ha Hlt spread impact. subst spread impact.
  walk_both Vs Ve F100 F200 Hsize Hb Ha.
  destruct Hb as [_ Hb]. destruct Ha as [_ Ha].
  destruct (buy_slippage_impact order_size_usd best_ask
              ((best_bid + best_ask) / 2) (asks book))
    as (buy & Ib & Sb & Nb); try assumption.
  destruct (sell_slippage_impact order_size_usd best_bid
              ((best_bid + best_ask) / 2) (bids book))
    as (sell & Is & Ss & _); try assumption.
  destruct (Nb Hlt) as (Na & Np & Ni).
  rewrite Ib, Sb, Is, Ss. cbn [bind guard ret].
  unfold impact_dict. rewrite Na, Np, Ni.
  conjs; try reflexivity.
  eexists. split; reflexivity.
Qed.

Lemma order_larger_than_ask_side_witness :
  get "impact_classification"
    (calculate_market_impact (fun _ _ _ => ret three_level_book)
       "BTC" "binance" 900)
  = Some (VStr "VERY_HIGH").
Proof.
  destruct (order_larger_than_ask_side
              (fun _ _ _ => ret three_level_book)
              "BTC" "binance" "BTC" "binance" 900 three_level_book)
    as (_ & _ & _ & _ & C & _).
  - reflexivity.
  - reflexivity.
  - reflexivity.
  - reflexivity.
  - reflexivity.
  - split; [discriminate | repeat constructor; cbn; discriminate].
  - split; [discriminate | repeat constructor; cbn; discriminate].
  - reflexivity.
  - exact C.
Defined.

(** ** Order flow *)

Lemma order_flow_counts (threshold : Q) (trades : list Trade) :
  forall acc : Flow,
    let flow := fold_left (flow_step threshold) trades acc in
    buy_count flow
    = (buy_count acc + Z.of_nat (List.length (taker_buys trades)))%Z /\
    (buy_count flow + sell_count flow
     = buy_count acc + sell_count acc + Z.of_nat (List.length trades))%Z.
Proof.
  induction trades as [| t rest IH]; intros acc; cbn [fold_left].
  - cbn. lia.
  - cbv zeta in *. destruct (IH (flow_step threshold acc t)) as [B S].
    split; [rewrite B | rewrite S]; unfold flow_step, taker_buys;
      cbn [filter]; destruct (String.eqb (side t) "buy");
      cbn [buy_count sell_count List.length]; lia.
Qed.

Lemma order_flow_volumes (threshold : Q) (trades : list Trade) :
  Forall nonneg_amount trades ->
  forall acc : Flow,
    0 <= buy_volume acc -> 0 <= sell_volume acc ->
    0 <= buy_volume (fold_left (flow_step threshold) trades acc) /\
    0 <= sell_volume (fold_left (flow_step threshold) trades acc).
Proof.
  induction 1 as [| t rest Ht _ IH]; intros acc Hb Hs; cbn [fold_left].
  - auto.
  - unfold nonneg_amount in Ht.
    apply IH; unfold flow_step; destruct (String.eqb (side t) "buy");
      cbn [buy_volume sell_volume]; lra.
Qed.

Lemma percentage_bounds (part rest : Q) :
  0 <= part -> 0 <= rest ->
  0 <= (if Qgtb (part + rest) 0 then part / (part + rest) * 100 else 0)
    <= 100.
Proof.
  intros Hp Hr. destruct (Qgtb (part + rest) 0) eqn:G; [| lra].
  apply Qgtb_gt in G.
  assert (0 <= part / (part + rest)) by (apply Qle_shift_div_l; lra).
  assert (part / (part + rest) <= 1) by (apply Qle_shift_div_r; lra).
  lra.
Qed.

(** Run [analyze_order_flow] on a tape that is not empty up to its return
    statement. *)
Ltac flow_run Vs Ve Hl F Hne :=
  unfold analyze_order_flow, with_symbol_exchange;
  rewrite Vs, Ve, (validate_positive_int_ok _ _ _ Hl);
  cbn [bind]; rewrite (microstructure_exchange_validated _ _ Ve), F;
  cbn [bind];
  match goal with
  | |- context [mean (List.map amount ?trades)] =>
      destruct trades as [| first_trade more_trades]; [congruence |]
  end;
  cbn [mean List.map]; unfold ret; cbn [bind].

(** X13. [analyze_order_flow] answers an empty tape with a NoDataError
    payload that carries the formatted symbol.  On a tape that is not
    empty it succeeds, reports as trades_analyzed the [limit] it was asked
    for, whatever the number of trades returned, counts as buy_trades the
    trades whose side is "buy" and every other trade as a sell, so that the
    two counts add up to the number of trades. *)
Theorem order_flow_trade_counts
  (now : string) (fetch : string -> string -> Z -> result (list Trade))
  (symbol exchange symbol' exchange' : string) (limit : Z)
  (trades : list Trade) :
  validate_symbol symbol = inr symbol' ->
  validate_exchange exchange EXCHANGES = inr exchange' ->
  (0 < limit <= 1000)%Z ->
  fetch exchange' (symbol' ++ "/USDT") limit = inr trades ->
  let out := analyze_order_flow now fetch symbol exchange limit in
  (trades = [] ->
   get "success" out = Some (VBool false) /\
   get "error_type" out = Some (VStr "NoDataError") /\
   get "symbol" out = Some (VStr (symbol' ++ "/USDT")))
  /\
  (trades <> [] ->
   get "success" out = Some (VBool true) /\
   get "trades_analyzed" out = Some (VInt limit) /\
   exists buy_trades sell_trades : Z,
     get2 "trade_count" "buy_trades" out = Some (VInt buy_trades) /\
     get2 "trade_count" "sell_trades" out = Some (VInt sell_trades) /\
     buy_trades = Z.of_nat (List.length (taker_buys trades)) /\
     (buy_trades + sell_trades = Z.of_nat (List.length trades))%Z).
Proof.
  intros Vs Ve Hl F out. subst out. split.
  - intros ->. unfold analyze_order_flow, with_symbol_exchange.
    rewrite Vs, Ve, (validate_positive_int_ok _ _ _ Hl).
    cbn [bind]. rewrite (microstructure_exchange_validated _ _ Ve), F.
    cbn [bind guard ret]. conjs; reflexivity.
  - intros Hne. flow_run Vs Ve Hl F Hne.
    destruct (flow_aggression _ _) as [aggression interpretation].
    cbn [guard ret].
    conjs; [reflexivity | reflexivity |].
    do 2 eexists. split; [reflexivity | split; [reflexivity |]].
    unfold order_flow.
    match goal with
    | |- context [fold_left (flow_step ?th) ?ts flow_start] =>
        destruct (order_flow_counts th ts flow_start) as [B S]
    end.
    cbn [flow_start buy_count sell_count] in B, S. split; [exact B | lia].
Qed.

Lemma order_flow_trade_counts_witness :
  get2 "trade_count" "buy_trades"
    (analyze_order_flow "t0" (fun _ _ _ => ret three_trades)
       "BTC" "binance" 100)
  = Some (VInt 1) /\
  get2 "trade_count" "sell_trades"
    (analyze_order_flow "t0" (fun _ _ _ => ret three_trades)
       "BTC" "binance" 100)
  = Some (VInt 2) /\
  get "trades_analyzed"
    (analyze_order_flow "t0" (fun _ _ _ => ret three_trades)
       "BTC" "binance" 100)
  = Some (VInt 100).
Proof.
  destruct (order_flow_trade_counts "t0" (fun _ _ _ => ret three_trades)
              "BTC" "binance" "BTC" "binance" 100 three_trades)
    as (_ & H).
  - reflexivity.
  - reflexivity.
  - lia.
  - reflexivity.
  - destruct H as (_ & T & b & s & Hb & Hs & Eb & Es); [discriminate |].
    rewrite Hb, Hs, T.
    assert (b = 1%Z) by (rewrite Eb; reflexivity).
    assert (s = 2%Z) by (cbn [List.length three_trades] in Es; lia).
    subst. conjs; reflexivity.
Defined.

(** X14. On a tape of trades with amounts that are not negative, the buy
    and sell percentages that [analyze_order_flow] reports lie between 0 and
    100; a tape without volume divides by nothing. *)
Theorem order_flow_percentages
  (now : string) (fetch : string -> string -> Z -> result (list Trade))
  (symbol exchange symbol' exchange' : string) (limit : Z)
  (trades : list Trade) :
  validate_symbol symbol = inr symbol' ->
  validate_exchange exchange EXCHANGES = inr exchange' ->
  (0 < limit <= 1000)%Z ->
  fetch exchange' (symbol' ++ "/USDT") limit = inr trades ->
  trades <> [] ->
  Forall nonneg_amount trades ->
  let out := analyze_order_flow now fetch symbol exchange limit in
  exists buy_percentage sell_percentage : Q,
    get2 "volume_distribution" "buy_percentage" out
    = Some (VNum buy_percentage) /\
    get2 "volume_distribution" "sell_percentage" out
    = Some (VNum sell_percentage) /\
    0 <= buy_percentage <= 100 /\
    0 <= sell_percentage <= 100.
Proof.
  intros Vs Ve Hl F Hne Hn out. subst out.
  flow_run Vs Ve Hl F Hne.
  destruct (flow_aggression _ _) as [aggression interpretation].
  cbn [guard ret].
  do 2 eexists. split; [reflexivity | split; [reflexivity |]].
  unfold order_flow.
  match goal with
  | |- context [fold_left (flow_step ?th) ?ts flow_start] =>
      destruct (order_flow_volumes th ts Hn flow_start) as [B S];
        [discriminate | discriminate |];
        set (flow := fold_left (flow_step th) ts flow_start) in *
  end.
  split; apply (round_bounds _ 2 0 100).
  - now apply percentage_bounds.
  - pose proof (percentage_bounds (sell_volume flow) (buy_volume flow) S B)
      as P.
    destruct (Qgtb (buy_volume flow + sell_volume flow) 0) eqn:G.
    + assert (G' : Qgtb (sell_volume flow + buy_volume flow) 0 = true).
      { apply Qgtb_gt. apply Qgtb_gt in G. lra. }
      rewrite G' in P.
      assert (E : sell_volume flow / (buy_volume flow + sell_volume flow)
                  == sell_volume flow / (sell_volume flow + buy_volume flow)).
      { apply Qgtb_gt in G. field. lra. }
      rewrite E. exact P.
    + change (inject_Z 0) with 0. change (inject_Z 100) with 100. lra.
Qed.

Lemma order_flow_percentages_witness :
  exists buy_percentage sell_percentage : Q,
    get2 "volume_distribution" "buy_percentage"
      (analyze_order_flow "t0" (fun _ _ _ => ret three_trades)
         "BTC" "binance" 100)
    = Some (VNum buy_percentage) /\
    get2 "volume_distribution" "sell_percentage"
      (analyze_order_flow "t0" (fun _ _ _ => ret three_trades)
         "BTC" "binance" 100)
    = Some (VNum sell_percentage) /\
    0 <= buy_percentage <= 100 /\
    0 <= sell_percentage <= 100.
Proof.
  apply (order_flow_percentages "t0" (fun _ _ _ => ret three_trades)
           "BTC" "binance" "BTC" "binance" 100 three_trades).
  - reflexivity.
  - reflexivity.
  - lia.
  - reflexivity.
  - discriminate.
  - repeat constructor; discriminate.
Defined.

(** ** Spoofing on short books *)

(** A suspicious order is, among other things, larger than the
    threshold. *)
Lemma suspicious_loop_length (distance : Q -> Q) (mid threshold avg : Q)
  (levels : list Level) :
  forall (i : Z) (found : list value),
    suspicious_loop distance mid threshold avg i levels = inr found ->
    (List.length found
     <= List.length (filter (fun l => Qgtb (snd l) threshold) levels))%nat.
Proof.
  induction levels as [| [p v] rest IH]; intros i found H;
    cbn [suspicious_loop] in H.
  - injection H as <-. cbn. lia.
  - bind_inv H. cbn [filter snd].
    destruct (Qgtb v threshold); cbn [andb] in H.
    + destruct (Qgtb _ SPOOFING_DISTANCE_PCT).
      * bind_inv H. bind_inv H. injection H as <-.
        cbn [List.length]. apply le_n_S. eapply IH. eassumption.
      * apply IH in H. cbn [List.length]. lia.
    + apply IH in H. exact H.
Qed.

(** The levels above a threshold hold together more than their number
    times the threshold. *)
Lemma large_levels_volume (threshold : Q) (levels : list Level) :
  Forall nonneg_size levels ->
  let k := List.length (filter (fun l => Qgtb (snd l) threshold) levels) in
  k = 0%nat \/ inject_Z (Z.of_nat k) * threshold < total_volume levels.
Proof.
  induction 1 as [| [p v] rest Hv Hrest IH]; cbv zeta in *.
  - left. reflexivity.
  - unfold nonneg_size in Hv. cbn [snd] in Hv. cbn [filter snd].
    pose proof (total_volume_nonneg rest Hrest) as Hr.
    rewrite total_volume_cons.
    destruct (Qgtb v threshold) eqn:G.
    + right. apply Qgtb_gt in G. cbn [List.length].
      rewrite Nat2Z.inj_succ. unfold Z.succ. rewrite inject_Z_plus.
      destruct IH as [-> | IH].
      * cbn [Z.of_nat]. change (inject_Z 0) with 0. change (inject_Z 1) with 1.
        lra.
      * change (inject_Z 1) with 1. lra.
    + destruct IH as [-> | IH]; [left; reflexivity | right; lra].
Qed.

(** Fewer than twenty levels hold at most three that exceed five times
    their average size. *)
Lemma large_levels_few (threshold avg : Q) (levels : list Level) :
  Forall nonneg_size levels ->
  (List.length levels < 20)%nat ->
  mean (List.map snd levels) = inr avg ->
  avg * SPOOFING_VOLUME_MULTIPLIER <= threshold ->
  (List.length (filter (fun l => Qgtb (snd l) threshold) levels) <= 3)%nat.
Proof.
  intros Hn Hlen Hm Ht. unfold SPOOFING_VOLUME_MULTIPLIER in Ht.
  destruct levels as [| l rest]; [discriminate Hm |].
  cbn [List.map mean] in Hm. unfold ret in Hm.
  match type of Hm with
  | inr ?a = inr _ => assert (Ea : avg = a) by congruence
  end.
  clear Hm.
  change (snd l :: List.map snd rest) with (List.map snd (l :: rest)) in Ea.
  rewrite length_map in Ea.
  fold (total_volume (l :: rest)) in Ea.
  pose proof (inject_length_pos l rest) as Hpos.
  pose proof (total_volume_nonneg _ Hn) as Tn.
  pose proof (large_levels_volume threshold _ Hn) as Hk. cbv zeta in Hk.
  set (levels := l :: rest) in *.
  set (k := List.length (filter (fun l => Qgtb (snd l) threshold) levels))
    in *.
  set (n := inject_Z (Z.of_nat (List.length levels))) in *.
  set (T := total_volume levels) in *.
  destruct Hk as [-> | Hk]; [lia |].
  destruct (Nat.le_gt_cases k 3) as [| Hk4]; [assumption | exfalso].
  assert (Hn20 : n <= 20).
  { unfold n. change 20 with (inject_Z 20). rewrite <- Zle_Qle. lia. }
  assert (Hkq : 4 <= inject_Z (Z.of_nat k)).
  { change 4 with (inject_Z 4). rewrite <- Zle_Qle. lia. }
  assert (Eavg : avg * n == T) by (rewrite Ea; field; lra).
  assert (Havg : 0 <= avg).
  { rewrite Ea. apply Qle_shift_div_l; lra. }
  assert (Hthr : 0 <= threshold) by lra.
  assert (M1 : 4 * threshold <= inject_Z (Z.of_nat k) * threshold).
  { apply Qmult_le_compat_r; assumption. }
  assert (M2 : avg * n <= avg * 20).
  { rewrite (Qmult_comm avg n), (Qmult_comm avg 20).
    apply Qmult_le_compat_r; assumption. }
  lra.
Qed.

Lemma pymax_ge (a b : Q) : a <= pymax a b.
Proof.
  unfold pymax. destruct (Qgtb b a) eqn:G; [| lra].
  apply Qgtb_gt in G. lra.
Qed.

(** X15. On a book with fewer than twenty levels a side and sizes that are
    not negative, a successful [detect_spoofing_patterns] finds at most three
    suspicious orders a side, scores at most 25 and reports the risk LOW:
    fewer than twenty levels cannot hold four that exceed five times their
    average. *)
Theorem spoofing_low_on_short_books
  (fetch : string -> string -> Z -> result OrderBook) (now : string)
  (symbol exchange symbol' exchange' : string) (depth : Z)
  (large_order_threshold_btc : Q) (book : OrderBook) :
  validate_symbol symbol = inr symbol' ->
  validate_exchange exchange EXCHANGES = inr exchange' ->
  fetch exchange' (symbol' ++ "/USDT") depth = inr book ->
  Forall nonneg_size (bids book) ->
  Forall nonneg_size (asks book) ->
  (List.length (bids book) < 20)%nat ->
  (List.length (asks book) < 20)%nat ->
  let out :=
    detect_spoofing_patterns fetch now symbol exchange depth
      large_order_threshold_btc in
  get "success" out = Some (VBool true) ->
  get "risk_level" out = Some (VStr "LOW") /\
  get "recommendation" out = Some (VStr "Orderbook appears healthy") /\
  exists score n_bids n_asks : Z,
    get "spoofing_score" out = Some (VInt score) /\
    get2 "suspicious_orders" "total_suspicious_bids" out
    = Some (VInt n_bids) /\
    get2 "suspicious_orders" "total_suspicious_asks" out
    = Some (VInt n_asks) /\
    (score <= 25 /\ n_bids <= 3 /\ n_asks <= 3)%Z.
Proof.
  intros Vs Ve F Hb Ha Lb La out Hs. subst out.
  unfold detect_spoofing_patterns in *.
  destruct (with_symbol_exchange_success _ _ _ _ Hs)
    as (symbol'' & exchange'' & out & Vs' & Ve' & B & ->).
  clear Hs. rewrite Vs in Vs'. rewrite Ve in Ve'.
  injection Vs' as <-. injection Ve' as <-.
  cbv beta in B. bind_inv B.
  apply validate_positive_int_inv in E. destruct E as [-> _].
  rewrite (microstructure_exchange_validated _ _ Ve), F in B.
  cbn [bind] in B.
  repeat bind_inv B.
  match goal with
  | Hl : suspicious_loop _ _ ?th _ _ (bids book) = inr _,
    Hm : mean (List.map snd (bids book)) = inr _ |- _ =>
      pose proof (suspicious_loop_length _ _ _ _ _ _ _ Hl) as Kb;
      pose proof (large_levels_few th _ _ Hb Lb Hm (pymax_ge _ _)) as Fb
  end.
  match goal with
  | Hl : suspicious_loop _ _ ?th _ _ (asks book) = inr _,
    Hm : mean (List.map snd (asks book)) = inr _ |- _ =>
      pose proof (suspicious_loop_length _ _ _ _ _ _ _ Hl) as Ka;
      pose proof (large_levels_few th _ _ Ha La Hm (pymax_ge _ _)) as Fa
  end.
  match type of B with
  | context [spoofing_score ?a ?b] =>
      assert (Sc : (spoofing_score a b <= 25)%Z);
        [| set (n_bids := a) in *; set (n_asks := b) in * ]
  end.
  { unfold spoofing_score, SPOOFING_COUNT_THRESHOLD.
    repeat match goal with
           | |- context [(?x >? ?y)%Z] => destruct (Z.gtb_spec x y)
           end; lia. }
  unfold spoofing_risk in B.
  destruct (Z.gtb_spec (spoofing_score n_bids n_asks) 50); [lia |].
  destruct (Z.gtb_spec (spoofing_score n_bids n_asks) 25); [lia |].
  injection B as <-.
  conjs; [reflexivity | reflexivity |].
  exists (spoofing_score n_bids n_asks), n_bids, n_asks.
  conjs; try reflexivity; try assumption; unfold n_bids, n_asks; lia.
Qed.

Lemma spoofing_low_on_short_books_witness :
  get "risk_level"
    (detect_spoofing_patterns (fun _ _ _ => ret three_level_book) "t0"
       "BTC" "binance" 50 5)
  = Some (VStr "LOW").
Proof.
  destruct (spoofing_low_on_short_books
              (fun _ _ _ => ret three_level_book) "t0"
              "BTC" "binance" "BTC" "binance" 50 5 three_level_book)
    as (R & _).
  - reflexivity.
  - reflexivity.
  - reflexivity.
  - repeat constructor; discriminate.
  - repeat constructor; discriminate.
  - cbn. lia.
  - cbn. lia.
  - vm_compute. reflexivity.
  - exact R.
Defined.

(** ** Futures: open interest and the trader ratios *)

Lemma replace_absent (c : ascii) (old new s : string) :
  contains_char c s = false -> Str.replace (String c old) new s = s.
Proof.
  unfold Str.replace. induction s as [| d rest IH]; [reflexivity |].
  cbn [contains_char Str.replace_from String.prefix]. intros H.
  apply orb_false_iff in H. destruct H as [Hd Hrest].
  destruct (ascii_dec c d) as [-> | _].
  - rewrite Ascii.eqb_refl in Hd. discriminate.
  - now rewrite (IH Hrest).
Qed.

(** On a validated symbol the two [replace] calls change nothing. *)
Lemma validated_base_symbol (symbol symbol' : string) :
  validate_symbol symbol = inr symbol' ->
  Str.replace ":USDT" "" (Str.replace "/" "" symbol') = symbol'.
Proof.
  intros V. apply validate_symbol_inv in V. destruct V as (_ & _ & Hu & _).
  rewrite (replace_absent "/"), (replace_absent ":"); try reflexivity;
    apply contains_char_upper; try exact Hu;
    intros d Hd; now apply upper_no_separator in Hd.
Qed.

(** X16. [get_open_interest] never divides by a missing or zero price:
    when the ticker's last price is [None] or 0 it succeeds with the
    equivalent 0, which it labels "Low OI".  With a price p that is not zero
    and an amount v it reports the exchange's [openInterestAmount] under
    open_interest_usd and its [openInterestValue] under
    open_interest_contracts, the equivalent v / p rounded to two places, and
    "Normal OI" exactly when 50000 <= v / p <= 100000. *)
Theorem open_interest_guarded_division
  (fetch_ticker_last : string -> string -> result (option Q))
  (fetch_open_interest : string -> string -> result OpenInterest)
  (symbol exchange symbol' exchange' : string)
  (oi : OpenInterest) (current_price : option Q) :
  validate_symbol symbol = inr symbol' ->
  validate_exchange exchange RELIABLE_FUTURES_EXCHANGES = inr exchange' ->
  fetch_open_interest exchange' (_format_symbol symbol') = inr oi ->
  fetch_ticker_last exchange' (_format_symbol symbol') = inr current_price ->
  let out :=
    get_open_interest fetch_ticker_last fetch_open_interest symbol exchange in
  (truthy current_price = false ->
   get "success" out = Some (VBool true) /\
   get "open_interest_btc_equivalent" out = Some (VNum 0) /\
   get "interpretation" out = Some (VStr "Low OI - Low futures participation"))
  /\
  (forall v p : Q,
      openInterestAmount oi = Some v -> current_price = Some p -> ~ p == 0 ->
      get "success" out = Some (VBool true) /\
      get "open_interest_usd" out = Some (VNum v) /\
      get "open_interest_contracts" out = Some (opt_num (openInterestValue oi)) /\
      get "open_interest_btc_equivalent" out = Some (VNum (round (v / p) 2)) /\
      (get "interpretation" out = Some (VStr "Normal OI")
       <-> 50000 <= v / p <= 100000)).
Proof.
  intros Vs Ve Fo Ft out. subst out.
  unfold get_open_interest, with_symbol_exchange.
  rewrite Vs, Ve, (get_exchange_validated _ _ Ve). cbn [bind].
  rewrite Fo. cbn [bind]. rewrite Ft. cbn [bind].
  split.
  - intros T. unfold oi_equivalent. rewrite T. cbn [bind ret guard].
    conjs; reflexivity.
  - intros v p Ev Ep Hp. unfold oi_equivalent. rewrite Ev, Ep.
    cbn [truthy]. rewrite (Qeq_bool_neq _ _ Hp). cbn [negb].
    rewrite (pydiv_nonzero _ _ Hp). cbn [bind ret guard].
    conjs; try reflexivity.
    cbn [get String.eqb Ascii.eqb Bool.eqb]. unfold oi_interpretation.
    destruct (Qgtb (v / p) 100000) eqn:G.
    + apply Qgtb_gt in G. split; [discriminate | intros; lra].
    + apply Qltb_ge in G. destruct (Qltb (v / p) 50000) eqn:L.
      * apply Qltb_lt in L. split; [discriminate | intros; lra].
      * apply Qltb_ge in L. split; [intros _; lra | reflexivity].
Qed.

Lemma open_interest_guarded_division_witness :
  get "interpretation"
    (get_open_interest (fun _ _ => ret (Some 0))
       (fun _ _ => ret {| openInterestAmount := Some 5;
                          openInterestValue := None;
                          oi_timestamp := None |})
       "BTC" "okx")
  = Some (VStr "Low OI - Low futures participation").
Proof.
  destruct (open_interest_guarded_division (fun _ _ => ret (Some 0))
              (fun _ _ => ret {| openInterestAmount := Some 5;
                                 openInterestValue := None;
                                 oi_timestamp := None |})
              "BTC" "okx" "BTC" "okx"
              {| openInterestAmount := Some 5; openInterestValue := None;
                 oi_timestamp := None |} (Some 0))
    as (Z0 & _).
  - reflexivity.
  - reflexivity.
  - reflexivity.
  - reflexivity.
  - apply Z0. reflexivity.
Defined.

(** X17. [get_long_short_ratio] compares the exchange with "binance"
    before any validation: every other text, such as "Binance", is answered
    with an UnsupportedExchange payload.  For "binance" and a valid symbol S
    it asks for SUSDT; a reply with a status other than 200 gives an APIError
    payload that carries neither exchange nor symbol, and two replies with
    status 200 and no entry give a success with the ratio 0, which is
    reported as EXTREMELY_BEARISH. *)
Theorem long_short_ratio_replies
  (requests_get_top requests_get_global
     : string -> string -> result (Response RatioEntry))
  (symbol exchange period : string) :
  let out :=
    get_long_short_ratio requests_get_top requests_get_global
      symbol exchange period in
  (exchange <> "binance" ->
   out = [("success", VBool false);
          ("error", VStr "Long/Short ratio only available on Binance");
          ("error_type", VStr "UnsupportedExchange");
          ("exchange", VStr exchange)])
  /\
  (forall (symbol' : string) (resp_top resp_global : Response RatioEntry),
      exchange = "binance" ->
      validate_symbol symbol = inr symbol' ->
      requests_get_top (symbol' ++ "USDT") period = inr resp_top ->
      requests_get_global (symbol' ++ "USDT") period = inr resp_global ->
      (status_code resp_top <> 200%Z \/ status_code resp_global <> 200%Z ->
       get "error_type" out = Some (VStr "APIError") /\
       get "exchange" out = None /\ get "symbol" out = None) /\
      (status_code resp_top = 200%Z -> status_code resp_global = 200%Z ->
       json resp_top = [] -> json resp_global = [] ->
       get "success" out = Some (VBool true) /\
       get "symbol" out = Some (VStr (symbol' ++ "USDT")) /\
       get "top_trader_long_short_ratio" out = Some (VNum 0) /\
       get "top_trader_sentiment" out = Some (VStr "EXTREMELY_BEARISH") /\
       get "interpretation" out
       = Some (VStr "Top traders very short - Possible reversal") /\
       get "divergence" out = Some (VBool false))).
Proof.
  intros out. subst out. unfold get_long_short_ratio. split.
  - intros Hne. apply String.eqb_neq in Hne. rewrite Hne. reflexivity.
  - intros symbol' resp_top resp_global -> Vs Ft Fg.
    cbn [String.eqb Ascii.eqb Bool.eqb negb]. rewrite Vs.
    rewrite (validated_base_symbol _ _ Vs), Ft. cbn [bind]. rewrite Fg.
    cbn [bind]. split.
    + intros Hs.
      assert (C : negb (status_code resp_top =? 200)%Z
                  || negb (status_code resp_global =? 200)%Z = true).
      { apply orb_true_iff. rewrite !negb_true_iff, !Z.eqb_neq. exact Hs. }
      rewrite C. cbn [guard ret]. conjs; reflexivity.
    + intros St Sg Jt Jg. rewrite St, Sg, Jt, Jg.
      cbn [Z.eqb Pos.eqb negb orb hd_error float_or_zero bind ret guard].
      conjs; reflexivity.
Qed.

Lemma long_short_ratio_replies_witness :
  get "top_trader_sentiment"
    (get_long_short_ratio
       (fun _ _ => ret {| status_code := 200; json := [] |})
       (fun _ _ => ret {| status_code := 200; json := [] |})
       "btc" "binance" "5m")
  = Some (VStr "EXTREMELY_BEARISH") /\
  get "error_type"
    (get_long_short_ratio
       (fun _ _ => ret {| status_code := 200; json := [] |})
       (fun _ _ => ret {| status_code := 200; json := [] |})
       "btc" "Binance" "5m")
  = Some (VStr "UnsupportedExchange").
Proof.
  split.
  - destruct (long_short_ratio_replies
                (fun _ _ => ret {| status_code := 200; json := [] |})
                (fun _ _ => ret {| status_code := 200; json := [] |})
                "btc" "binance" "5m") as (_ & H).
    destruct (H "BTC" {| status_code := 200; json := [] |}
                {| status_code := 200; json := [] |})
      as (_ & H'); [reflexivity | reflexivity | reflexivity | reflexivity |].
    apply H'; reflexivity.
  - rewrite (proj1 (long_short_ratio_replies
                      (fun _ _ => ret {| status_code := 200; json := [] |})
                      (fun _ _ => ret {| status_code := 200; json := [] |})
                      "btc" "Binance" "5m")); [reflexivity | discriminate].
Defined.

(** X18. [get_taker_buy_sell_ratio] answers every exchange other than the
    text "binance" with an UnsupportedExchange payload; for "binance" and a
    valid symbol, a reply with a status other than 200 gives an APIError that
    prints the status, and a reply with status 200 and no entry gives a
    success with ratio and volumes 0, which is reported as
    STRONG_SELL_PRESSURE. *)
Theorem taker_ratio_replies
  (requests_get_taker : string -> string -> result (Response TakerEntry))
  (symbol exchange period : string) :
  let out :=
    get_taker_buy_sell_ratio requests_get_taker symbol exchange period in
  (exchange <> "binance" ->
   out = [("success", VBool false);
          ("error", VStr "Taker buy/sell ratio only available on Binance");
          ("error_type", VStr "UnsupportedExchange");
          ("exchange", VStr exchange)])
  /\
  (forall (symbol' : string) (resp : Response TakerEntry),
      exchange = "binance" ->
      validate_symbol symbol = inr symbol' ->
      requests_get_taker (symbol' ++ "USDT") period = inr resp ->
      (status_code resp <> 200%Z ->
       get "error_type" out = Some (VStr "APIError") /\
       get "error" out
       = Some (VStr ("Error fetching taker ratio: "
                     ++ str_of_Z (status_code resp)))) /\
      (status_code resp = 200%Z ->
       json resp = [] ->
       get "success" out = Some (VBool true) /\
       get "symbol" out = Some (VStr (symbol' ++ "USDT")) /\
       get "buy_sell_ratio" out = Some (VNum 0) /\
       get "taker_buy_volume" out = Some (VNum 0) /\
       get "taker_sell_volume" out = Some (VNum 0) /\
       get "market_pressure" out = Some (VStr "STRONG_SELL_PRESSURE"))).
Proof.
  intros out. subst out. unfold get_taker_buy_sell_ratio. split.
  - intros Hne. apply String.eqb_neq in Hne. rewrite Hne. reflexivity.
  - intros symbol' resp -> Vs Ft.
    cbn [String.eqb Ascii.eqb Bool.eqb negb]. rewrite Vs.
    rewrite (validated_base_symbol _ _ Vs), Ft. cbn [bind]. conjs.
    + intros Hs. apply Z.eqb_neq in Hs. rewrite Hs. cbn [negb guard ret].
      conjs; reflexivity.
    + intros St Js. rewrite St, Js.
      cbn [Z.eqb Pos.eqb negb hd_error float_or_zero bind ret guard].
      conjs; reflexivity.
Qed.

Lemma taker_ratio_replies_witness :
  get "market_pressure"
    (get_taker_buy_sell_ratio
       (fun _ _ => ret {| status_code := 200; json := [] |})
       "btc" "binance" "5m")
  = Some (VStr "STRONG_SELL_PRESSURE") /\
  get "error_type"
    (get_taker_buy_sell_ratio
       (fun _ _ => ret {| status_code := 200; json := [] |})
       "btc" " binance" "5m")
  = Some (VStr "UnsupportedExchange").
Proof.
  split.
  - destruct (taker_ratio_replies
                (fun _ _ => ret {| status_code := 200; json := [] |})
                "btc" "binance" "5m") as (_ & H).
    destruct (H "BTC" {| status_code := 200; json := [] |})
      as (_ & H'); [reflexivity | reflexivity | reflexivity |].
    apply H'; reflexivity.
  - rewrite (proj1 (taker_ratio_replies
                      (fun _ _ => ret {| status_code := 200; json := [] |})
                      "btc" " binance" "5m")); [reflexivity | discriminate].
Defined.

(** ** Futures: the funding history *)

Lemma float_rates_some (rates : list Q) :
  float_rates (List.map Some rates) = inr rates.
Proof.
  induction rates as [| r rest IH]; [reflexivity |].
  cbn [List.map float_rates]. rewrite IH. reflexivity.
Qed.

Lemma fold_pymax_spec (rest : list Q) :
  forall x,
    In (fold_left pymax rest x) (x :: rest) /\
    forall y, In y (x :: rest) -> y <= fold_left pymax rest x.
Proof.
  induction rest as [| z rest IH]; intros x; cbn [fold_left].
  - split; [left; reflexivity |]. intros y [<- | []]. apply Qle_refl.
  - destruct (IH (pymax x z)) as [Hin Hle].
    assert (Hx : x <= pymax x z) by apply pymax_ge.
    assert (Hz : z <= pymax x z).
    { unfold pymax. destruct (Qgtb z x) eqn:G; [apply Qle_refl |].
      apply Qltb_ge in G. exact G. }
    split.
    + destruct Hin as [E | Hin]; [| right; right; exact Hin].
      rewrite <- E. unfold pymax. destruct (Qgtb z x); cbn; tauto.
    + intros y [<- | [<- | Hy]].
      * eapply Qle_trans; [exact Hx |]. apply Hle. left. reflexivity.
      * eapply Qle_trans; [exact Hz |]. apply Hle. left. reflexivity.
      * apply Hle. right. exact Hy.
Qed.

Lemma fold_pymin_spec (rest : list Q) :
  forall x,
    In (fold_left pymin rest x) (x :: rest) /\
    forall y, In y (x :: rest) -> fold_left pymin rest x <= y.
Proof.
  induction rest as [| z rest IH]; intros x; cbn [fold_left].
  - split; [left; reflexivity |]. intros y [<- | []]. apply Qle_refl.
  - destruct (IH (pymin x z)) as [Hin Hle].
    assert (Hx : pymin x z <= x).
    { unfold pymin. destruct (Qltb z x) eqn:G; [| apply Qle_refl].
      apply Qltb_lt in G. lra. }
    assert (Hz : pymin x z <= z).
    { unfold pymin. destruct (Qltb z x) eqn:G; [apply Qle_refl |].
      apply Qltb_ge in G. exact G. }
    split.
    + destruct Hin as [E | Hin]; [| right; right; exact Hin].
      rewrite <- E. unfold pymin. destruct (Qltb z x); cbn; tauto.
    + intros y [<- | [<- | Hy]].
      * eapply Qle_trans; [| exact Hx]. apply Hle. left. reflexivity.
      * eapply Qle_trans; [| exact Hz]. apply Hle. left. reflexivity.
      * apply Hle. right. exact Hy.
Qed.

(** A sum lies between its length times a lower and an upper bound of its
    terms. *)
Lemma Qsum_between (lo hi : Q) (xs : list Q) :
  (forall x, In x xs -> lo <= x <= hi) ->
  inject_Z (Z.of_nat (List.length xs)) * lo <= Qsum xs
  <= inject_Z (Z.of_nat (List.length xs)) * hi.
Proof.
  induction xs as [| x rest IH]; intros H.
  - change (inject_Z (Z.of_nat (List.length (@nil Q)))) with 0.
    change (Qsum []) with 0. lra.
  - rewrite Qsum_cons. cbn [List.length].
    rewrite Nat2Z.inj_succ. unfold Z.succ. rewrite inject_Z_plus.
    change (inject_Z 1) with 1.
    destruct (H x (or_introl eq_refl)) as [Hl Hh].
    destruct IH as [Il Ih]; [intros y Hy; apply H; right; exact Hy |].
    set (n := inject_Z (Z.of_nat (List.length rest))) in *.
    assert (El : (n + 1) * lo == n * lo + lo) by ring.
    assert (Eh : (n + 1) * hi == n * hi + hi) by ring.
    rewrite El, Eh. lra.
Qed.

Lemma mean_between (lo hi : Q) (xs : list Q) :
  xs <> [] ->
  (forall x, In x xs -> lo <= x <= hi) ->
  exists avg, Statistics.mean xs = inr avg /\ lo <= avg <= hi.
Proof.
  intros Hne H. destruct xs as [| x rest]; [congruence |].
  unfold Statistics.mean. eexists. split; [reflexivity |].
  pose proof (inject_length_pos x rest) as Hpos.
  destruct (Qsum_between lo hi (x :: rest) H) as [L U].
  set (n := inject_Z (Z.of_nat (List.length (x :: rest)))) in *.
  set (total := Qsum (x :: rest)) in *.
  split.
  - apply Qle_shift_div_l; lra.
  - apply Qle_shift_div_r; lra.
Qed.

Lemma list_last_In {A} (xs : list A) (x : A) :
  list_last xs = inr x -> In x xs.
Proof.
  unfold list_last.
  destruct (nth_error xs (List.length xs - 1)) as [y |] eqn:E;
    [| discriminate].
  intros [= <-]. eapply nth_error_In. exact E.
Qed.

Lemma list_last_nonempty {A} (x : A) (xs : list A) :
  exists y, list_last (x :: xs) = inr y.
Proof.
  unfold list_last.
  destruct (nth_error (x :: xs) (List.length (x :: xs) - 1)) as [y |] eqn:E.
  - exists y. reflexivity.
  - apply nth_error_None in E. cbn [List.length] in E. lia.
Qed.

Lemma tail_length {A} (n : nat) (xs : list A) :
  (n <= List.length xs)%nat -> List.length (tail n xs) = n.
Proof. intros H. unfold tail. rewrite length_skipn. lia. Qed.

Lemma mean_returns (xs : list Q) :
  xs <> [] -> exists avg, Statistics.mean xs = inr avg.
Proof.
  intros H. destruct xs; [congruence |]. eexists. reflexivity.
Qed.

Lemma history_trend_cases (rates : list Q) :
  exists trend,
    history_trend rates = inr trend /\
    ((List.length rates < 16)%nat /\ trend = "INSUFFICIENT_DATA"
     \/ (16 <= List.length rates)%nat /\
        (trend = "INCREASING" \/ trend = "DECREASING")).
Proof.
  unfold history_trend.
  destruct (Nat.leb_spec 16 (List.length rates)) as [H | H].
  - destruct (mean_returns (tail 8 rates)) as [recent Er].
    { intros E. apply (f_equal (@List.length Q)) in E.
      rewrite tail_length in E by lia. discriminate. }
    destruct (mean_returns (firstn 8 rates)) as [older Eo].
    { intros E. apply (f_equal (@List.length Q)) in E.
      rewrite length_firstn in E. cbn [List.length] in E. lia. }
    rewrite Er. cbn [bind]. rewrite Eo. cbn [bind ret].
    eexists. split; [reflexivity |]. right. split; [exact H |].
    destruct (Qgtb recent older); auto.
  - eexists. split; [reflexivity |]. left. auto.
Qed.

(** X19. [get_funding_rate_history] answers an empty history with a
    NoDataError payload.  On a history that is not empty it reports the
    number of fundings, a maximum and a minimum that are rates of the
    history and bound all of them, an average and a current rate that lie
    between the two, and the trend INSUFFICIENT_DATA exactly when there are
    fewer than sixteen fundings. *)
Theorem funding_history_statistics
  (fetch : string -> string -> Z -> result (list (option Q)))
  (since_ms : Z -> Z)
  (symbol exchange symbol' exchange' : string) (hours : Z)
  (rates : list Q) :
  validate_symbol symbol = inr symbol' ->
  validate_exchange exchange RELIABLE_FUTURES_EXCHANGES = inr exchange' ->
  (0 < hours <= 720)%Z ->
  fetch exchange' (_format_symbol symbol') (since_ms hours)
  = inr (List.map Some rates) ->
  let out := get_funding_rate_history fetch since_ms symbol exchange hours in
  (rates = [] ->
   get "success" out = Some (VBool false) /\
   get "error_type" out = Some (VStr "NoDataError"))
  /\
  (rates <> [] ->
   get "success" out = Some (VBool true) /\
   get "total_fundings" out = Some (VInt (Z.of_nat (List.length rates))) /\
   exists average_rate max_rate min_rate current_rate : Q,
   exists trend : string,
     get "average_rate" out = Some (VNum average_rate) /\
     get "max_rate" out = Some (VNum max_rate) /\
     get "min_rate" out = Some (VNum min_rate) /\
     get "current_rate" out = Some (VNum current_rate) /\
     get "trend" out = Some (VStr trend) /\
     In max_rate rates /\ In min_rate rates /\
     (forall r, In r rates -> min_rate <= r <= max_rate) /\
     min_rate <= average_rate <= max_rate /\
     min_rate <= current_rate <= max_rate /\
     (trend = "INSUFFICIENT_DATA" <-> (List.length rates < 16)%nat)).
Proof.
  intros Vs Ve Hh F out. subst out.
  unfold get_funding_rate_history, with_symbol_exchange.
  rewrite Vs, Ve, (validate_positive_int_ok _ _ _ Hh). cbn [bind].
  rewrite (get_exchange_validated _ _ Ve). cbn [bind]. rewrite F.
  cbn [bind]. split.
  - intros ->. cbn [List.map guard ret]. split; reflexivity.
  - intros Hne. destruct rates as [| r0 rest]; [congruence |].
    cbn [List.map]. change (Some r0 :: List.map Some rest)
      with (List.map Some (r0 :: rest)).
    rewrite float_rates_some. cbn [bind].
    set (rates := r0 :: rest) in *.
    destruct (fold_pymax_spec rest r0) as [Max_in Max_le].
    destruct (fold_pymin_spec rest r0) as [Min_in Min_le].
    fold rates in Max_in, Max_le, Min_in, Min_le.
    set (mx := fold_left pymax rest r0) in *.
    set (mn := fold_left pymin rest r0) in *.
    assert (B : forall r, In r rates -> mn <= r <= mx) by (split; auto).
    destruct (mean_between mn mx rates Hne B) as (avg & Ea & Ba).
    destruct (history_trend_cases rates) as (trend & Et & Ct).
    destruct (list_last_nonempty r0 rest) as (cur & Ec). fold rates in Ec.
    rewrite Ea. cbn [bind]. unfold list_max, list_min, rates at 1 2.
    fold mx mn. cbn [bind ret]. fold rates. rewrite Et. cbn [bind].
    rewrite Ec. cbn [bind guard ret].
    conjs; [reflexivity | reflexivity |].
    exists avg, mx, mn, cur, trend.
    split; [reflexivity |]. split; [reflexivity |]. split; [reflexivity |].
    split; [reflexivity |]. split; [reflexivity |].
    split; [exact Max_in |]. split; [exact Min_in |]. split; [exact B |].
    split; [exact Ba |]. split; [apply B, list_last_In; exact Ec |].
    destruct Ct as [[L ->] | [G [-> | ->]]]; split; intros; try lia;
      try discriminate; reflexivity.
Qed.

Lemma funding_history_statistics_witness :
  get "success"
    (get_funding_rate_history
       (fun _ _ _ => ret (List.map Some [0.0001; 0.0003; 0.0002]))
       (fun _ => 0%Z) "BTC" "bybit" 24)
  = Some (VBool true) /\
  get "total_fundings"
    (get_funding_rate_history
       (fun _ _ _ => ret (List.map Some [0.0001; 0.0003; 0.0002]))
       (fun _ => 0%Z) "BTC" "bybit" 24)
  = Some (VInt 3).
Proof.
  destruct (funding_history_statistics
              (fun _ _ _ => ret (List.map Some [0.0001; 0.0003; 0.0002]))
              (fun _ => 0%Z) "BTC" "bybit" "BTC" "bybit" 24
              [0.0001; 0.0003; 0.0002])
    as (_ & H).
  - reflexivity.
  - reflexivity.
  - lia.
  - reflexivity.
  - destruct H as (S & T & _); [discriminate |]. split; [exact S | exact T].
Defined.

(** ** Futures: the consolidated statistics *)

Lemma failure_not_succeeded (e : exn) (echo : payload) :
  succeeded (failure e echo) = false.
Proof. reflexivity. Qed.

(** A payload of [get_funding_rate] that reports success carries the rate
    and the annualized rate as numbers. *)
Lemma get_funding_rate_cases
  (fetch : string -> string -> result FundingRate) (symbol exchange : string) :
  let out := get_funding_rate fetch symbol exchange in
  succeeded out = false \/
  exists rate : Q,
    succeeded out = true /\
    get "funding_rate" out = Some (VNum rate) /\
    get "annual_rate_percentage" out = Some (VNum (round (annualize rate) 2)).
Proof.
  cbv zeta. unfold get_funding_rate, with_symbol_exchange.
  destruct (validate_symbol symbol) as [e | symbol']; [left; reflexivity |].
  destruct (validate_exchange exchange RELIABLE_FUTURES_EXCHANGES)
    as [e | exchange']; [left; reflexivity |].
  destruct (FuturesData._get_exchange exchange') as [e | ex];
    [left; reflexivity |].
  cbn [bind].
  destruct (fetch ex (_format_symbol symbol')) as [e | funding];
    [left; reflexivity |].
  cbn [bind].
  destruct (fundingRate funding) as [rate |]; [| left; reflexivity].
  cbn [bind ret].
  destruct (fundingTimestamp funding) as [ts |]; [| left; reflexivity].
  cbn [bind].
  destruct (funding_bias funding_thresholds (annualize rate)).
  right. exists rate. cbn [guard ret]. conjs; reflexivity.
Qed.

Lemma get_long_short_ratio_cases
  (requests_get_top requests_get_global
     : string -> string -> result (Response RatioEntry))
  (symbol exchange period : string) :
  let out :=
    get_long_short_ratio requests_get_top requests_get_global
      symbol exchange period in
  succeeded out = false \/
  exists ratio : Q,
    get "top_trader_long_short_ratio" out = Some (VNum ratio).
Proof.
  cbv zeta. unfold get_long_short_ratio.
  destruct (negb (String.eqb exchange "binance")); [left; reflexivity |].
  destruct (validate_symbol symbol) as [e | symbol']; [left; reflexivity |].
  destruct (requests_get_top _ period) as [e | resp_top];
    [left; reflexivity |].
  cbn [bind].
  destruct (requests_get_global _ period) as [e | resp_global];
    [left; reflexivity |].
  cbn [bind].
  destruct (negb (status_code resp_top =? 200)%Z
            || negb (status_code resp_global =? 200)%Z);
    [left; reflexivity |].
  destruct (float_or_zero _) as [e | top_ratio]; [left; reflexivity |].
  cbn [bind].
  destruct (float_or_zero _) as [e | global_ratio]; [left; reflexivity |].
  cbn [bind].
  destruct (ls_sentiment top_ratio).
  right. exists top_ratio. reflexivity.
Qed.

Lemma get_taker_buy_sell_ratio_cases
  (requests_get_taker : string -> string -> result (Response TakerEntry))
  (symbol exchange period : string) :
  let out :=
    get_taker_buy_sell_ratio requests_get_taker symbol exchange period in
  succeeded out = false \/
  exists pressure : string,
    get "market_pressure" out = Some (VStr pressure).
Proof.
  cbv zeta. unfold get_taker_buy_sell_ratio.
  destruct (negb (String.eqb exchange "binance")); [left; reflexivity |].
  destruct (validate_symbol symbol) as [e | symbol']; [left; reflexivity |].
  destruct (requests_get_taker _ period) as [e | resp];
    [left; reflexivity |].
  cbn [bind].
  destruct (negb (status_code resp =? 200)%Z); [left; reflexivity |].
  cbv zeta.
  destruct (float_or_zero _) as [e | ratio]; [left; reflexivity |].
  cbn [bind].
  destruct (float_or_zero _) as [e | buy_vol]; [left; reflexivity |].
  cbn [bind].
  destruct (float_or_zero _) as [e | sell_vol]; [left; reflexivity |].
  cbn [bind].
  destruct (taker_pressure ratio) as [pressure interpretation].
  right. exists pressure. reflexivity.
Qed.

Lemma funding_adjustment_cases (funding : payload) (score : Z)
  (signals : list string) :
  (succeeded funding = false \/
   exists q : Q, get "annual_rate_percentage" funding = Some (VNum q)) ->
  exists score' signals',
    funding_adjustment funding (score, signals) = inr (score', signals') /\
    In score' [score - 15; score; score + 15]%Z.
Proof.
  intros H. unfold funding_adjustment.
  destruct (succeeded funding) eqn:S.
  - destruct H as [H | [q Hq]]; [discriminate |].
    unfold item. rewrite Hq. cbn [bind ret as_number VNum].
    destruct (F64.gtb _ _); [destruct (F64.gtb _ _) |];
      do 2 eexists; (split; [reflexivity |]);
      unfold SCORE_FUNDING_EXTREME; cbn [In]; auto.
  - do 2 eexists. split; [reflexivity |]. cbn [In]. auto.
Qed.

Lemma ls_adjustment_cases (ls_ratio : option payload) (score : Z)
  (signals : list string) :
  (forall d, ls_ratio = Some d ->
     succeeded d = false \/
     exists q : Q, get "top_trader_long_short_ratio" d = Some (VNum q)) ->
  exists score' signals',
    ls_adjustment ls_ratio (score, signals) = inr (score', signals') /\
    In score' [score - 10; score; score + 10]%Z /\
    (ls_ratio = None -> score' = score).
Proof.
  intros H. unfold ls_adjustment.
  destruct ls_ratio as [d |].
  - destruct (truth (VDict d) && succeeded d) eqn:S.
    + apply andb_true_iff in S. destruct S as [_ S].
      destruct (H d eq_refl) as [H' | [q Hq]]; [congruence |].
      unfold item. rewrite Hq. cbn [bind ret as_number VNum].
      destruct (F64.gtb _ _); [| destruct (F64.ltb _ _)];
        do 2 eexists; (split; [reflexivity |]);
        unfold SCORE_LS_RATIO; cbn [In]; (split; [auto | discriminate]).
    + do 2 eexists. split; [reflexivity |]. cbn [In].
      split; [auto | discriminate].
  - do 2 eexists. split; [reflexivity |]. cbn [In]. auto.
Qed.

Lemma taker_adjustment_cases (taker_ratio : option payload) (score : Z)
  (signals : list string) :
  (forall d, taker_ratio = Some d ->
     succeeded d = false \/
     exists pressure : string,
       get "market_pressure" d = Some (VStr pressure)) ->
  exists score' signals',
    taker_adjustment taker_ratio (score, signals) = inr (score', signals') /\
    In score' [score - 10; score; score + 10]%Z /\
    (taker_ratio = None -> score' = score).
Proof.
  intros H. unfold taker_adjustment.
  destruct taker_ratio as [d |].
  - destruct (truth (VDict d) && succeeded d) eqn:S.
    + apply andb_true_iff in S. destruct S as [_ S].
      destruct (H d eq_refl) as [H' | [pressure Hp]]; [congruence |].
      unfold item. rewrite Hp. cbn [bind ret].
      destruct (String.eqb pressure "STRONG_BUY_PRESSURE");
        [| destruct (String.eqb pressure "STRONG_SELL_PRESSURE")];
        do 2 eexists; (split; [reflexivity |]);
        unfold SCORE_TAKER_PRESSURE; cbn [In]; (split; [auto | discriminate]).
    + do 2 eexists. split; [reflexivity |]. cbn [In].
      split; [auto | discriminate].
  - do 2 eexists. split; [reflexivity |]. cbn [In]. auto.
Qed.

(** X20. Once symbol and exchange validate, [get_perpetual_stats]
    succeeds whatever the tools it consolidates answer, a failure of each
    included.  Its score is a multiple of 5 between 15 and 85 and the signal
    is read off the score; on an exchange other than binance the two ratio
    tools are not asked, the score is 35, 50 or 65 and the signal is never
    STRONG_BUY or STRONG_SELL. *)
Theorem perpetual_stats_score
  (fetch_funding_rate : string -> string -> result FundingRate)
  (fetch_ticker_last : string -> string -> result (option Q))
  (fetch_open_interest : string -> string -> result OpenInterest)
  (requests_get_top requests_get_global
     : string -> string -> result (Response RatioEntry))
  (requests_get_taker : string -> string -> result (Response TakerEntry))
  (now : string) (symbol exchange symbol' exchange' : string) :
  validate_symbol symbol = inr symbol' ->
  validate_exchange exchange RELIABLE_FUTURES_EXCHANGES = inr exchange' ->
  let out :=
    get_perpetual_stats fetch_funding_rate fetch_ticker_last
      fetch_open_interest requests_get_top requests_get_global
      requests_get_taker now symbol exchange in
  exists score : Z,
    get "success" out = Some (VBool true) /\
    get "symbol" out = Some (VStr symbol') /\
    get "score" out = Some (VInt score) /\
    get "overall_signal" out = Some (VStr (overall_signal score)) /\
    (15 <= score <= 85)%Z /\
    (score mod 5 = 0)%Z /\
    (exchange' <> "binance" ->
     In score [35; 50; 65]%Z /\
     In (overall_signal score) ["SELL"; "NEUTRAL"; "BUY"] /\
     get "long_short_ratio_data" out = Some VNone /\
     get "taker_ratio_data" out = Some VNone).
Proof.
  intros Vs Ve out. subst out.
  unfold get_perpetual_stats, with_symbol_exchange. rewrite Vs, Ve.
  cbv zeta.
  destruct (funding_adjustment_cases
              (get_funding_rate fetch_funding_rate symbol' exchange') 50 [])
    as (s1 & g1 & E1 & I1).
  { destruct (get_funding_rate_cases fetch_funding_rate symbol' exchange')
      as [F | (rate & _ & _ & A)]; [left; exact F | right; eauto]. }
  rewrite E1. cbn [bind].
  match goal with
  | |- context [ls_adjustment ?ls _] =>
      destruct (ls_adjustment_cases ls s1 g1) as (s2 & g2 & E2 & I2 & N2)
  end.
  { intros d Hd. destruct (String.eqb exchange' "binance"); [| discriminate].
    injection Hd as <-. apply get_long_short_ratio_cases. }
  rewrite E2. cbn [bind].
  match goal with
  | |- context [taker_adjustment ?tk _] =>
      destruct (taker_adjustment_cases tk s2 g2) as (s3 & g3 & E3 & I3 & N3)
  end.
  { intros d Hd. destruct (String.eqb exchange' "binance"); [| discriminate].
    injection Hd as <-. apply get_taker_buy_sell_ratio_cases. }
  rewrite E3. cbn [bind guard ret].
  exists s3.
  split; [reflexivity |]. split; [reflexivity |]. split; [reflexivity |].
  split; [reflexivity |].
  cbn [In] in I1, I2, I3.
  split; [lia |]. split.
  { destruct I1 as [<- | [<- | [<- | []]]];
      destruct I2 as [<- | [<- | [<- | []]]];
      destruct I3 as [<- | [<- | [<- | []]]]; reflexivity. }
  intros Hne. apply String.eqb_neq in Hne. rewrite Hne in *.
  specialize (N2 eq_refl). specialize (N3 eq_refl). subst s2 s3.
  split; [| split; [| split; reflexivity]].
  - cbn [In]. lia.
  - destruct I1 as [<- | [<- | [<- | []]]]; cbn; auto.
Qed.

Lemma perpetual_stats_score_witness :
  exists score : Z,
    get "score"
      (get_perpetual_stats
         (fun _ _ => ret {| fundingRate := Some 0.001;
                            fundingTimestamp := Some 0%Z |})
         (fun _ _ => ret (Some 100))
         (fun _ _ => raise (OtherError "NetworkError" "timeout"))
         (fun _ _ => raise (OtherError "NetworkError" "timeout"))
         (fun _ _ => raise (OtherError "NetworkError" "timeout"))
         (fun _ _ => raise (OtherError "NetworkError" "timeout"))
         "t0" "btc" "OKX")
    = Some (VInt score) /\
    In score [35; 50; 65]%Z.
Proof.
  destruct (perpetual_stats_score
              (fun _ _ => ret {| fundingRate := Some 0.001;
                                 fundingTimestamp := Some 0%Z |})
              (fun _ _ => ret (Some 100))
              (fun _ _ => raise (OtherError "NetworkError" "timeout"))
              (fun _ _ => raise (OtherError "NetworkError" "timeout"))
              (fun _ _ => raise (OtherError "NetworkError" "timeout"))
              (fun _ _ => raise (OtherError "NetworkError" "timeout"))
              "t0" "btc" "OKX" "BTC" "okx")
    as (score & _ & _ & S & _ & _ & _ & N).
  - reflexivity.
  - reflexivity.
  - exists score. split; [exact S |]. apply N. discriminate.
Defined.

(** ** Futures: comparing the funding of the exchanges *)

Lemma insert_by_rate_In (x y : FundingQuote) (xs : list FundingQuote) :
  In y (insert_by_rate x xs) <-> y = x \/ In y xs.
Proof.
  induction xs as [| z rest IH]; cbn [insert_by_rate].
  - cbn. intuition.
  - destruct (Qle_bool (quote_rate x) (quote_rate z)); cbn [In].
    + intuition.
    + rewrite IH. intuition.
Qed.

Lemma sorted_by_rate_In (y : FundingQuote) (xs : list FundingQuote) :
  In y (sorted_by_rate xs) <-> In y xs.
Proof.
  unfold sorted_by_rate. induction xs as [| x rest IH]; cbn [fold_right In].
  - reflexivity.
  - rewrite insert_by_rate_In, IH. intuition.
Qed.

Lemma insert_by_rate_ascending (x : FundingQuote) (xs : list FundingQuote) :
  ascending xs -> ascending (insert_by_rate x xs).
Proof.
  induction xs as [| z rest IH]; cbn [insert_by_rate ascending].
  - intros _. split; [intros y [] | exact I].
  - intros [Hz Hrest].
    destruct (Qle_bool _ _) eqn:L.
    + apply Qle_bool_iff in L. cbn [ascending]. split; [| split; assumption].
      intros y [<- | Hy]; [exact L |].
      eapply Qle_trans; [exact L | apply Hz; exact Hy].
    + assert (L' : quote_rate z <= quote_rate x).
      { apply Qlt_le_weak, Qnot_le_lt. intros C.
        apply Qle_bool_iff in C. congruence. }
      cbn [ascending]. split; [| apply IH; exact Hrest].
      intros y Hy. apply insert_by_rate_In in Hy.
      destruct Hy as [-> | Hy]; [exact L' | apply Hz; exact Hy].
Qed.

Lemma sorted_by_rate_ascending (xs : list FundingQuote) :
  ascending (sorted_by_rate xs).
Proof.
  unfold sorted_by_rate. induction xs as [| x rest IH]; cbn [fold_right].
  - exact I.
  - apply insert_by_rate_ascending. exact IH.
Qed.

Lemma ascending_last (xs : list FundingQuote) (highest : FundingQuote) :
  ascending xs -> list_last xs = inr highest ->
  forall y, In y xs -> quote_rate y <= quote_rate highest.
Proof.
  intros Ha Hl. pose proof (list_last_In _ _ Hl) as Hin.
  unfold list_last in Hl.
  destruct (nth_error xs (List.length xs - 1)) as [h |] eqn:E;
    [| discriminate].
  injection Hl as ->.
  revert E Hin Ha. induction xs as [| x rest IH]; intros E Hin Ha y Hy.
  - destruct Hy.
  - cbn [ascending] in Ha. destruct Ha as [Hx Hrest].
    destruct rest as [| x' rest'].
    + cbn in E. injection E as <-. destruct Hy as [<- | []]. apply Qle_refl.
    + assert (E' : nth_error (x' :: rest') (List.length (x' :: rest') - 1)
                   = Some highest).
      { cbn [List.length] in E |- *.
        replace (S (S (List.length rest')) - 1)%nat
          with (S (List.length rest')) in E by lia.
        replace (S (List.length rest') - 1)%nat with (List.length rest')
          by lia.
        exact E. }
      assert (Hin' : In highest (x' :: rest')).
      { eapply nth_error_In. exact E'. }
      destruct Hy as [<- | Hy]; [apply Hx; exact Hin' |].
      apply (IH E' Hin' Hrest y Hy).
Qed.

(** Each quote the loop collects comes from a successful answer of
    [get_funding_rate] for one of the exchanges. *)
Lemma compare_loop_quotes
  (fetch : string -> string -> result FundingRate) (symbol : string)
  (exchanges : list string) :
  forall (results : payload) (rates : list FundingQuote) (q : FundingQuote),
    In q (snd (compare_loop fetch symbol exchanges results rates)) ->
    In q rates \/
    (In (quote_exchange q) exchanges /\
     get "funding_rate" (get_funding_rate fetch symbol (quote_exchange q))
     = Some (VNum (quote_rate q)) /\
     get "annual_rate_percentage"
       (get_funding_rate fetch symbol (quote_exchange q))
     = Some (VNum (quote_annual_rate q))).
Proof.
  induction exchanges as [| exchange rest IH]; intros results rates q;
    cbn [compare_loop snd].
  - auto.
  - cbv zeta. destruct (succeeded (get_funding_rate fetch symbol exchange)).
    + destruct (get "funding_rate" (get_funding_rate fetch symbol exchange))
        as [[| | | [rate | | |] | | |] |] eqn:Er;
        try solve [intros H; apply IH in H; cbn [In]; intuition].
      destruct (get "annual_rate_percentage"
                  (get_funding_rate fetch symbol exchange))
        as [[| | | [annual | | |] | | |] |] eqn:Ea;
        try solve [intros H; apply IH in H; cbn [In]; intuition].
      intros H. apply IH in H. destruct H as [H | H]; [| cbn [In]; intuition].
      apply in_app_or in H. destruct H as [H | [<- | []]]; [auto |].
      right. cbn [quote_exchange quote_rate quote_annual_rate In].
      auto.
    + intros H. apply IH in H. cbn [In]. intuition.
Qed.

(** X21. [compare_funding_rates] collects a quote from every exchange of
    its list on which [get_funding_rate] succeeds.  With no quote it answers
    NoDataError, without a symbol; otherwise the lowest and the highest
    funding it reports are quotes collected, every collected rate lies
    between them, and the spread, their difference, is not negative. *)
Theorem compare_funding_rates_extremes
  (fetch : string -> string -> result FundingRate) (now : string)
  (symbol symbol' : string) (exchanges : option (list string)) :
  validate_symbol symbol = inr symbol' ->
  let rates := snd (compare_loop fetch symbol' (compared exchanges) [] []) in
  let out := compare_funding_rates fetch now symbol exchanges in
  (rates = [] ->
   get "success" out = Some (VBool false) /\
   get "error_type" out = Some (VStr "NoDataError") /\
   get "symbol" out = None)
  /\
  (rates <> [] ->
   exists lowest highest : FundingQuote,
     get "success" out = Some (VBool true) /\
     get "exchanges_compared" out
     = Some (VInt (Z.of_nat (List.length rates))) /\
     get "lowest_funding" out = Some (quote_dict lowest) /\
     get "highest_funding" out = Some (quote_dict highest) /\
     get "spread" out
     = Some (VNum (quote_rate highest - quote_rate lowest)) /\
     In lowest rates /\ In highest rates /\
     (forall q, In q rates ->
        quote_rate lowest <= quote_rate q <= quote_rate highest) /\
     0 <= quote_rate highest - quote_rate lowest /\
     (forall q, In q rates ->
        In (quote_exchange q) (compared exchanges) /\
        get "funding_rate" (get_funding_rate fetch symbol' (quote_exchange q))
        = Some (VNum (quote_rate q)))).
Proof.
  intros Vs rates out. subst out.
  unfold compare_funding_rates. rewrite Vs. fold (compared exchanges).
  destruct (compare_loop fetch symbol' (compared exchanges) [] [])
    as [results rates'] eqn:L.
  cbn [snd] in rates. subst rates. split.
  - intros ->. cbn [guard ret]. conjs; reflexivity.
  - intros Hne. destruct rates' as [| q0 more]; [congruence |].
    set (rates := q0 :: more) in *.
    pose proof (sorted_by_rate_ascending rates) as Asc.
    destruct (sorted_by_rate rates) as [| lowest sorted_rest] eqn:S.
    { assert (Hin : In q0 (sorted_by_rate rates)).
      { apply sorted_by_rate_In. left. reflexivity. }
      rewrite S in Hin. destruct Hin. }
    destruct (list_last_nonempty lowest sorted_rest) as (highest & El).
    cbn [bind ret]. rewrite El. cbn [bind guard ret].
    assert (Hlow : In lowest rates).
    { apply sorted_by_rate_In. rewrite S. left. reflexivity. }
    assert (Hhigh : In highest rates).
    { apply sorted_by_rate_In. rewrite S. eapply list_last_In. exact El. }
    assert (B : forall q, In q rates ->
                  quote_rate lowest <= quote_rate q <= quote_rate highest).
    { intros q Hq. apply sorted_by_rate_In in Hq. rewrite S in Hq. split.
      - destruct Hq as [<- | Hq]; [apply Qle_refl |].
        cbn [ascending] in Asc. apply (proj1 Asc). exact Hq.
      - eapply ascending_last; eassumption. }
    exists lowest, highest.
    split; [reflexivity |]. split; [reflexivity |]. split; [reflexivity |].
    split; [reflexivity |]. split; [reflexivity |].
    split; [exact Hlow |]. split; [exact Hhigh |]. split; [exact B |].
    split; [destruct (B lowest Hlow); lra |].
    intros q Hq.
    pose proof (compare_loop_quotes fetch symbol' (compared exchanges)
                  [] [] q) as P.
    rewrite L in P. cbn [snd] in P.
    destruct (P Hq) as [[] | (He & Hr & _)]. auto.
Qed.


Lemma compare_funding_rates_extremes_witness :
  get "success" (compare_funding_rates three_rates "t0" "btc" None)
  = Some (VBool true) /\
  get "exchanges_compared" (compare_funding_rates three_rates "t0" "btc" None)
  = Some (VInt 3).
Proof.
  destruct (compare_funding_rates_extremes three_rates "t0" "btc" "BTC" None)
    as (_ & H); [reflexivity |].
  destruct H as (lowest & highest & S & N & _); [discriminate |].
  split; [exact S | exact N].
Defined.

(** ** Futures: the arbitrage detector *)




(** ** Williams %R and the Ichimoku cloud *)

Lemma rolling_length (agg : list Q -> float64) (w : nat) (xs : list Q) :
  List.length (rolling agg w xs) = List.length xs.
Proof. unfold rolling. now rewrite length_map, length_seq. Qed.

Lemma rolling_nth (agg : list Q -> float64) (w : nat) (xs : list Q) (i : nat) :
  (i < List.length xs)%nat ->
  nth_error (rolling agg w xs) i
  = Some (if Nat.ltb (i + 1) w then NaN
          else agg (slice (i + 1 - w) (i + 1) xs)).
Proof.
  intros H. unfold rolling. rewrite nth_error_map, nth_error_seq.
  destruct (Nat.ltb_spec i (List.length xs)); [reflexivity | lia].
Qed.

Lemma nth_error_combine {A B} (xs : list A) (ys : list B) (i : nat)
  (x : A) (y : B) :
  nth_error xs i = Some x -> nth_error ys i = Some y ->
  nth_error (combine xs ys) i = Some (x, y).
Proof.
  revert ys i. induction xs as [| a xs IH]; intros [| b ys] [| i];
    cbn; try discriminate.
  - intros [= ->] [= ->]. reflexivity.
  - apply IH.
Qed.

Lemma iloc_last {A} (xs : list A) (x : A) :
  nth_error xs (List.length xs - 1) = Some x -> iloc_neg xs 1 = inr x.
Proof.
  intros H. unfold iloc_neg.
  destruct (Nat.ltb_spec (List.length xs) 1) as [L | L].
  - destruct xs; [discriminate H | cbn [List.length] in L; lia].
  - rewrite H. reflexivity.
Qed.

Lemma nth_error_last {A} (pre : list A) (x : A) :
  nth_error (pre ++ [x])%list (List.length (pre ++ [x])%list - 1) = Some x.
Proof.
  rewrite length_app. cbn [List.length].
  replace (List.length pre + 1 - 1)%nat with (List.length pre) by lia.
  rewrite nth_error_app2 by lia. now rewrite Nat.sub_diag.
Qed.

(** The window that ends with the last row holds the last row. *)
Lemma slice_last_In {A} (pre : list A) (x : A) (w : nat) :
  (1 <= w)%nat ->
  In x (slice (List.length (pre ++ [x])%list - w)
          (List.length (pre ++ [x])%list) (pre ++ [x])%list).
Proof.
  intros Hw. unfold slice.
  set (n := List.length (pre ++ [x])%list).
  rewrite firstn_all2 by (rewrite length_skipn; lia).
  assert (Hn : n = (List.length pre + 1)%nat).
  { unfold n. rewrite length_app. reflexivity. }
  rewrite skipn_app. apply in_or_app. right.
  replace (n - w - List.length pre)%nat with 0%nat by lia.
  left. reflexivity.
Qed.

Lemma slice_nonempty {A} (xs : list A) (w : nat) :
  (1 <= w <= List.length xs)%nat ->
  slice (List.length xs - w) (List.length xs) xs <> [].
Proof.
  intros H E. apply (f_equal (@List.length A)) in E. unfold slice in E.
  rewrite length_firstn, length_skipn in E. cbn [List.length] in E. lia.
Qed.

Lemma window_max_spec (xs : list Q) :
  xs <> [] ->
  exists m, window_max xs = Fin m /\ In m xs /\ forall y, In y xs -> y <= m.
Proof.
  intros H. destruct xs as [| x rest]; [congruence |].
  destruct (fold_pymax_spec rest x) as [Hin Hle].
  exists (fold_left pymax rest x). auto.
Qed.

Lemma window_min_spec (xs : list Q) :
  xs <> [] ->
  exists m, window_min xs = Fin m /\ In m xs /\ forall y, In y xs -> m <= y.
Proof.
  intros H. destruct xs as [| x rest]; [congruence |].
  destruct (fold_pymin_spec rest x) as [Hin Hle].
  exists (fold_left pymin rest x). auto.
Qed.

(** The last entry of the Williams column. *)
Lemma williams_r_last (w : nat) (pre : list Candle) (last : Candle) :
  let df := (pre ++ [last])%list in
  let n := List.length df in
  iloc_neg (williams_r w df) 1
  = inr (let hh := if Nat.ltb n w then NaN
                   else window_max (slice (n - w) n (List.map high df)) in
         let ll := if Nat.ltb n w then NaN
                   else window_min (slice (n - w) n (List.map low df)) in
         F64.mul (F64.div (F64.sub hh (Fin (close last))) (F64.sub hh ll))
                 (Fin (-100))).
Proof.
  intros df n. apply iloc_last. unfold williams_r, rolling_max, rolling_min.
  rewrite length_map, !length_combine, !rolling_length, !length_map.
  fold n. rewrite !Nat.min_id.
  assert (Hn : (n - 1 < n)%nat).
  { unfold n, df. rewrite length_app. cbn [List.length]. lia. }
  assert (E1 : (n - 1 + 1 = n)%nat) by lia.
  rewrite nth_error_map.
  rewrite (nth_error_combine _ _ _
             (if Nat.ltb n w then NaN
              else window_max (slice (n - w) n (List.map high df)))
             (if Nat.ltb n w then NaN
              else window_min (slice (n - w) n (List.map low df)),
              close last)); [reflexivity | | apply nth_error_combine].
  - rewrite rolling_nth by (rewrite length_map; exact Hn).
    rewrite E1. reflexivity.
  - rewrite rolling_nth by (rewrite length_map; exact Hn).
    rewrite E1. reflexivity.
  - apply map_nth_error. apply nth_error_last.
Qed.

(** X23. With valid arguments and at least one row, [calculate_williams_r]
    succeeds.  With fewer rows than the period it reports NaN and the signal
    NEUTRAL.  With a full window of bars whose close lies between low and
    high, the close lies between the lowest low and the highest high of the
    window; when these two are equal the value is NaN and the signal NEUTRAL;
    otherwise the value is (highest - close) / (highest - lowest) * -100
    rounded to two places and lies between -100 and 0. *)
Theorem williams_r_range
  (fetch : string -> string -> Z -> result DataFrame)
  (symbol timeframe symbol' timeframe' : string) (period periods : Z)
  (pre : list Candle) (last : Candle) :
  validate_symbol symbol = inr symbol' ->
  validate_timeframe timeframe = inr timeframe' ->
  (0 < period <= 100)%Z ->
  (0 < periods <= 500)%Z ->
  fetch (symbol' ++ "/USDT") timeframe' periods = inr (pre ++ [last])%list ->
  let df := (pre ++ [last])%list in
  let n := List.length df in
  let w := Z.to_nat period in
  let out := calculate_williams_r fetch symbol timeframe period periods in
  get "success" out = Some (VBool true) /\
  ((n < w)%nat ->
   get "current_williams_r" out = Some (VFloat NaN) /\
   get "signal" out = Some (VStr "NEUTRAL")) /\
  ((w <= n)%nat ->
   Forall ordered_candle df ->
   exists hh ll : Q,
     window_max (slice (n - w) n (List.map high df)) = Fin hh /\
     window_min (slice (n - w) n (List.map low df)) = Fin ll /\
     ll <= close last <= hh /\
     (hh == ll ->
      get "current_williams_r" out = Some (VFloat NaN) /\
      get "signal" out = Some (VStr "NEUTRAL")) /\
     (~ hh == ll ->
      exists value : Q,
        get "current_williams_r" out = Some (VNum value) /\
        value = round ((hh - close last) / (hh - ll) * -100) 2 /\
        -100 <= value <= 0)).
Proof.
  intros Vs Vt Hp Hps F df n w out. subst out.
  unfold calculate_williams_r, with_symbol, _fetch_ohlcv. rewrite Vs, Vt.
  cbn [bind guard].
  rewrite (validate_positive_int_ok _ _ _ Hp),
          (validate_positive_int_ok _ _ _ Hps).
  cbn [bind]. rewrite F. cbn [bind].
  pose proof (williams_r_last w pre last) as Wl. cbv zeta in Wl.
  fold df n in Wl. fold w. fold df. rewrite Wl. cbn [bind].
  rewrite (iloc_last df last) by apply nth_error_last. clear Wl.
  assert (Hw : (1 <= w)%nat) by (unfold w; lia).
  split; [| split].
  - destruct (williams_signal _). reflexivity.
  - intros Hn. destruct (Nat.ltb_spec n w); [| lia]. cbn [guard ret].
    split; reflexivity.
  - intros Hn Hord. destruct (Nat.ltb_spec n w); [lia |].
    destruct (window_max_spec (slice (n - w) n (List.map high df)))
      as (hh & Eh & Hin & Hmax).
    { unfold n. rewrite <- (length_map high df). apply slice_nonempty.
      rewrite length_map. fold n. lia. }
    destruct (window_min_spec (slice (n - w) n (List.map low df)))
      as (ll & El & Lin & Lmin).
    { unfold n. rewrite <- (length_map low df). apply slice_nonempty.
      rewrite length_map. fold n. lia. }
    assert (Ol : ordered_candle last).
    { rewrite Forall_forall in Hord. apply Hord. unfold df.
      apply in_or_app. right. left. reflexivity. }
    destruct Ol as [Ol Oh].
    assert (Hh : high last <= hh).
    { apply Hmax. unfold n, df. rewrite <- (length_map high (pre ++ [last])).
      rewrite map_app. cbn [List.map]. apply slice_last_In. exact Hw. }
    assert (Hl : ll <= low last).
    { apply Lmin. unfold n, df. rewrite <- (length_map low (pre ++ [last])).
      rewrite map_app. cbn [List.map]. apply slice_last_In. exact Hw. }
    exists hh, ll. rewrite Eh, El.
    split; [reflexivity |]. split; [reflexivity |]. split; [lra |].
    cbn [F64.sub F64.neg F64.add F64.div].
    assert (Ed : hh + - ll == 0 <-> hh == ll) by (split; intro; lra).
    split.
    + intros E. rewrite (Qeq_bool_true (hh + - ll) 0) by (apply Ed; exact E).
      assert (Z0 : hh + - close last == 0) by lra.
      assert (L1 : Qltb 0 (hh + - close last) = false)
        by (apply Qltb_ge; lra).
      assert (L2 : Qltb (hh + - close last) 0 = false)
        by (apply Qltb_ge; lra).
      rewrite L1, L2. cbn [F64.mul guard ret]. split; reflexivity.
    + intros Ne.
      rewrite (Qeq_bool_neq (hh + - ll) 0) by (rewrite Ed; exact Ne).
      cbn [F64.mul].
      destruct (williams_signal _). cbn [guard ret F64.round].
      eexists. split; [reflexivity |].
      assert (Pos : 0 < hh - ll) by lra.
      assert (Ev : (hh + - close last) / (hh + - ll) * -100
                   == (hh - close last) / (hh - ll) * -100).
      { field. lra. }
      split; [apply round_comp; exact Ev |].
      apply (round_bounds _ 2 (-100) 0).
      change (inject_Z (-100)) with (-100). change (inject_Z 0) with 0.
      rewrite Ev.
      assert (0 <= (hh - close last) / (hh - ll))
        by (apply Qle_shift_div_l; lra).
      assert ((hh - close last) / (hh - ll) <= 1)
        by (apply Qle_shift_div_r; lra).
      lra.
Qed.

Lemma williams_r_range_witness :
  get "current_williams_r"
    (calculate_williams_r (serve (four_bars ++ [bar 14 12 13])%list)
       "BTC" "1h" 14 100)
  = Some (VFloat NaN) /\
  get "signal"
    (calculate_williams_r (serve (four_bars ++ [bar 14 12 13])%list)
       "BTC" "1h" 14 100)
  = Some (VStr "NEUTRAL").
Proof.
  destruct (williams_r_range (serve (four_bars ++ [bar 14 12 13])%list)
              "BTC" "1h" "BTC" "1h" 14 100 four_bars (bar 14 12 13))
    as (_ & H & _).
  - reflexivity.
  - reflexivity.
  - lia.
  - lia.
  - reflexivity.
  - apply H. cbn. lia.
Defined.

Lemma midline_length (highs lows : list float64) :
  List.length highs = List.length lows ->
  List.length (midline highs lows) = List.length highs.
Proof.
  intros H. unfold midline. rewrite length_map, length_combine, <- H.
  apply Nat.min_id.
Qed.

Lemma ichimoku_line_length (w : nat) (df : DataFrame) :
  List.length (ichimoku_line w df) = List.length df.
Proof.
  unfold ichimoku_line, rolling_max, rolling_min.
  rewrite midline_length; rewrite !rolling_length, !length_map; reflexivity.
Qed.

(** A line is NaN on the rows before its window is full. *)
Lemma ichimoku_line_warmup (w : nat) (df : DataFrame) (i : nat) :
  (i < List.length df)%nat -> (i + 1 < w)%nat ->
  nth_error (ichimoku_line w df) i = Some NaN.
Proof.
  intros Hi Hw. unfold ichimoku_line, midline, rolling_max, rolling_min.
  rewrite nth_error_map.
  rewrite (nth_error_combine _ _ _ NaN NaN); [reflexivity | |];
    rewrite rolling_nth by (rewrite length_map; exact Hi);
    destruct (Nat.ltb_spec (i + 1) w); try lia; reflexivity.
Qed.

Lemma shift_length (k : nat) (xs : list float64) :
  List.length (shift k xs) = List.length xs.
Proof.
  unfold shift. rewrite length_firstn, length_app, repeat_length. lia.
Qed.

Lemma shift_nth (k : nat) (xs : list float64) (i : nat) :
  (i < List.length xs)%nat ->
  nth_error (shift k xs) i
  = if Nat.ltb i k then Some NaN else nth_error xs (i - k).
Proof.
  intros Hi. unfold shift. rewrite nth_error_firstn.
  destruct (Nat.ltb_spec i (List.length xs)); [| lia].
  destruct (Nat.ltb_spec i k).
  - rewrite nth_error_app1 by (rewrite repeat_length; lia).
    now apply nth_error_repeat.
  - rewrite nth_error_app2 by (rewrite repeat_length; lia).
    now rewrite repeat_length.
Qed.

(** A shifted line is NaN on the rows before the shifted window is full. *)
Lemma shift_warmup (k w : nat) (xs : list float64) (i : nat) :
  (i < List.length xs)%nat ->
  (forall j, (j < List.length xs)%nat -> (j + 1 < w)%nat ->
             nth_error xs j = Some NaN) ->
  (i + 1 < w + k)%nat ->
  nth_error (shift k xs) i = Some NaN.
Proof.
  intros Hi Hx Hw. rewrite shift_nth by exact Hi.
  destruct (Nat.ltb_spec i k); [reflexivity |]. apply Hx; lia.
Qed.

Lemma midline_nan_r (highs lows : list float64) (i : nat) :
  List.length highs = List.length lows ->
  (i < List.length highs)%nat ->
  nth_error lows i = Some NaN ->
  nth_error (midline highs lows) i = Some NaN.
Proof.
  intros Hl Hi Hn. unfold midline. rewrite nth_error_map.
  destruct (nth_error highs i) as [h |] eqn:E.
  - rewrite (nth_error_combine _ _ _ h NaN E Hn). cbn [option_map fst snd].
    now destruct h.
  - apply nth_error_None in E. lia.
Qed.

Lemma nth_error_total {A} (xs : list A) (i : nat) :
  (i < List.length xs)%nat -> exists x, nth_error xs i = Some x.
Proof.
  intros H. destruct (nth_error xs i) as [x |] eqn:E; [eauto |].
  apply nth_error_None in E. lia.
Qed.

Lemma senkou_span_a_length (df : DataFrame) :
  List.length (senkou_span_a df) = List.length df.
Proof.
  unfold senkou_span_a.
  rewrite shift_length, midline_length; rewrite !ichimoku_line_length;
    reflexivity.
Qed.

Lemma senkou_span_b_length (df : DataFrame) :
  List.length (senkou_span_b df) = List.length df.
Proof.
  unfold senkou_span_b. now rewrite shift_length, ichimoku_line_length.
Qed.

(** X24. With valid arguments and at least one row, [calculate_ichimoku]
    succeeds whatever the length of the history.  With fewer than 78 rows
    senkou_span_b is NaN and the cloud is reported BEARISH_CLOUD; with fewer
    than 52 rows senkou_span_a is NaN as well and the price is reported
    inside the cloud; with fewer than 26 rows kijun_sen is NaN and the second
    signal is the bearish one. *)
Theorem ichimoku_short_history
  (fetch : string -> string -> Z -> result DataFrame)
  (symbol timeframe symbol' timeframe' : string) (periods : Z)
  (df : DataFrame) :
  validate_symbol symbol = inr symbol' ->
  validate_timeframe timeframe = inr timeframe' ->
  (0 < periods <= 500)%Z ->
  fetch (symbol' ++ "/USDT") timeframe' periods = inr df ->
  df <> [] ->
  let n := List.length df in
  let out := calculate_ichimoku fetch symbol timeframe periods in
  get "success" out = Some (VBool true) /\
  ((n < 78)%nat ->
   get "senkou_span_b" out = Some (VFloat NaN) /\
   get "cloud_color" out = Some (VStr "BEARISH_CLOUD")) /\
  ((n < 52)%nat ->
   get "senkou_span_a" out = Some (VFloat NaN) /\
   exists tk : string,
     get "signals" out
     = Some (VList [VStr "Price inside cloud - Indecisive"; VStr tk])) /\
  ((n < 26)%nat ->
   get "kijun_sen" out = Some (VFloat NaN) /\
   get "signals" out
   = Some (VList [VStr "Price inside cloud - Indecisive";
                  VStr "Tenkan < Kijun - Bearish signal"])).
Proof.
  intros Vs Vt Hps F Hne n out. subst out.
  unfold calculate_ichimoku, with_symbol, _fetch_ohlcv. rewrite Vs, Vt.
  cbn [bind guard].
  rewrite (validate_positive_int_ok _ _ _ Hps). cbn [bind]. rewrite F.
  cbn [bind].
  assert (Hn : (n - 1 < n)%nat).
  { unfold n. destruct df; [congruence | cbn [List.length]; lia]. }
  destruct (nth_error_total df (n - 1) Hn) as (last & El).
  destruct (nth_error_total (ichimoku_line 9 df) (n - 1)) as (tenkan & Et).
  { now rewrite ichimoku_line_length. }
  destruct (nth_error_total (ichimoku_line 26 df) (n - 1)) as (kijun & Ek).
  { now rewrite ichimoku_line_length. }
  destruct (nth_error_total (senkou_span_a df) (n - 1)) as (span_a & Ea).
  { now rewrite senkou_span_a_length. }
  destruct (nth_error_total (senkou_span_b df) (n - 1)) as (span_b & Eb).
  { now rewrite senkou_span_b_length. }
  rewrite (iloc_last df last) by exact El. cbn [bind].
  rewrite (iloc_last _ tenkan)
    by (rewrite ichimoku_line_length; exact Et). cbn [bind].
  rewrite (iloc_last _ kijun)
    by (rewrite ichimoku_line_length; exact Ek). cbn [bind].
  rewrite (iloc_last _ span_a)
    by (rewrite senkou_span_a_length; exact Ea). cbn [bind].
  rewrite (iloc_last _ span_b)
    by (rewrite senkou_span_b_length; exact Eb). cbn [bind guard ret].
  assert (Sb : (n < 78)%nat -> span_b = NaN).
  { intros L. unfold senkou_span_b in Eb.
    rewrite (shift_warmup 26 52) in Eb; try congruence.
    - now rewrite ichimoku_line_length.
    - intros j Hj Hw. apply ichimoku_line_warmup; [| exact Hw].
      now rewrite ichimoku_line_length in Hj.
    - lia. }
  assert (Sa : (n < 52)%nat -> span_a = NaN).
  { intros L. unfold senkou_span_a in Ea.
    rewrite (shift_warmup 26 26) in Ea; try congruence.
    - rewrite midline_length; rewrite !ichimoku_line_length; auto.
    - intros j Hj Hw.
      rewrite midline_length in Hj by (rewrite !ichimoku_line_length; auto).
      apply midline_nan_r; [now rewrite !ichimoku_line_length | exact Hj |].
      rewrite ichimoku_line_length in Hj.
      apply ichimoku_line_warmup; assumption.
    - lia. }
  assert (Sk : (n < 26)%nat -> kijun = NaN).
  { intros L. rewrite ichimoku_line_warmup in Ek; try congruence; lia. }
  split; [reflexivity |]. split; [| split].
  - intros L. rewrite (Sb L). split; [reflexivity |].
    now destruct span_a.
  - intros L. rewrite (Sa L), (Sb ltac:(lia)).
    split; [reflexivity |]. eexists. reflexivity.
  - intros L. rewrite (Sa ltac:(lia)), (Sb ltac:(lia)), (Sk L).
    split; [reflexivity |]. now destruct tenkan.
Qed.

Lemma ichimoku_short_history_witness :
  get "cloud_color"
    (calculate_ichimoku (serve four_bars) "BTC" "4h" 100)
  = Some (VStr "BEARISH_CLOUD") /\
  get "signals"
    (calculate_ichimoku (serve four_bars) "BTC" "4h" 100)
  = Some (VList [VStr "Price inside cloud - Indecisive";
                 VStr "Tenkan < Kijun - Bearish signal"]).
Proof.
  destruct (ichimoku_short_history (serve four_bars)
              "BTC" "4h" "BTC" "4h" 100 four_bars)
    as (_ & B & _ & K).
  - reflexivity.
  - reflexivity.
  - lia.
  - reflexivity.
  - discriminate.
  - split; [apply B | apply K]; cbn; lia.
Defined.

(** ** Fibonacci retracement *)



















(** ** The exchange after validation *)

(** X26. An exchange that validates against a server's own exchanges is
    one [_get_exchange] knows: from the tools, which validate first, the
    ValueError of the futures server's [_get_exchange] and the fall-back to
    binance of the microstructure server's are never reached, although a
    name outside the server's exchanges would meet them. *)
Theorem get_exchange_after_validation :
  (forall exchange exchange' : string,
      validate_exchange exchange RELIABLE_FUTURES_EXCHANGES = inr exchange' ->
      FuturesData._get_exchange exchange' = inr exchange')
  /\ (forall exchange exchange' : string,
        validate_exchange exchange EXCHANGES = inr exchange' ->
        MarketMicrostructure._get_exchange exchange' = exchange')
  /\ (forall name : string,
        ~ In name RELIABLE_FUTURES_EXCHANGES ->
        exists msg, FuturesData._get_exchange name = inl (ValueError msg))
  /\ (forall name : string,
        ~ In name EXCHANGES ->
        MarketMicrostructure._get_exchange name = "binance").
Proof.
  conjs.
  - apply get_exchange_validated.
  - apply microstructure_exchange_validated.
  - intros name Hn. unfold FuturesData._get_exchange.
    destruct (Str.mem name RELIABLE_FUTURES_EXCHANGES) eqn:M.
    + apply mem_In in M. contradiction.
    + eexists. reflexivity.
  - intros name Hn. unfold MarketMicrostructure._get_exchange.
    destruct (Str.mem name EXCHANGES) eqn:M; [| reflexivity].
    apply mem_In in M. contradiction.
Qed.

Lemma get_exchange_after_validation_witness :
  FuturesData._get_exchange "okx" = inr "okx" /\
  MarketMicrostructure._get_exchange "bybit" = "bybit".
Proof.
  split.
  - apply (proj1 get_exchange_after_validation " OKX" "okx"). reflexivity.
  - apply (proj1 (proj2 get_exchange_after_validation) "Bybit " "bybit").
    reflexivity.
Defined.
